(** * Fisheries ledger chaincode: a shallow embedding and its properties

    The repository holds two variants of one Hyperledger Fabric contract:

    - [Bigdatacc]: [chaincode-backup/bigdatacc/bigdatacc.go], the legacy
      variant (public world state for every entity, permissive [hasRole],
      asset test utilities);
    - [Chaincode]: the current contract, over the domain types of
      [chaincode/models.go] (fishers in the private collection
      [FisherCollection], strict [hasRole], access control of [LogCatch]
      commented out, no asset utilities).

    Both are embedded as state-passing functions over a model of the
    chaincode stub.  The Go standard library ([strconv], [encoding/json]) and
    the Fabric peer are outside the repository: [strconv] is modelled
    concretely below, [encoding/json] is an interface ([json.Codec]) with a
    reference instance, and the peer is the [Stub] state together with a
    plan of the failures it may inject. *)

From Stdlib Require Import ZArith String Ascii List DecimalString Floats.SpecFloat.
From stdpp Require Import gmap strings list fin_maps sorting.

Local Open Scope Z_scope.

(** ** Go values *)

(** Go's [float64]: IEEE-754 binary64, as the specification type of Rocq's
    floats (sign, 53-bit mantissa, binary exponent). *)
Definition float64 : Type := spec_float.

(** [[]byte] values handed to and returned by the ledger. *)
Definition bytes : Type := string.

(** Go [error] values.  [fmt.Errorf] is kept symbolic: its format string and
    the string arguments consumed by its [%s] verbs; [ErrorfV] is a call
    whose format ends in a [%v] verb consuming the error [err]. *)
Inductive error : Type :=
| ErrSyntax
| ErrRange
| NumError (Func Num : string) (Err : error)
| ExternalError (msg : string)
| Errorf (format : string) (args : list string)
| ErrorfV (format : string) (args : list string) (err : error).

(** A Go result pair [(T, error)] with [err == nil] as [Ok]. *)
Inductive result (A : Type) : Type :=
| Ok (a : A)
| Err (e : error).
Arguments Ok {A} a.
Arguments Err {A} e.

Definition is_Ok {A} (r : result A) : bool :=
  match r with Ok _ => true | Err _ => false end.

(** [err != nil]. *)
Definition notNil (err : option error) : bool :=
  match err with Some _ => true | None => false end.

(** Go compares strings byte-wise; [s <= t] and [s >= t] on strings. *)
Definition str_le (s t : string) : bool := String.leb s t.
Definition str_ge (s t : string) : bool := String.leb t s.
Definition str_lt (s t : string) : bool := String.ltb s t.

(** ** strconv *)

Module strconv.

Definition lower (c : ascii) : ascii :=
  ascii_of_N (N.lor (N_of_ascii c) 32).

Definition isDigit (c : ascii) : bool :=
  (Ascii.leb "0" c && Ascii.leb c "9")%bool.

Definition isHexLetter (c : ascii) : bool :=
  (Ascii.leb "a" (lower c) && Ascii.leb (lower c) "f")%bool.

Definition digitVal (c : ascii) : Z := Z.of_N (N_of_ascii c) - 48.

Definition hexLetterVal (c : ascii) : Z :=
  Z.of_N (N_of_ascii (lower c)) - 97 + 10.

Definition syntaxError (fn str : string) : error := NumError fn str ErrSyntax.
Definition rangeError (fn str : string) : error := NumError fn str ErrRange.

Definition asciiToLower (c : ascii) : ascii :=
  if (Ascii.leb "A" c && Ascii.leb c "Z")%bool
  then ascii_of_N (N_of_ascii c + 32) else c.

Fixpoint commonPrefixLenIgnoreCase (s prefix : string) : nat :=
  match s, prefix with
  | String c s', String p prefix' =>
      if Ascii.eqb (asciiToLower c) p
      then S (commonPrefixLenIgnoreCase s' prefix') else O
  | _, _ => O
  end.

(** [special]: the (possibly signed) infinities and NaN, with the number
    of bytes consumed. *)
Definition special (s : string) : option (float64 * nat) :=
  let inf (sign : bool) (nsign : nat) (t : string) :=
    let n := commonPrefixLenIgnoreCase t "infinity" in
    let n := if (Nat.ltb 3 n && Nat.ltb n 8)%bool then 3%nat else n in
    if (Nat.eqb n 3 || Nat.eqb n 8)%bool
    then Some (S754_infinity sign, (nsign + n)%nat) else None in
  match s with
  | EmptyString => None
  | String c rest =>
      if (Ascii.eqb c "+" || Ascii.eqb c "-")%bool then inf (Ascii.eqb c "-") 1%nat rest
      else if (Ascii.eqb c "i" || Ascii.eqb c "I")%bool then inf false 0%nat s
      else if (Ascii.eqb c "n" || Ascii.eqb c "N")%bool then
        if Nat.eqb (commonPrefixLenIgnoreCase s "nan") 3
        then Some (S754_nan, 3%nat) else None
      else None
  end.

(** State of the mantissa loop of [readFloat]: the digits read so far as
    an integer, how many of them follow the point, and the flags. *)
Record mantissa := {
  digits : Z;
  fracDigits : Z;
  sawdot : bool;
  sawdigits : bool;
  underscores : bool }.

Definition pushDigit (base d : Z) (m : mantissa) : mantissa :=
  {| digits := digits m * base + d;
     fracDigits := if sawdot m then fracDigits m + 1 else fracDigits m;
     sawdot := sawdot m; sawdigits := true; underscores := underscores m |}.

Fixpoint readMantissa (hex : bool) (s : string) (m : mantissa) : mantissa * string :=
  match s with
  | EmptyString => (m, s)
  | String c s' =>
      if Ascii.eqb c "_" then
        readMantissa hex s'
          {| digits := digits m; fracDigits := fracDigits m; sawdot := sawdot m;
             sawdigits := sawdigits m; underscores := true |}
      else if Ascii.eqb c "." then
        if sawdot m then (m, s)
        else readMantissa hex s'
          {| digits := digits m; fracDigits := fracDigits m; sawdot := true;
             sawdigits := sawdigits m; underscores := underscores m |}
      else if isDigit c then
        readMantissa hex s' (pushDigit (if hex then 16 else 10) (digitVal c) m)
      else if (hex && isHexLetter c)%bool then
        readMantissa hex s' (pushDigit 16 (hexLetterVal c) m)
      else (m, s)
  end.

(** The digits of the exponent; [e] stops growing at 10000. *)
Fixpoint readExponent (s : string) (e : Z) (us : bool) : Z * bool * string :=
  match s with
  | EmptyString => (e, us, s)
  | String c s' =>
      if Ascii.eqb c "_" then readExponent s' e true
      else if isDigit c then
        readExponent s' (if e <? 10000 then e * 10 + digitVal c else e) us
      else (e, us, s)
  end.

Fixpoint underscoreOK_loop (hex : bool) (s : string) (i : ascii) : bool :=
  match s with
  | EmptyString => negb (Ascii.eqb i "_")
  | String c s' =>
      if (isDigit c || (hex && isHexLetter c))%bool then underscoreOK_loop hex s' "0"
      else if Ascii.eqb c "_" then
        if Ascii.eqb i "0" then underscoreOK_loop hex s' "_" else false
      else if Ascii.eqb i "_" then false
      else underscoreOK_loop hex s' "!"
  end.

Definition underscoreOK (s : string) : bool :=
  let s := match s with
           | String c s' => if (Ascii.eqb c "-" || Ascii.eqb c "+")%bool then s' else s
           | _ => s
           end in
  match s with
  | String "0" (String x s') =>
      if (Ascii.eqb (lower x) "b" || Ascii.eqb (lower x) "o" || Ascii.eqb (lower x) "x")%bool
      then underscoreOK_loop (Ascii.eqb (lower x) "x") s' "0"
      else underscoreOK_loop false s "^"
  | _ => underscoreOK_loop false s "^"
  end.

(** What [readFloat] extracts from a well-formed literal: the sign, the
    base, all mantissa digits as an integer and the exponent of the base
    (10, or 2 for a hexadecimal literal) that scales it; with the unread
    rest of the input. *)
Record literal := {
  neg : bool;
  hex : bool;
  mant : Z;
  exp : Z;
  rest : string }.

Definition readFloat (s : string) : option literal :=
  match s with
  | EmptyString => None
  | String c0 s0 =>
      let '(neg, t) :=
        if Ascii.eqb c0 "+" then (false, s0)
        else if Ascii.eqb c0 "-" then (true, s0) else (false, s) in
      let '(hex, t) :=
        match t with
        | String "0" (String x (String y t')) =>
            if Ascii.eqb (lower x) "x" then (true, String y t') else (false, t)
        | _ => (false, t)
        end in
      let '(m, t) :=
        readMantissa hex t
          {| digits := 0; fracDigits := 0; sawdot := false;
             sawdigits := false; underscores := false |} in
      if negb (sawdigits m) then None else
      let dp := if hex then - (4 * fracDigits m) else - fracDigits m in
      let finish (dp : Z) (us : bool) (t : string) :=
        if (us && negb (underscoreOK s))%bool then None
        else Some {| neg := neg; hex := hex; mant := digits m; exp := dp; rest := t |} in
      match t with
      | String c t1 =>
          if Ascii.eqb (lower c) (if hex then "p" else "e")%char then
            match t1 with
            | EmptyString => None
            | String c1 t2 =>
                let '(esign, t3) :=
                  if Ascii.eqb c1 "+" then (1, t2)
                  else if Ascii.eqb c1 "-" then (-1, t2) else (1, t1) in
                match t3 with
                | String d _ =>
                    if isDigit d then
                      let '(e, us, t4) := readExponent t3 0 (underscores m) in
                      finish (dp + e * esign) us t4
                    else None
                | EmptyString => None
                end
            end
          else if hex then None
          else finish dp (underscores m) t
      | EmptyString => if hex then None else finish dp (underscores m) t
      end
  end.

(** The binary64 value nearest to [mant * base^exp] (ties to even), for a
    decimal or a binary scale. *)
Definition toFloat64 (l : literal) : float64 :=
  match mant l with
  | Zpos m =>
      if hex l then
        binary_normalize 53 1024 (if neg l then Zneg m else Zpos m) (exp l) false
      else if 0 <=? exp l then
        binary_normalize 53 1024
          ((if neg l then Zneg m else Zpos m) * 10 ^ exp l) 0 false
      else
        SFdiv 53 1024 (S754_finite (neg l) m 0)
                      (S754_finite false (Z.to_pos (10 ^ (- exp l))) 0)
  | _ => S754_zero (neg l)
  end.

(** [strconv.ParseFloat(s, 64)]. *)
Definition ParseFloat (s : string) : float64 * option error :=
  match special s with
  | Some (val, n) =>
      if Nat.eqb n (String.length s) then (val, None)
      else (S754_zero false, Some (syntaxError "ParseFloat" s))
  | None =>
      match readFloat s with
      | Some l =>
          match rest l with
          | EmptyString =>
              let f := toFloat64 l in
              match f with
              | S754_infinity _ => (f, Some (rangeError "ParseFloat" s))
              | _ => (f, None)
              end
          | _ => (S754_zero false, Some (syntaxError "ParseFloat" s))
          end
      | None => (S754_zero false, Some (syntaxError "ParseFloat" s))
      end
  end.

(** The digit loop of [ParseUint(s, 10, 64)]: the value, or the error
    found first when reading from the left. *)
Fixpoint parseUintLoop (s : string) (n : Z) : result Z :=
  match s with
  | EmptyString => Ok n
  | String c s' =>
      if isDigit c then
        if n >=? 18446744073709551615 / 10 + 1 then Err ErrRange
        else
          let n1 := n * 10 + digitVal c in
          if n1 >? 18446744073709551615 then Err ErrRange
          else parseUintLoop s' n1
      else Err ErrSyntax
  end.

(** [strconv.Atoi] on a 64-bit platform, through [ParseInt(s, 10, 0)]; the
    fast path for short inputs computes the same results. *)
Definition Atoi (s : string) : Z * option error :=
  match s with
  | EmptyString => (0, Some (syntaxError "Atoi" s))
  | String c s' =>
      let '(neg, t) :=
        if Ascii.eqb c "+" then (false, s')
        else if Ascii.eqb c "-" then (true, s') else (false, s) in
      match t with
      | EmptyString => (0, Some (syntaxError "Atoi" s))
      | _ =>
          match parseUintLoop t 0 with
          | Err ErrRange =>
              if neg then (- 9223372036854775808, Some (rangeError "Atoi" s))
              else (9223372036854775807, Some (rangeError "Atoi" s))
          | Err _ => (0, Some (syntaxError "Atoi" s))
          | Ok un =>
              if (negb neg && (un >=? 9223372036854775808))%bool
              then (9223372036854775807, Some (rangeError "Atoi" s))
              else if (neg && (un >? 9223372036854775808))%bool
              then (- 9223372036854775808, Some (rangeError "Atoi" s))
              else (if neg then - un else un, None)
          end
      end
  end.

End strconv.

(** ** Domain types *)

Module Fisher.
Record t := { ID : string; Name : string; GovtID : string; Role : string }.
End Fisher.

Module Catch.
Record t := {
  CatchID : string;
  FisherID : string;
  Species : string;
  WeightKg : float64;
  Date : string }.
End Catch.

(** A [[]string] is a list; the contract never tells a nil slice from an
    empty one for [CatchIDs]. *)
Module Batch.
Record t := {
  BatchID : string;
  CatchIDs : list string;
  ProcessorID : string;
  Date : string;
  QRCodeURL : string }.
End Batch.

Module Order.
Record t := {
  OrderID : string;
  BatchID : string;
  BuyerID : string;
  Status : string;
  Date : string }.
End Order.

Module Asset.
Record t := {
  ID : string;
  Color : string;
  Size : Z;
  Owner : string;
  AppraisedValue : Z }.
End Asset.

(** ** encoding/json *)

Module json.

(** [json.Marshal] and [json.Unmarshal] at the types the contract uses
    them at.  The byte format is the library's; the contract only moves
    the bytes between these functions and the ledger. *)
Class Codec := {
  MarshalFisher : Fisher.t -> result bytes;
  MarshalCatch : Catch.t -> result bytes;
  MarshalBatch : Batch.t -> result bytes;
  MarshalOrder : Order.t -> result bytes;
  MarshalAsset : Asset.t -> result bytes;
  UnmarshalFisher : bytes -> result Fisher.t;
  UnmarshalCatch : bytes -> result Catch.t;
  UnmarshalAsset : bytes -> result Asset.t }.

Fixpoint marshalElems `{Codec} (cs : list Catch.t) : result (list bytes) :=
  match cs with
  | [] => Ok []
  | c :: cs' =>
      match MarshalCatch c with
      | Err e => Err e
      | Ok b =>
          match marshalElems cs' with
          | Err e => Err e
          | Ok bs => Ok (b :: bs)
          end
      end
  end.

Fixpoint joinElems (bs : list bytes) : bytes :=
  match bs with
  | [] => EmptyString
  | [b] => b
  | b :: bs' => b +:+ "," +:+ joinElems bs'
  end.

(** [json.Marshal] of a [[]Catch]: a slice that was declared and never
    appended to is nil and encodes as [null]; any other slice is the
    bracketed, comma-separated encodings of its elements. *)
Definition MarshalCatches `{Codec} (cs : list Catch.t) : result bytes :=
  match cs with
  | [] => Ok "null"
  | _ =>
      match marshalElems cs with
      | Err e => Err e
      | Ok bs => Ok ("[" +:+ joinElems bs +:+ "]")
      end
  end.

End json.

(** ** The chaincode stub and the transaction context *)

(** Calls made on the stub, in the order they were made. *)
Inductive Call : Type :=
| CallGetState (key : string)
| CallPutState (key : string) (value : bytes)
| CallDelState (key : string)
| CallGetStateByRange (startKey endKey : string)
| CallNext
| CallClose
| CallGetPrivateData (collection key : string)
| CallPutPrivateData (collection key : string) (value : bytes).

(** The ledger as one transaction sees it: the public world state, the
    private collections, and the calls made so far. *)
Record Stub := {
  State : gmap string bytes;
  PrivateData : gmap (string * string) bytes;
  Calls : list Call }.

(** The failures the peer injects: for each stub operation and arguments,
    the error it returns, if any. *)
Record Peer := {
  GetState_err : string -> option error;
  PutState_err : string -> bytes -> option error;
  DelState_err : string -> option error;
  GetStateByRange_err : string -> string -> option error;
  Next_err : string -> option error;
  GetPrivateData_err : string -> string -> option error;
  PutPrivateData_err : string -> string -> bytes -> option error }.

(** [cid.ClientIdentity]: [GetAttributeValue] answers [(value, found, err)]
    and [GetID] answers [(id, err)], as in Go. *)
Record ClientIdentity := {
  GetAttributeValue : string -> string * bool * option error;
  GetID : string * option error }.

Record TransactionContext := {
  GetClientIdentity : ClientIdentity;
  GetPeer : Peer }.

(** Computations on the stub that may return a Go error. *)
Definition M (A : Type) : Type := Stub -> result A * Stub.

Definition ret {A} (a : A) : M A := fun st => (Ok a, st).
Definition fail {A} (e : error) : M A := fun st => (Err e, st).
Definition bind {A B} (m : M A) (k : A -> M B) : M B :=
  fun st =>
    match m st with
    | (Ok a, st') => k a st'
    | (Err e, st') => (Err e, st')
    end.
Definition lift {A} (r : result A) : M A := fun st => (r, st).

(** [if err != nil { return fmt.Errorf(..., err) }] after a call. *)
Definition wrapErr {A} (m : M A) (w : error -> error) : M A :=
  fun st =>
    match m st with
    | (Ok a, st') => (Ok a, st')
    | (Err e, st') => (Err (w e), st')
    end.

(** [defer d()] around [m]: [d] runs on every exit path of [m]. *)
Definition defer {A} (d : Stub -> Stub) (m : M A) : M A :=
  fun st => let '(r, st') := m st in (r, d st').

Declare Scope go_scope.
Delimit Scope go_scope with go.
Notation "x <- m ;; k" := (bind m (fun x => k))
  (at level 20, m at level 99, k at level 200) : go_scope.

Definition record (c : Call) (st : Stub) : Stub :=
  {| State := State st; PrivateData := PrivateData st; Calls := Calls st ++ [c] |}.

Definition GetState (ctx : TransactionContext) (key : string) : M (option bytes) :=
  fun st =>
    let st := record (CallGetState key) st in
    match GetState_err (GetPeer ctx) key with
    | Some e => (Err e, st)
    | None => (Ok (State st !! key), st)
    end.

Definition PutState (ctx : TransactionContext) (key : string) (value : bytes) : M unit :=
  fun st =>
    let st := record (CallPutState key value) st in
    match PutState_err (GetPeer ctx) key value with
    | Some e => (Err e, st)
    | None =>
        (Ok tt, {| State := <[key := value]> (State st);
                   PrivateData := PrivateData st; Calls := Calls st |})
    end.

Definition DelState (ctx : TransactionContext) (key : string) : M unit :=
  fun st =>
    let st := record (CallDelState key) st in
    match DelState_err (GetPeer ctx) key with
    | Some e => (Err e, st)
    | None =>
        (Ok tt, {| State := delete key (State st);
                   PrivateData := PrivateData st; Calls := Calls st |})
    end.

Definition GetPrivateData (ctx : TransactionContext) (collection key : string)
  : M (option bytes) :=
  fun st =>
    let st := record (CallGetPrivateData collection key) st in
    match GetPrivateData_err (GetPeer ctx) collection key with
    | Some e => (Err e, st)
    | None => (Ok (PrivateData st !! (collection, key)), st)
    end.

Definition PutPrivateData (ctx : TransactionContext) (collection key : string)
  (value : bytes) : M unit :=
  fun st =>
    let st := record (CallPutPrivateData collection key value) st in
    match PutPrivateData_err (GetPeer ctx) collection key value with
    | Some e => (Err e, st)
    | None =>
        (Ok tt, {| State := State st;
                   PrivateData := <[(collection, key) := value]> (PrivateData st);
                   Calls := Calls st |})
    end.

(** A key [k] is inside the range when [startKey <= k < endKey]; an empty
    bound is open. *)
Definition inRange (startKey endKey k : string) : bool :=
  ((String.eqb startKey EmptyString || str_le startKey k)
   && (String.eqb endKey EmptyString || str_lt k endKey))%bool.

Definition keyLe (a b : string * bytes) : Prop := str_le a.1 b.1 = true.

#[global] Instance keyLe_dec a b : Decision (keyLe a b).
Proof. unfold keyLe. apply _. Defined.

(** The entries a range query iterates over: those of the world state whose
    key is in the range, in ascending key order. *)
Definition rangeEntries (startKey endKey : string) (m : gmap string bytes)
  : list (string * bytes) :=
  merge_sort keyLe
    (filter (fun kv => inRange startKey endKey kv.1 = true) (map_to_list m)).

(** A [StateQueryIterator] is the entries it has not returned yet. *)
Definition StateQueryIterator : Type := list (string * bytes).

Definition GetStateByRange (ctx : TransactionContext) (startKey endKey : string)
  : M StateQueryIterator :=
  fun st =>
    let st := record (CallGetStateByRange startKey endKey) st in
    match GetStateByRange_err (GetPeer ctx) startKey endKey with
    | Some e => (Err e, st)
    | None => (Ok (rangeEntries startKey endKey (State st)), st)
    end.

(** [iter.Next()] on an iterator whose next entry is [kv]. *)
Definition Next (ctx : TransactionContext) (kv : string * bytes) : M (string * bytes) :=
  fun st =>
    let st := record CallNext st in
    match Next_err (GetPeer ctx) kv.1 with
    | Some e => (Err e, st)
    | None => (Ok kv, st)
    end.

Definition Close : Stub -> Stub := record CallClose.

(** ** The legacy contract: chaincode-backup/bigdatacc/bigdatacc.go *)

Module Bigdatacc.
Section Contract.
Context `{json.Codec}.
Local Open Scope go_scope.

(** Permissive when the attribute cannot be read or is not set. *)
Definition hasRole (ctx : TransactionContext) (role : string) : bool :=
  let '(val, found, err) := GetAttributeValue (GetClientIdentity ctx) "role" in
  match err with
  | Some _ => true
  | None => if negb found then true else String.eqb val role
  end.

Definition isCaller (ctx : TransactionContext) (id : string) : bool :=
  let '(clientID, err) := GetID (GetClientIdentity ctx) in
  match err with
  | Some _ => false
  | None => String.eqb clientID id
  end.

Definition RegisterFisher (ctx : TransactionContext) (id name govtId : string) : M unit :=
  if negb (hasRole ctx "authority") then
    fail (Errorf "only authority can register fishers" [])
  else
    let f := {| Fisher.ID := id; Fisher.Name := name; Fisher.GovtID := govtId;
                Fisher.Role := "fisher" |} in
    b <- lift (json.MarshalFisher f) ;;
    PutState ctx ("FISHER_" +:+ id) b.

Definition GetFisher (ctx : TransactionContext) (fisherID : string) : M Fisher.t :=
  b <- wrapErr (GetState ctx ("FISHER_" +:+ fisherID))
               (ErrorfV "failed to read fisher %s: %v" [fisherID]) ;;
  match b with
  | None => fail (Errorf "fisher %s does not exist" [fisherID])
  | Some b => lift (json.UnmarshalFisher b)
  end.

Definition LogCatch (ctx : TransactionContext)
  (catchId fisherId species weightKgStr date : string) : M unit :=
  if (negb (hasRole ctx "fisher") && negb (isCaller ctx fisherId))%bool then
    fail (Errorf "only the fisher can log their catch" [])
  else
    let '(weightKg, err) := strconv.ParseFloat weightKgStr in
    match err with
    | Some err => fail (ErrorfV "invalid weightKg: %v" [] err)
    | None =>
        let c := {| Catch.CatchID := catchId; Catch.FisherID := fisherId;
                    Catch.Species := species; Catch.WeightKg := weightKg;
                    Catch.Date := date |} in
        b <- lift (json.MarshalCatch c) ;;
        PutState ctx ("CATCH_" +:+ catchId) b
    end.

Definition GetCatch (ctx : TransactionContext) (catchId : string) : M Catch.t :=
  b <- GetState ctx ("CATCH_" +:+ catchId) ;;
  match b with
  | None => fail (Errorf "catch %s not found" [catchId])
  | Some b => lift (json.UnmarshalCatch b)
  end.

Definition CreateBatch (ctx : TransactionContext) (batchId : string)
  (catchIds : list string) (processorId date : string) : M unit :=
  if negb (hasRole ctx "processor") then
    fail (Errorf "only processor can create batches" [])
  else
    let batch := {| Batch.BatchID := batchId; Batch.CatchIDs := catchIds;
                    Batch.ProcessorID := processorId; Batch.Date := date;
                    Batch.QRCodeURL := "https://example.org/batch/" +:+ batchId |} in
    b <- lift (json.MarshalBatch batch) ;;
    PutState ctx ("BATCH_" +:+ batchId) b.

Definition TrackBatch (ctx : TransactionContext) (batchId : string) : M string :=
  b <- GetState ctx ("BATCH_" +:+ batchId) ;;
  match b with
  | None => fail (Errorf "batch %s not found" [batchId])
  | Some b => ret b
  end.

Definition PlaceOrder (ctx : TransactionContext)
  (orderId batchId buyerId date : string) : M unit :=
  if negb (hasRole ctx "buyer") then
    fail (Errorf "only buyer can place orders" [])
  else
    let o := {| Order.OrderID := orderId; Order.BatchID := batchId;
                Order.BuyerID := buyerId; Order.Status := "placed";
                Order.Date := date |} in
    b <- lift (json.MarshalOrder o) ;;
    PutState ctx ("ORDER_" +:+ orderId) b.

(** The [for iter.HasNext()] loop of [GenerateReport], on the entries the
    iterator still holds and the slice [out] built so far. *)
Fixpoint GenerateReport_loop (ctx : TransactionContext) (startDate endDate : string)
  (iter : StateQueryIterator) (out : list Catch.t) : M (list Catch.t) :=
  match iter with
  | [] => ret out
  | kv :: iter' =>
      r <- Next ctx kv ;;
      c <- lift (json.UnmarshalCatch r.2) ;;
      if (str_ge (Catch.Date c) startDate && str_le (Catch.Date c) endDate)%bool
      then GenerateReport_loop ctx startDate endDate iter' (out ++ [c])
      else GenerateReport_loop ctx startDate endDate iter' out
  end.

Definition GenerateReport (ctx : TransactionContext) (startDate endDate : string)
  : M string :=
  if negb (hasRole ctx "authority") then
    fail (Errorf "only authority can generate reports" [])
  else
    iter <- GetStateByRange ctx "CATCH_" "CATCH_~" ;;
    defer Close
      (out <- GenerateReport_loop ctx startDate endDate iter [] ;;
       b <- lift (json.MarshalCatches out) ;;
       ret b).

(** [b, _ := json.Marshal(a)]: the error is dropped and [b] is nil then. *)
Definition marshalAssetIgnoringErr (a : Asset.t) : bytes :=
  match json.MarshalAsset a with
  | Ok b => b
  | Err _ => EmptyString
  end.

Definition CreateAsset (ctx : TransactionContext)
  (id color sizeStr owner appraisedValueStr : string) : M unit :=
  let '(size, err) := strconv.Atoi sizeStr in
  match err with
  | Some err => fail (ErrorfV "invalid size: %v" [] err)
  | None =>
      let '(appVal, err) := strconv.Atoi appraisedValueStr in
      match err with
      | Some err => fail (ErrorfV "invalid appraisedValue: %v" [] err)
      | None =>
          let a := {| Asset.ID := id; Asset.Color := color; Asset.Size := size;
                      Asset.Owner := owner; Asset.AppraisedValue := appVal |} in
          PutState ctx ("ASSET_" +:+ id) (marshalAssetIgnoringErr a)
      end
  end.

Definition ReadAsset (ctx : TransactionContext) (id : string) : M Asset.t :=
  b <- GetState ctx ("ASSET_" +:+ id) ;;
  match b with
  | None => fail (Errorf "asset %s not found" [id])
  | Some b => lift (json.UnmarshalAsset b)
  end.

Definition TransferAsset (ctx : TransactionContext) (assetKey newOwner : string)
  : M unit :=
  b <- GetState ctx ("ASSET_" +:+ assetKey) ;;
  match b with
  | None => fail (Errorf "asset %s not found" [assetKey])
  | Some b =>
      a <- lift (json.UnmarshalAsset b) ;;
      let a := {| Asset.ID := Asset.ID a; Asset.Color := Asset.Color a;
                  Asset.Size := Asset.Size a; Asset.Owner := newOwner;
                  Asset.AppraisedValue := Asset.AppraisedValue a |} in
      PutState ctx ("ASSET_" +:+ assetKey) (marshalAssetIgnoringErr a)
  end.

Definition UpdateAsset (ctx : TransactionContext)
  (assetKey color sizeStr appraisedValueStr : string) : M unit :=
  b <- GetState ctx ("ASSET_" +:+ assetKey) ;;
  match b with
  | None => fail (Errorf "asset %s not found" [assetKey])
  | Some b =>
      a <- lift (json.UnmarshalAsset b) ;;
      let '(size, err) := strconv.Atoi sizeStr in
      match err with
      | Some err => fail err
      | None =>
          let '(appVal, err) := strconv.Atoi appraisedValueStr in
          match err with
          | Some err => fail err
          | None =>
              let a := {| Asset.ID := Asset.ID a; Asset.Color := color;
                          Asset.Size := size; Asset.Owner := Asset.Owner a;
                          Asset.AppraisedValue := appVal |} in
              PutState ctx ("ASSET_" +:+ assetKey) (marshalAssetIgnoringErr a)
          end
      end
  end.

Definition DeleteAsset (ctx : TransactionContext) (assetKey : string) : M unit :=
  b <- GetState ctx ("ASSET_" +:+ assetKey) ;;
  match b with
  | None => fail (Errorf "asset %s not found" [assetKey])
  | Some _ => DelState ctx ("ASSET_" +:+ assetKey)
  end.

End Contract.
End Bigdatacc.

(** ** The current contract (fishers in the private collection) *)

Module Chaincode.
Section Contract.
Context `{json.Codec}.
Local Open Scope go_scope.

(** Denies when the attribute cannot be read or is not set. *)
Definition hasRole (ctx : TransactionContext) (role : string) : bool :=
  let '(val, found, err) := GetAttributeValue (GetClientIdentity ctx) "role" in
  if (notNil err || negb found)%bool then false
  else String.eqb val role.

Definition isCaller (ctx : TransactionContext) (id : string) : bool :=
  let '(enrollmentID, found, err) :=
    GetAttributeValue (GetClientIdentity ctx) "hf.EnrollmentID" in
  if (notNil err || negb found)%bool then false
  else String.eqb enrollmentID id.

Definition RegisterFisher (ctx : TransactionContext) (id name govtId : string) : M unit :=
  if negb (hasRole ctx "authority") then
    fail (Errorf "only authority can register fishers" [])
  else
    let fisher := {| Fisher.ID := id; Fisher.Name := name; Fisher.GovtID := govtId;
                     Fisher.Role := "fisher" |} in
    fisherBytes <- wrapErr (lift (json.MarshalFisher fisher))
                           (ErrorfV "failed to marshal fisher: %v" []) ;;
    PutPrivateData ctx "FisherCollection" ("FISHER_" +:+ id) fisherBytes.

Definition GetFisher (ctx : TransactionContext) (fisherID : string) : M Fisher.t :=
  fisherBytes <- wrapErr (GetPrivateData ctx "FisherCollection" ("FISHER_" +:+ fisherID))
                         (ErrorfV "failed to read fisher %s: %v" [fisherID]) ;;
  match fisherBytes with
  | None => fail (Errorf "fisher %s does not exist" [fisherID])
  | Some fisherBytes =>
      wrapErr (lift (json.UnmarshalFisher fisherBytes))
              (ErrorfV "failed to unmarshal fisher data: %v" [])
  end.

(** The role and ownership check of [LogCatch] is commented out in the
    source ("Uncomment when ready to enforce access control"): the
    function starts with the parse of the weight. *)
Definition LogCatch (ctx : TransactionContext)
  (catchId fisherId species weightKgStr date : string) : M unit :=
  let '(weightKg, err) := strconv.ParseFloat weightKgStr in
  match err with
  | Some err => fail (ErrorfV "invalid weightKg value '%s': %v" [weightKgStr] err)
  | None =>
      let catch := {| Catch.CatchID := catchId; Catch.FisherID := fisherId;
                      Catch.Species := species; Catch.WeightKg := weightKg;
                      Catch.Date := date |} in
      catchBytes <- wrapErr (lift (json.MarshalCatch catch))
                            (ErrorfV "failed to marshal catch data: %v" []) ;;
      PutState ctx ("CATCH_" +:+ catchId) catchBytes
  end.

Definition CreateBatch (ctx : TransactionContext) (batchId : string)
  (catchIds : list string) (processorId date : string) : M unit :=
  if negb (hasRole ctx "processor") then
    fail (Errorf "only processor can create batches" [])
  else
    let batch := {| Batch.BatchID := batchId; Batch.CatchIDs := catchIds;
                    Batch.ProcessorID := processorId; Batch.Date := date;
                    Batch.QRCodeURL :=
                      "https://getreech.example.org/batch/" +:+ batchId |} in
    batchBytes <- wrapErr (lift (json.MarshalBatch batch))
                          (ErrorfV "failed to marshal batch data: %v" []) ;;
    PutState ctx ("BATCH_" +:+ batchId) batchBytes.

Definition TrackBatch (ctx : TransactionContext) (batchId : string) : M string :=
  batchBytes <- wrapErr (GetState ctx ("BATCH_" +:+ batchId))
                        (ErrorfV "failed to get batch %s: %v" [batchId]) ;;
  match batchBytes with
  | None => fail (Errorf "batch %s not found" [batchId])
  | Some batchBytes => ret batchBytes
  end.

Definition PlaceOrder (ctx : TransactionContext)
  (orderId batchId buyerId date : string) : M unit :=
  if negb (hasRole ctx "buyer") then
    fail (Errorf "only buyer can place orders" [])
  else
    let order := {| Order.OrderID := orderId; Order.BatchID := batchId;
                    Order.BuyerID := buyerId; Order.Status := "placed";
                    Order.Date := date |} in
    orderBytes <- wrapErr (lift (json.MarshalOrder order))
                          (ErrorfV "failed to marshal order data: %v" []) ;;
    PutState ctx ("ORDER_" +:+ orderId) orderBytes.

(** The [for resultsIterator.HasNext()] loop of [GenerateReport]. *)
Fixpoint GenerateReport_loop (ctx : TransactionContext) (startDate endDate : string)
  (resultsIterator : StateQueryIterator) (catches : list Catch.t) : M (list Catch.t) :=
  match resultsIterator with
  | [] => ret catches
  | kv :: resultsIterator' =>
      queryResponse <- wrapErr (Next ctx kv)
                               (ErrorfV "failed during results iteration: %v" []) ;;
      catch <- wrapErr (lift (json.UnmarshalCatch queryResponse.2))
                       (ErrorfV "failed to unmarshal catch data: %v" []) ;;
      if (str_ge (Catch.Date catch) startDate && str_le (Catch.Date catch) endDate)%bool
      then GenerateReport_loop ctx startDate endDate resultsIterator' (catches ++ [catch])
      else GenerateReport_loop ctx startDate endDate resultsIterator' catches
  end.

Definition GenerateReport (ctx : TransactionContext) (startDate endDate : string)
  : M string :=
  if negb (hasRole ctx "authority") then
    fail (Errorf "only authority can generate reports" [])
  else
    resultsIterator <- wrapErr (GetStateByRange ctx "CATCH_" "CATCH_~")
                               (ErrorfV "failed to get catches by range: %v" []) ;;
    defer Close
      (catches <- GenerateReport_loop ctx startDate endDate resultsIterator [] ;;
       reportBytes <- wrapErr (lift (json.MarshalCatches catches))
                              (ErrorfV "failed to marshal report data: %v" []) ;;
       ret reportBytes).

End Contract.
End Chaincode.

(** ** A reference codec

    An instance of [json.Codec] to run the contracts on concrete data.  It
    writes one object per struct, with the fields in declaration order under
    their [json] tags and no white space, escapes the quote and the backslash
    in strings, and writes a finite [float64] as its exact decimal expansion;
    it reads back the documents it writes, and nothing else. *)

Module RefJSON.

Definition dq : string := String (ascii_of_nat 34) EmptyString.
Definition unsupported : error := ExternalError "json: unsupported value".
Definition malformed : error := ExternalError "json: cannot unmarshal".

Fixpoint escape (s : string) : string :=
  match s with
  | EmptyString => EmptyString
  | String c s' =>
      if (Ascii.eqb c (ascii_of_nat 34) || Ascii.eqb c "\")%bool
      then String "\" (String c (escape s'))
      else String c (escape s')
  end.

Definition quote (s : string) : string := dq +:+ escape s +:+ dq.
Definition key (name : string) : string := dq +:+ name +:+ dq +:+ ":".

Definition digitsOfZ (n : Z) : string :=
  NilZero.string_of_uint (N.to_uint (Z.to_N n)).

Definition intText (n : Z) : string :=
  if n <? 0 then "-" +:+ digitsOfZ (- n) else digitsOfZ n.

Fixpoint dropZeros (s : string) : string :=
  match s with
  | String "0" s' => dropZeros s'
  | _ => s
  end.

Definition revString (s : string) : string :=
  string_of_list_ascii (rev (list_ascii_of_string s)).

(** The exact decimal expansion of [m * 2^e]. *)
Definition decimalOf (m e : Z) : string :=
  if 0 <=? e then digitsOfZ (m * 2 ^ e)
  else
    let k := - e in
    let n := m * 5 ^ k in
    let ip := n / 10 ^ k in
    let fp := n mod 10 ^ k in
    if fp =? 0 then digitsOfZ ip
    else
      let padded := match digitsOfZ (10 ^ k + fp) with
                    | String _ t => t
                    | EmptyString => EmptyString
                    end in
      digitsOfZ ip +:+ "." +:+ revString (dropZeros (revString padded)).

Definition floatText (f : float64) : result string :=
  match f with
  | S754_zero s => Ok (if s then "-0" else "0")
  | S754_finite s m e => Ok ((if s then "-" else EmptyString) +:+ decimalOf (Zpos m) e)
  | _ => Err unsupported
  end.

Fixpoint joinWith (sep : string) (l : list string) : string :=
  match l with
  | [] => EmptyString
  | [x] => x
  | x :: l' => x +:+ sep +:+ joinWith sep l'
  end.

Definition MarshalFisher (f : Fisher.t) : result bytes :=
  Ok ("{" +:+ key "id" +:+ quote (Fisher.ID f)
      +:+ "," +:+ key "name" +:+ quote (Fisher.Name f)
      +:+ "," +:+ key "govtId" +:+ quote (Fisher.GovtID f)
      +:+ "," +:+ key "role" +:+ quote (Fisher.Role f) +:+ "}").

Definition MarshalCatch (c : Catch.t) : result bytes :=
  match floatText (Catch.WeightKg c) with
  | Err e => Err e
  | Ok w =>
      Ok ("{" +:+ key "catchId" +:+ quote (Catch.CatchID c)
          +:+ "," +:+ key "fisherId" +:+ quote (Catch.FisherID c)
          +:+ "," +:+ key "species" +:+ quote (Catch.Species c)
          +:+ "," +:+ key "weightKg" +:+ w
          +:+ "," +:+ key "date" +:+ quote (Catch.Date c) +:+ "}")
  end.

Definition MarshalBatch (b : Batch.t) : result bytes :=
  Ok ("{" +:+ key "batchId" +:+ quote (Batch.BatchID b)
      +:+ "," +:+ key "catchIds" +:+ "[" +:+ joinWith "," (map quote (Batch.CatchIDs b)) +:+ "]"
      +:+ "," +:+ key "processorId" +:+ quote (Batch.ProcessorID b)
      +:+ "," +:+ key "date" +:+ quote (Batch.Date b)
      +:+ "," +:+ key "qrCodeUrl" +:+ quote (Batch.QRCodeURL b) +:+ "}").

Definition MarshalOrder (o : Order.t) : result bytes :=
  Ok ("{" +:+ key "orderId" +:+ quote (Order.OrderID o)
      +:+ "," +:+ key "batchId" +:+ quote (Order.BatchID o)
      +:+ "," +:+ key "buyerId" +:+ quote (Order.BuyerID o)
      +:+ "," +:+ key "status" +:+ quote (Order.Status o)
      +:+ "," +:+ key "date" +:+ quote (Order.Date o) +:+ "}").

Definition MarshalAsset (a : Asset.t) : result bytes :=
  Ok ("{" +:+ key "id" +:+ quote (Asset.ID a)
      +:+ "," +:+ key "color" +:+ quote (Asset.Color a)
      +:+ "," +:+ key "size" +:+ intText (Asset.Size a)
      +:+ "," +:+ key "owner" +:+ quote (Asset.Owner a)
      +:+ "," +:+ key "appraisedValue" +:+ intText (Asset.AppraisedValue a) +:+ "}").

(** Reading: each step consumes a prefix of the input. *)
Definition Parser (A : Type) : Type := string -> option (A * string).

Fixpoint lit (p : string) : Parser unit :=
  fun s =>
    match p, s with
    | EmptyString, _ => Some (tt, s)
    | String a p', String b s' => if Ascii.eqb a b then lit p' s' else None
    | _, _ => None
    end.

Fixpoint quotedBody (s : string) : option (string * string) :=
  match s with
  | EmptyString => None
  | String c s' =>
      if Ascii.eqb c (ascii_of_nat 34) then Some (EmptyString, s')
      else if Ascii.eqb c "\" then
        match s' with
        | String d s'' =>
            '(body, r) ← quotedBody s''; Some (String d body, r)
        | EmptyString => None
        end
      else '(body, r) ← quotedBody s'; Some (String c body, r)
  end.

Definition quoted : Parser string :=
  fun s => '(_, s) ← lit dq s; quotedBody s.

Definition isNumberChar (c : ascii) : bool :=
  (strconv.isDigit c || Ascii.eqb c "-" || Ascii.eqb c "+" || Ascii.eqb c "."
   || Ascii.eqb c "e" || Ascii.eqb c "E")%bool.

Fixpoint numberText (s : string) : string * string :=
  match s with
  | String c s' =>
      if isNumberChar c then let '(n, r) := numberText s' in (String c n, r)
      else (EmptyString, s)
  | EmptyString => (EmptyString, s)
  end.

Definition float : Parser float64 :=
  fun s =>
    let '(n, r) := numberText s in
    match strconv.ParseFloat n with
    | (f, None) => Some (f, r)
    | _ => None
    end.

Definition int : Parser Z :=
  fun s =>
    let '(n, r) := numberText s in
    match strconv.Atoi n with
    | (i, None) => Some (i, r)
    | _ => None
    end.

Definition field {A} (first : bool) (name : string) (p : Parser A) : Parser A :=
  fun s => '(_, s) ← lit ((if first then "{" else ",") +:+ key name) s; p s.

Definition close {A} (a : A) (s : string) : result A :=
  match s with
  | "}" => Ok a
  | _ => Err malformed
  end.

Definition orMalformed {A} (o : option (result A)) : result A :=
  match o with
  | Some r => r
  | None => Err malformed
  end.

Definition UnmarshalFisher (b : bytes) : result Fisher.t :=
  orMalformed (
    '(id, s) ← field true "id" quoted b;
    '(name, s) ← field false "name" quoted s;
    '(govtId, s) ← field false "govtId" quoted s;
    '(role, s) ← field false "role" quoted s;
    Some (close {| Fisher.ID := id; Fisher.Name := name;
                   Fisher.GovtID := govtId; Fisher.Role := role |} s)).

Definition UnmarshalCatch (b : bytes) : result Catch.t :=
  orMalformed (
    '(catchId, s) ← field true "catchId" quoted b;
    '(fisherId, s) ← field false "fisherId" quoted s;
    '(species, s) ← field false "species" quoted s;
    '(weightKg, s) ← field false "weightKg" float s;
    '(date, s) ← field false "date" quoted s;
    Some (close {| Catch.CatchID := catchId; Catch.FisherID := fisherId;
                   Catch.Species := species; Catch.WeightKg := weightKg;
                   Catch.Date := date |} s)).

Definition UnmarshalAsset (b : bytes) : result Asset.t :=
  orMalformed (
    '(id, s) ← field true "id" quoted b;
    '(color, s) ← field false "color" quoted s;
    '(size, s) ← field false "size" int s;
    '(owner, s) ← field false "owner" quoted s;
    '(appraisedValue, s) ← field false "appraisedValue" int s;
    Some (close {| Asset.ID := id; Asset.Color := color; Asset.Size := size;
                   Asset.Owner := owner; Asset.AppraisedValue := appraisedValue |} s)).

#[global] Instance codec : json.Codec := {|
  json.MarshalFisher := MarshalFisher;
  json.MarshalCatch := MarshalCatch;
  json.MarshalBatch := MarshalBatch;
  json.MarshalOrder := MarshalOrder;
  json.MarshalAsset := MarshalAsset;
  json.UnmarshalFisher := UnmarshalFisher;
  json.UnmarshalCatch := UnmarshalCatch;
  json.UnmarshalAsset := UnmarshalAsset |}.

End RefJSON.

(** ** Vocabulary of the properties *)

(** Calls that read one key. *)
Definition isRead (c : Call) : bool :=
  match c with
  | CallGetState _ | CallGetPrivateData _ _ => true
  | _ => false
  end.

(** The keyspace contract in the specification's words, to compare the
    contract's keys with: [key = PREFIX_ + id], one literal prefix per
    entity type. *)
Inductive EntityType : Type :=
| Participant | HarvestEvent | Aggregate | BuyerOrder | TestAsset.

Definition spec_keyFor (t : EntityType) (id : string) : string :=
  match t with
  | Participant => "FISHER_"
  | HarvestEvent => "CATCH_"
  | Aggregate => "BATCH_"
  | BuyerOrder => "ORDER_"
  | TestAsset => "ASSET_"
  end +:+ id.

(** The report in the specification's words: fetch and deserialize the
    entries of the scan in order, stopping at the first failure ([wNext] and
    [wUnmarshal] are the ways a variant reports the two failures), then keep
    the records whose date lies in [[startDate, endDate]]. *)
Fixpoint spec_decodeEntries `{json.Codec} (peer : Peer) (wNext wUnmarshal : error -> error)
  (entries : list (string * bytes)) : result (list Catch.t) :=
  match entries with
  | [] => Ok []
  | kv :: entries' =>
      match Next_err peer kv.1 with
      | Some e => Err (wNext e)
      | None =>
          match json.UnmarshalCatch kv.2 with
          | Err e => Err (wUnmarshal e)
          | Ok c =>
              match spec_decodeEntries peer wNext wUnmarshal entries' with
              | Err e => Err e
              | Ok cs => Ok (c :: cs)
              end
          end
      end
  end.

Definition spec_inDates (startDate endDate : string) (c : Catch.t) : bool :=
  (str_le startDate (Catch.Date c) && str_le (Catch.Date c) endDate)%bool.

(** A computation that only reads: from every state it leaves the world
    state and the private data as they were, makes only reading calls, and
    returns the same result when run again. *)
Definition pureRead {A} (m : M A) : Prop :=
  forall st,
    State (m st).2 = State st /\
    PrivateData (m st).2 = PrivateData st /\
    (exists reads, Calls (m st).2 = Calls st ++ reads /\ forallb isRead reads = true) /\
    (m (m st).2).1 = (m st).1.

(** The ledger invariant behind the report: every entry of the world state
    that the scan of ["CATCH_", "CATCH_~") meets is the encoding of a
    catch. *)
Definition catchKeysHoldCatches `{json.Codec} (st : Stub) : Prop :=
  forall k v,
    State st !! k = Some v -> inRange "CATCH_" "CATCH_~" k = true ->
    exists c, json.MarshalCatch c = Ok v.

(** An operation that keeps an invariant of the stub. *)
Definition preserves {A} (I : Stub -> Prop) (m : M A) : Prop :=
  forall st, I st -> I (m st).2.

(** The stub after a successful [PutState], and after a successful
    [PutPrivateData]. *)
Definition afterPut (k : string) (b : bytes) (st : Stub) : Stub :=
  {| State := <[k := b]> (State st); PrivateData := PrivateData st;
     Calls := Calls st ++ [CallPutState k b] |}.

Definition afterPutPrivate (collection k : string) (b : bytes) (st : Stub) : Stub :=
  {| State := State st; PrivateData := <[(collection, k) := b]> (PrivateData st);
     Calls := Calls st ++ [CallPutPrivateData collection k b] |}.

(** A create operation that keeps its record under [key].  [allowed] is
    what the operation checks before it encodes the record and [enc] is the
    encoding of the record.  When the checks pass, the record encodes and
    the peer accepts the write, the operation succeeds having done the one
    call [PutState key b], and the world state holds the encoding under
    [key]; it succeeds in no other way; and when it fails it either made
    no call at all, or made that same call and the peer refused it. *)
Definition storesAt (peer : Peer) (key : string) (allowed : bool) (enc : result bytes)
  (m : M unit) : Prop :=
  forall st,
    (allowed = true ->
     forall b, enc = Ok b -> PutState_err peer key b = None ->
               m st = (Ok tt, afterPut key b st)) /\
    (is_Ok (m st).1 = true ->
     allowed = true /\
     exists b, enc = Ok b /\ PutState_err peer key b = None /\
               m st = (Ok tt, afterPut key b st)) /\
    (is_Ok (m st).1 = false ->
     (m st).2 = st \/
     exists b, enc = Ok b /\ (m st).2 = record (CallPutState key b) st).

(** The same for a record kept under [key] in a private collection. *)
Definition storesPrivateAt (peer : Peer) (collection key : string) (allowed : bool)
  (enc : result bytes) (m : M unit) : Prop :=
  forall st,
    (allowed = true ->
     forall b, enc = Ok b -> PutPrivateData_err peer collection key b = None ->
               m st = (Ok tt, afterPutPrivate collection key b st)) /\
    (is_Ok (m st).1 = true ->
     allowed = true /\
     exists b, enc = Ok b /\ PutPrivateData_err peer collection key b = None /\
               m st = (Ok tt, afterPutPrivate collection key b st)) /\
    (is_Ok (m st).1 = false ->
     (m st).2 = st \/
     exists b, enc = Ok b /\ (m st).2 = record (CallPutPrivateData collection key b) st).

(** A lookup of the record under [key]: its one call is [GetState key];
    the result is [found] of the bytes the world state holds under [key],
    the error [missing] when it holds none, and [failed e] when the peer
    answers the read with the error [e]. *)
Definition looksUpAt {A} (peer : Peer) (key : string) (found : bytes -> result A)
  (missing : error) (failed : error -> error) (m : M A) : Prop :=
  forall st,
    m st = (match GetState_err peer key with
            | Some e => Err (failed e)
            | None => match State st !! key with
                      | Some b => found b
                      | None => Err missing
                      end
            end, record (CallGetState key) st).

Definition looksUpPrivateAt {A} (peer : Peer) (collection key : string)
  (found : bytes -> result A) (missing : error) (failed : error -> error) (m : M A)
  : Prop :=
  forall st,
    m st = (match GetPrivateData_err peer collection key with
            | Some e => Err (failed e)
            | None => match PrivateData st !! (collection, key) with
                      | Some b => found b
                      | None => Err missing
                      end
            end, record (CallGetPrivateData collection key) st).

(** An operation that rewrites the record under [key]: it reads [key]
    first, then makes no other call or one [PutState] of [key]; when it
    succeeds there was a record under [key] and the written bytes are
    there now; when it fails the world state is as it was. *)
Definition rewritesAt (key : string) (m : M unit) : Prop :=
  forall st, exists calls,
    Calls (m st).2 = Calls st ++ CallGetState key :: calls /\
    (calls = [] \/ exists b, calls = [CallPutState key b]) /\
    (is_Ok (m st).1 = true ->
     exists old b, State st !! key = Some old /\ calls = [CallPutState key b] /\
                   State (m st).2 = <[key := b]> (State st)) /\
    (is_Ok (m st).1 = false -> State (m st).2 = State st).

(** An operation that removes the record under [key]: it reads [key]
    first, then makes no other call or one [DelState] of [key]; when it
    succeeds there was a record under [key] and there is none now; when it
    fails the world state is as it was. *)
Definition removesAt (key : string) (m : M unit) : Prop :=
  forall st, exists calls,
    Calls (m st).2 = Calls st ++ CallGetState key :: calls /\
    (calls = [] \/ calls = [CallDelState key]) /\
    (is_Ok (m st).1 = true ->
     exists old, State st !! key = Some old /\ calls = [CallDelState key] /\
                 State (m st).2 = delete key (State st)) /\
    (is_Ok (m st).1 = false -> State (m st).2 = State st).

(** An operation that reads the records of one entity type through their
    keys: a run that passes the check [allowed] opens the range from the
    key of the empty identifier to the key of the sentinel ["~"] as its
    first call and then only calls [Next] and [Close], a run that does not
    pass makes no call; and the result is the same on two ledgers that
    hold the same bytes under every key of that entity type. *)
Definition scansKeysOf {A} (t : EntityType) (allowed : bool) (m : M A) : Prop :=
  (forall st,
      if allowed then
        exists rest,
          Calls (m st).2
          = Calls st ++ CallGetStateByRange (spec_keyFor t EmptyString)
                                            (spec_keyFor t "~") :: rest /\
          Forall (fun c => c = CallNext \/ c = CallClose) rest
      else Calls (m st).2 = Calls st) /\
  (forall st st',
      (forall id, State st !! spec_keyFor t id = State st' !! spec_keyFor t id) ->
      (m st).1 = (m st').1).

(** An operation that changes no entry of the world state other than the
    one under [k], and nothing of the private data. *)
Definition touchesOnly {A} (k : string) (m : M A) : Prop :=
  forall st,
    PrivateData (m st).2 = PrivateData st /\
    forall k', k' <> k -> State (m st).2 !! k' = State st !! k'.

(** The same for the private entry [k] of [collection]. *)
Definition touchesOnlyPrivate {A} (collection k : string) (m : M A) : Prop :=
  forall st,
    State (m st).2 = State st /\
    forall ck, ck <> (collection, k) -> PrivateData (m st).2 !! ck = PrivateData st !! ck.

(** An operation whose failures leave the ledger as it was. *)
Definition failsClean {A} (m : M A) : Prop :=
  forall st,
    is_Ok (m st).1 = false ->
    State (m st).2 = State st /\ PrivateData (m st).2 = PrivateData st.

(** An operation that, run a second time with the same arguments, leaves
    the ledger as the first run left it. *)
Definition repeatable {A} (m : M A) : Prop :=
  forall st,
    (m (m st).2).1 = (m st).1 /\
    State (m (m st).2).2 = State (m st).2 /\
    PrivateData (m (m st).2).2 = PrivateData (m st).2.

(** An operation whose result does not depend on what the ledger holds. *)
Definition ledgerBlind {A} (m : M A) : Prop :=
  forall st st', (m st).1 = (m st').1.

(** Whether the document of a scanned entry is a catch dated within
    [[startDate, endDate]]. *)
Definition spec_entryInDates `{json.Codec} (startDate endDate : string)
  (kv : string * bytes) : bool :=
  match json.UnmarshalCatch kv.2 with
  | Ok c => spec_inDates startDate endDate c
  | Err _ => false
  end.

(** The payload made of stored documents: [null] for none, else the
    documents between brackets, separated by commas. *)
Definition spec_payload (docs : list bytes) : bytes :=
  match docs with
  | [] => "null"
  | _ => "[" +:+ json.joinElems docs +:+ "]"
  end.

(** ** Concrete callers and ledgers *)

Module Examples.

Definition noFaults : Peer := {|
  GetState_err := fun _ => None;
  PutState_err := fun _ _ => None;
  DelState_err := fun _ => None;
  GetStateByRange_err := fun _ _ => None;
  Next_err := fun _ => None;
  GetPrivateData_err := fun _ _ => None;
  PutPrivateData_err := fun _ _ _ => None |}.

(** A caller with the given [role] attribute, if any, whose identifier and
    enrollment identifier are [id]. *)
Definition identity (role : option string) (id : string) : ClientIdentity := {|
  GetAttributeValue := fun name =>
    if String.eqb name "role" then
      match role with
      | Some r => (r, true, None)
      | None => (EmptyString, false, None)
      end
    else if String.eqb name "hf.EnrollmentID" then (id, true, None)
    else (EmptyString, false, None);
  GetID := (id, None) |}.

Definition caller (role : option string) (id : string) : TransactionContext :=
  {| GetClientIdentity := identity role id; GetPeer := noFaults |}.

(** A caller whose certificate attributes cannot be read. *)
Definition unreadable : TransactionContext := {|
  GetClientIdentity := {|
    GetAttributeValue := fun _ =>
      (EmptyString, false, Some (ExternalError "failed to read attributes"));
    GetID := (EmptyString, Some (ExternalError "failed to read id")) |};
  GetPeer := noFaults |}.

Definition emptyStub : Stub := {| State := ∅; PrivateData := ∅; Calls := [] |}.

Definition tenAndAHalf : float64 := S754_finite false 5910974510923776 (-49).
Definition minusOne : float64 := S754_finite true 4503599627370496 (-52).

Definition catch1 : Catch.t :=
  {| Catch.CatchID := "C001"; Catch.FisherID := "F001"; Catch.Species := "Tilapia";
     Catch.WeightKg := tenAndAHalf; Catch.Date := "2025-08-09" |}.

Definition catch2 : Catch.t :=
  {| Catch.CatchID := "C002"; Catch.FisherID := "F002"; Catch.Species := "Nile Perch";
     Catch.WeightKg := S754_finite false 8444249301319680 (-49);
     Catch.Date := "2025-08-10" |}.

(** The second catch of [TestLogCatch], with the weight -1.0. *)
Definition negativeCatch : Catch.t :=
  {| Catch.CatchID := "C002"; Catch.FisherID := "F001"; Catch.Species := "Tilapia";
     Catch.WeightKg := minusOne; Catch.Date := "2025-08-09" |}.

Definition john : Fisher.t :=
  {| Fisher.ID := "F001"; Fisher.Name := "John Doe"; Fisher.GovtID := "GOV123";
     Fisher.Role := "fisher" |}.

Definition jane : Fisher.t :=
  {| Fisher.ID := "F001"; Fisher.Name := "Jane Doe"; Fisher.GovtID := "GOV456";
     Fisher.Role := "fisher" |}.

Definition bytesOf (r : result bytes) : bytes :=
  match r with
  | Ok b => b
  | Err _ => EmptyString
  end.

(** The ledger seeded by [TestGenerateReport]. *)
Definition twoCatches : Stub := {|
  State := <["CATCH_C001" := bytesOf (RefJSON.MarshalCatch catch1)]>
             (<["CATCH_C002" := bytesOf (RefJSON.MarshalCatch catch2)]> ∅);
  PrivateData := ∅;
  Calls := [] |}.

(** A peer that refuses every write. *)
Definition rejectingWrites : Peer := {|
  GetState_err := fun _ => None;
  PutState_err := fun _ _ => Some (ExternalError "write refused");
  DelState_err := fun _ => Some (ExternalError "write refused");
  GetStateByRange_err := fun _ _ => None;
  Next_err := fun _ => None;
  GetPrivateData_err := fun _ _ => None;
  PutPrivateData_err := fun _ _ _ => Some (ExternalError "write refused") |}.

(** A peer that cannot open a range query. *)
Definition rejectingRanges : Peer := {|
  GetState_err := fun _ => None;
  PutState_err := fun _ _ => None;
  DelState_err := fun _ => None;
  GetStateByRange_err := fun _ _ => Some (ExternalError "range refused");
  Next_err := fun _ => None;
  GetPrivateData_err := fun _ _ => None;
  PutPrivateData_err := fun _ _ _ => None |}.

Definition callerOn (peer : Peer) (role : option string) (id : string)
  : TransactionContext :=
  {| GetClientIdentity := identity role id; GetPeer := peer |}.

Definition batch1 : Batch.t :=
  {| Batch.BatchID := "B001"; Batch.CatchIDs := ["C001"; "C002"];
     Batch.ProcessorID := "P001"; Batch.Date := "2025-08-09";
     Batch.QRCodeURL := "https://getreech.example.org/batch/B001" |}.

Definition asset1 : Asset.t :=
  {| Asset.ID := "A1"; Asset.Color := "red"; Asset.Size := 5;
     Asset.Owner := "tom"; Asset.AppraisedValue := 300 |}.

(** A ledger holding [asset1] under its key. *)
Definition oneAsset : Stub := {|
  State := <["ASSET_A1" := bytesOf (RefJSON.MarshalAsset asset1)]> ∅;
  PrivateData := ∅;
  Calls := [] |}.

(** The ledger of [twoCatches] with an undecodable entry ahead of them. *)
Definition corruptedCatches : Stub := {|
  State := <["CATCH_C000" := "garbage"]> (State twoCatches);
  PrivateData := ∅;
  Calls := [] |}.

(** A catch whose identifier sorts after the end of the scanned range. *)
Definition lateCatch : Catch.t :=
  {| Catch.CatchID := "~C9"; Catch.FisherID := "F001"; Catch.Species := "Tilapia";
     Catch.WeightKg := tenAndAHalf; Catch.Date := "2025-08-09" |}.

End Examples.

(** ** Proof automation *)

(** Unfold the monad and the stub operations, leaving the case analysis. *)
Ltac unfold_go :=
  unfold bind, wrapErr, lift, ret, fail, defer, Close,
    GetState, PutState, DelState, GetPrivateData, PutPrivateData,
    GetStateByRange, Next, record in *.

(** Case analysis on whatever a [match] or an [if] of the goal inspects. *)
Ltac case_go :=
  repeat match goal with
    | |- context [match ?x with _ => _ end] =>
        lazymatch x with
        | context [match _ with _ => _ end] => fail
        | _ => destruct x eqn:?; simpl in *
        end
    end.

(** ** Byte-wise order of strings *)

Section StringOrder.

Lemma ascii_compare_refl (a : ascii) : Ascii.compare a a = Eq.
Proof. unfold Ascii.compare. apply N.compare_refl. Qed.

Lemma ascii_compare_lt_trans (a b c : ascii) :
  Ascii.compare a b = Lt -> Ascii.compare b c = Lt -> Ascii.compare a c = Lt.
Proof.
  unfold Ascii.compare. rewrite !N.compare_lt_iff. apply N.lt_trans.
Qed.

Lemma string_compare_refl (s : string) : String.compare s s = Eq.
Proof. induction s as [|a s IH]; simpl; [done|]. by rewrite ascii_compare_refl. Qed.

Lemma string_compare_lt_trans (s t u : string) :
  String.compare s t = Lt -> String.compare t u = Lt -> String.compare s u = Lt.
Proof.
  revert t u. induction s as [|a s IH]; intros [|b t] [|c u]; simpl; try done.
  destruct (Ascii.compare a b) eqn:Hab; try done;
    destruct (Ascii.compare b c) eqn:Hbc; try done; intros Hst Htu.
  - apply Ascii.compare_eq_iff in Hab, Hbc. subst.
    rewrite ascii_compare_refl. eauto.
  - apply Ascii.compare_eq_iff in Hab. subst. by rewrite Hbc.
  - apply Ascii.compare_eq_iff in Hbc. subst. by rewrite Hab.
  - by rewrite (ascii_compare_lt_trans a b c).
Qed.

Lemma str_le_spec (s t : string) :
  str_le s t = true <-> String.compare s t = Lt \/ s = t.
Proof.
  unfold str_le, String.leb. split.
  - destruct (String.compare s t) eqn:Hc; try done; intros _; [right|by left].
    by apply String.compare_eq_iff.
  - intros [->| ->]; [done|]. by rewrite string_compare_refl.
Qed.

Lemma str_lt_spec (s t : string) : str_lt s t = true <-> String.compare s t = Lt.
Proof. unfold str_lt, String.ltb. by destruct (String.compare s t). Qed.

Lemma str_le_refl (s : string) : str_le s s = true.
Proof. apply str_le_spec. by right. Qed.

Lemma str_le_trans (s t u : string) :
  str_le s t = true -> str_le t u = true -> str_le s u = true.
Proof.
  rewrite !str_le_spec. intros [Hst| ->] [Htu| ->]; eauto.
  left. eapply string_compare_lt_trans; eauto.
Qed.

Lemma str_lt_irrefl (s : string) : str_lt s s = false.
Proof. unfold str_lt, String.ltb. by rewrite string_compare_refl. Qed.

Lemma str_le_lt_trans (s t u : string) :
  str_le s t = true -> str_lt t u = true -> str_lt s u = true.
Proof.
  rewrite str_le_spec, !str_lt_spec. intros [Hst| ->] Htu; [|done].
  eapply string_compare_lt_trans; eauto.
Qed.

Lemma str_le_neq_lt (s t : string) :
  str_le s t = true -> s <> t -> str_lt s t = true.
Proof. rewrite str_le_spec, str_lt_spec. by intros [?|?]. Qed.

(** No date lies in an interval whose ends are in the wrong order. *)
Lemma spec_inDates_empty (startDate endDate : string) (c : Catch.t) :
  str_lt endDate startDate = true -> spec_inDates startDate endDate c = false.
Proof.
  intros Hlt. unfold spec_inDates.
  destruct (str_le startDate (Catch.Date c)) eqn:H1; [|done].
  destruct (str_le (Catch.Date c) endDate) eqn:H2; [|done].
  pose proof (str_le_lt_trans _ _ _ (str_le_trans _ _ _ H1 H2) Hlt) as Hirr.
  by rewrite str_lt_irrefl in Hirr.
Qed.

End StringOrder.

(** ** The range scan *)

Section RangeScan.

#[local] Instance keyLe_total : Total keyLe.
Proof. intros a b. unfold keyLe, str_le. apply String.leb_total. Qed.

#[local] Instance keyLe_trans : Transitive keyLe.
Proof. intros a b c. unfold keyLe. apply str_le_trans. Qed.

(** The scan holds exactly the entries of the state whose key is in the
    range. *)
Lemma rangeEntries_elem startKey endKey (m : gmap string bytes) k v :
  (k, v) ∈ rangeEntries startKey endKey m <->
  m !! k = Some v /\ inRange startKey endKey k = true.
Proof.
  unfold rangeEntries. rewrite merge_sort_Permutation.
  rewrite list_elem_of_filter, elem_of_map_to_list. simpl. tauto.
Qed.

Lemma rangeEntries_NoDup startKey endKey (m : gmap string bytes) :
  NoDup (rangeEntries startKey endKey m).*1.
Proof.
  unfold rangeEntries. rewrite merge_sort_Permutation.
  eapply sublist_NoDup; [apply (NoDup_fst_map_to_list m)|].
  apply fmap_sublist, sublist_filter.
Qed.

Lemma StronglySorted_strict (l : list (string * bytes)) :
  StronglySorted keyLe l -> NoDup l.*1 ->
  StronglySorted (fun a b => str_lt a.1 b.1 = true) l.
Proof.
  induction 1 as [|a l Hl IH Ha]; intros Hnd; [constructor|].
  simpl in Hnd. apply NoDup_cons in Hnd as [Hnotin Hnd].
  constructor; [by apply IH|].
  apply Forall_forall. intros b Hb.
  apply str_le_neq_lt.
  - rewrite Forall_forall in Ha. by apply Ha.
  - intros Heq. apply Hnotin. rewrite Heq. apply list_elem_of_fmap. eauto.
Qed.

(** The scan is in strictly ascending key order. *)
Lemma rangeEntries_sorted startKey endKey (m : gmap string bytes) :
  StronglySorted (fun a b => str_lt a.1 b.1 = true) (rangeEntries startKey endKey m).
Proof.
  apply StronglySorted_strict; [|apply rangeEntries_NoDup].
  apply Sorted_StronglySorted; [apply _|].
  unfold rangeEntries. apply Sorted_merge_sort. apply _.
Qed.

(** A key between a prefix and the prefix followed by a sentinel starts
    with the prefix. *)
Lemma range_has_prefix (p sentinel k : string) :
  str_le p k = true -> str_lt k (p +:+ sentinel) = true -> exists id, k = p +:+ id.
Proof.
  revert k. induction p as [|a p IH]; intros k Hle Hlt; [by exists k|].
  destruct k as [|b k]; [done|].
  unfold str_le, String.leb in Hle. unfold str_lt, String.ltb in Hlt.
  simpl in Hle, Hlt. rewrite (Ascii.compare_antisym b a) in Hlt.
  destruct (Ascii.compare a b) eqn:Hab; simpl in Hlt; try done.
  apply Ascii.compare_eq_iff in Hab as ->.
  destruct (IH k) as [id ->]; [done..|]. by exists id.
Qed.

(** The keys the report scans are harvest-event keys. *)
Lemma rangeEntries_catch_keys (m : gmap string bytes) k v :
  (k, v) ∈ rangeEntries "CATCH_" "CATCH_~" m -> exists id, k = spec_keyFor HarvestEvent id.
Proof.
  rewrite rangeEntries_elem. unfold inRange. simpl. rewrite andb_true_iff.
  intros (_ & Hle & Hlt). by apply (range_has_prefix "CATCH_" "~").
Qed.

End RangeScan.

(** ** The report loop against its specification *)

Section Report.
Context `{json.Codec}.

Lemma spec_decodeEntries_Ok peer wNext wUnmarshal entries cs :
  Forall2 (fun kv c => Next_err peer kv.1 = None /\ json.UnmarshalCatch kv.2 = Ok c)
          entries cs ->
  spec_decodeEntries peer wNext wUnmarshal entries = Ok cs.
Proof.
  induction 1 as [|kv c entries cs [HN HU] _ IH]; simpl; [done|].
  by rewrite HN, HU, IH.
Qed.

Lemma spec_decodeEntries_Err peer wNext wUnmarshal entries :
  Exists (fun kv => Next_err peer kv.1 <> None \/ is_Ok (json.UnmarshalCatch kv.2) = false)
         entries ->
  exists e, spec_decodeEntries peer wNext wUnmarshal entries = Err e.
Proof.
  induction entries as [|kv entries IH]; intros Hex; [by inversion Hex|].
  simpl. destruct (Next_err peer kv.1) eqn:HN; [eauto|].
  destruct (json.UnmarshalCatch kv.2) eqn:HU; [|eauto].
  apply Exists_cons in Hex as [[Hbad|Hbad]|Hrest]; simpl in *; try done.
  { by rewrite HU in Hbad. }
  destruct (IH Hrest) as [e ->]. eauto.
Qed.

Lemma spec_decodeEntries_none peer wNext wUnmarshal startDate endDate entries :
  Forall (fun kv => Next_err peer kv.1 = None /\
                    exists c, json.UnmarshalCatch kv.2 = Ok c /\
                              (str_lt endDate startDate = true \/
                               (str_le startDate (Catch.Date c)
                                && str_le (Catch.Date c) endDate)%bool = false))
         entries ->
  exists cs, spec_decodeEntries peer wNext wUnmarshal entries = Ok cs /\
             List.filter (spec_inDates startDate endDate) cs = [].
Proof.
  induction 1 as [|kv entries (HN & c & HU & Hout) _ (cs & Hcs & Hnone)].
  - by exists [].
  - exists (c :: cs). simpl. rewrite HN, HU, Hcs. split; [done|].
    rewrite Hnone. destruct Hout as [Hlt|Hout].
    + by rewrite spec_inDates_empty.
    + unfold spec_inDates. by rewrite Hout.
Qed.

(** The legacy loop computes the specified list, after the records already
    in [out]. *)
Lemma Bigdatacc_loop_result ctx startDate endDate entries out st :
  (Bigdatacc.GenerateReport_loop ctx startDate endDate entries out st).1 =
  match spec_decodeEntries (GetPeer ctx) (fun e => e) (fun e => e) entries with
  | Err e => Err e
  | Ok cs => Ok (out ++ List.filter (spec_inDates startDate endDate) cs)
  end.
Proof.
  revert out st. induction entries as [|kv entries IH]; intros out st; simpl.
  { by rewrite List.app_nil_r. }
  unfold_go. simpl.
  destruct (Next_err (GetPeer ctx) kv.1); [done|].
  destruct (json.UnmarshalCatch kv.2) as [c|]; [|done].
  change (str_ge (Catch.Date c) startDate && str_le (Catch.Date c) endDate)%bool
    with (spec_inDates startDate endDate c).
  destruct (spec_inDates startDate endDate c) eqn:Hd;
    rewrite IH; destruct (spec_decodeEntries _ _ _ entries); simpl; rewrite ?Hd; try done.
  by rewrite <- List.app_assoc.
Qed.

Lemma Chaincode_loop_result ctx startDate endDate entries out st :
  (Chaincode.GenerateReport_loop ctx startDate endDate entries out st).1 =
  match spec_decodeEntries (GetPeer ctx)
          (ErrorfV "failed during results iteration: %v" [])
          (ErrorfV "failed to unmarshal catch data: %v" []) entries with
  | Err e => Err e
  | Ok cs => Ok (out ++ List.filter (spec_inDates startDate endDate) cs)
  end.
Proof.
  revert out st. induction entries as [|kv entries IH]; intros out st; simpl.
  { by rewrite List.app_nil_r. }
  unfold_go. simpl.
  destruct (Next_err (GetPeer ctx) kv.1); [done|].
  destruct (json.UnmarshalCatch kv.2) as [c|]; [|done].
  change (str_ge (Catch.Date c) startDate && str_le (Catch.Date c) endDate)%bool
    with (spec_inDates startDate endDate c).
  destruct (spec_inDates startDate endDate c) eqn:Hd;
    rewrite IH; destruct (spec_decodeEntries _ _ _ entries); simpl; rewrite ?Hd; try done.
  by rewrite <- List.app_assoc.
Qed.

(** The loops only call [Next]: the ledger is as it was. *)
Lemma Bigdatacc_loop_state ctx startDate endDate entries out st :
  State (Bigdatacc.GenerateReport_loop ctx startDate endDate entries out st).2 = State st /\
  PrivateData (Bigdatacc.GenerateReport_loop ctx startDate endDate entries out st).2
    = PrivateData st.
Proof.
  revert out st. induction entries as [|kv entries IH]; intros out st; simpl; [done|].
  unfold_go. simpl.
  destruct (Next_err (GetPeer ctx) kv.1); [done|].
  destruct (json.UnmarshalCatch kv.2) as [c|]; [|done].
  destruct (_ && _)%bool;
    match goal with
    | |- State (?loop _ _ _ _ ?o ?t).2 = _ /\ _ => destruct (IH o t) as [HS HP]
    end; simpl in HS, HP; by rewrite HS, HP.
Qed.

Lemma Chaincode_loop_state ctx startDate endDate entries out st :
  State (Chaincode.GenerateReport_loop ctx startDate endDate entries out st).2 = State st /\
  PrivateData (Chaincode.GenerateReport_loop ctx startDate endDate entries out st).2
    = PrivateData st.
Proof.
  revert out st. induction entries as [|kv entries IH]; intros out st; simpl; [done|].
  unfold_go. simpl.
  destruct (Next_err (GetPeer ctx) kv.1); [done|].
  destruct (json.UnmarshalCatch kv.2) as [c|]; [|done].
  destruct (_ && _)%bool;
    match goal with
    | |- State (?loop _ _ _ _ ?o ?t).2 = _ /\ _ => destruct (IH o t) as [HS HP]
    end; simpl in HS, HP; by rewrite HS, HP.
Qed.

(** [GenerateReport] of an authorised caller, once the range query is
    open: the encoding of the specified list, or the first failure. *)
Lemma Bigdatacc_GenerateReport_result ctx startDate endDate st :
  Bigdatacc.hasRole ctx "authority" = true ->
  GetStateByRange_err (GetPeer ctx) "CATCH_" "CATCH_~" = None ->
  (Bigdatacc.GenerateReport ctx startDate endDate st).1 =
  match spec_decodeEntries (GetPeer ctx) (fun e => e) (fun e => e)
          (rangeEntries "CATCH_" "CATCH_~" (State st)) with
  | Err e => Err e
  | Ok cs => json.MarshalCatches (List.filter (spec_inDates startDate endDate) cs)
  end.
Proof.
  intros Hrole Hopen. unfold Bigdatacc.GenerateReport. rewrite Hrole. simpl.
  unfold bind at 1. unfold GetStateByRange. rewrite Hopen. simpl.
  unfold defer, bind at 1.
  match goal with |- context [Bigdatacc.GenerateReport_loop ?c ?s ?e ?l ?o ?t] =>
    pose proof (Bigdatacc_loop_result c s e l o t) as Hloop;
    destruct (Bigdatacc.GenerateReport_loop c s e l o t) as [r st'] end.
  simpl in Hloop. subst r.
  destruct (spec_decodeEntries _ _ _ _) as [cs|]; [|done].
  simpl. unfold bind, lift, ret.
  by destruct (json.MarshalCatches _).
Qed.

Lemma Chaincode_GenerateReport_result ctx startDate endDate st :
  Chaincode.hasRole ctx "authority" = true ->
  GetStateByRange_err (GetPeer ctx) "CATCH_" "CATCH_~" = None ->
  (Chaincode.GenerateReport ctx startDate endDate st).1 =
  match spec_decodeEntries (GetPeer ctx)
          (ErrorfV "failed during results iteration: %v" [])
          (ErrorfV "failed to unmarshal catch data: %v" [])
          (rangeEntries "CATCH_" "CATCH_~" (State st)) with
  | Err e => Err e
  | Ok cs =>
      match json.MarshalCatches (List.filter (spec_inDates startDate endDate) cs) with
      | Ok b => Ok b
      | Err e => Err (ErrorfV "failed to marshal report data: %v" [] e)
      end
  end.
Proof.
  intros Hrole Hopen. unfold Chaincode.GenerateReport. rewrite Hrole. simpl.
  unfold bind at 1. unfold wrapErr at 1. unfold GetStateByRange. rewrite Hopen. simpl.
  unfold defer, bind at 1.
  match goal with |- context [Chaincode.GenerateReport_loop ?c ?s ?e ?l ?o ?t] =>
    pose proof (Chaincode_loop_result c s e l o t) as Hloop;
    destruct (Chaincode.GenerateReport_loop c s e l o t) as [r st'] end.
  simpl in Hloop. subst r.
  destruct (spec_decodeEntries _ _ _ _) as [cs|]; [|done].
  simpl. unfold bind, wrapErr, lift, ret.
  by destruct (json.MarshalCatches _).
Qed.

End Report.

(** ** The create operations on their success path *)

Section Writes.
Context `{json.Codec}.

Lemma Bigdatacc_RegisterFisher_ok ctx st id name govtId b :
  Bigdatacc.hasRole ctx "authority" = true ->
  json.MarshalFisher {| Fisher.ID := id; Fisher.Name := name; Fisher.GovtID := govtId;
                        Fisher.Role := "fisher" |} = Ok b ->
  PutState_err (GetPeer ctx) ("FISHER_" +:+ id) b = None ->
  Bigdatacc.RegisterFisher ctx id name govtId st = (Ok tt, afterPut ("FISHER_" +:+ id) b st).
Proof.
  intros Hrole Hm Hput. unfold Bigdatacc.RegisterFisher. rewrite Hrole. simpl.
  unfold_go. by rewrite Hm, Hput.
Qed.

Lemma Chaincode_RegisterFisher_ok ctx st id name govtId b :
  Chaincode.hasRole ctx "authority" = true ->
  json.MarshalFisher {| Fisher.ID := id; Fisher.Name := name; Fisher.GovtID := govtId;
                        Fisher.Role := "fisher" |} = Ok b ->
  PutPrivateData_err (GetPeer ctx) "FisherCollection" ("FISHER_" +:+ id) b = None ->
  Chaincode.RegisterFisher ctx id name govtId st
  = (Ok tt, afterPutPrivate "FisherCollection" ("FISHER_" +:+ id) b st).
Proof.
  intros Hrole Hm Hput. unfold Chaincode.RegisterFisher. rewrite Hrole. simpl.
  unfold_go. by rewrite Hm, Hput.
Qed.

(** [LogCatch] stores whatever [ParseFloat] accepts. *)
Lemma Bigdatacc_LogCatch_ok ctx st catchId fisherId species weightKgStr date w b :
  (Bigdatacc.hasRole ctx "fisher" || Bigdatacc.isCaller ctx fisherId)%bool = true ->
  strconv.ParseFloat weightKgStr = (w, None) ->
  json.MarshalCatch {| Catch.CatchID := catchId; Catch.FisherID := fisherId;
                       Catch.Species := species; Catch.WeightKg := w;
                       Catch.Date := date |} = Ok b ->
  PutState_err (GetPeer ctx) ("CATCH_" +:+ catchId) b = None ->
  Bigdatacc.LogCatch ctx catchId fisherId species weightKgStr date st
  = (Ok tt, afterPut ("CATCH_" +:+ catchId) b st).
Proof.
  intros Hauth Hp Hm Hput. unfold Bigdatacc.LogCatch.
  rewrite <- negb_orb, Hauth, Hp. simpl.
  unfold_go. by rewrite Hm, Hput.
Qed.

Lemma Chaincode_LogCatch_ok ctx st catchId fisherId species weightKgStr date w b :
  strconv.ParseFloat weightKgStr = (w, None) ->
  json.MarshalCatch {| Catch.CatchID := catchId; Catch.FisherID := fisherId;
                       Catch.Species := species; Catch.WeightKg := w;
                       Catch.Date := date |} = Ok b ->
  PutState_err (GetPeer ctx) ("CATCH_" +:+ catchId) b = None ->
  Chaincode.LogCatch ctx catchId fisherId species weightKgStr date st
  = (Ok tt, afterPut ("CATCH_" +:+ catchId) b st).
Proof.
  intros Hp Hm Hput. unfold Chaincode.LogCatch. rewrite Hp.
  unfold_go. by rewrite Hm, Hput.
Qed.

(** [LogCatch] rejects what [ParseFloat] rejects, before any call on the
    stub. *)
Lemma Bigdatacc_LogCatch_unparseable ctx st catchId fisherId species weightKgStr date w e :
  (Bigdatacc.hasRole ctx "fisher" || Bigdatacc.isCaller ctx fisherId)%bool = true ->
  strconv.ParseFloat weightKgStr = (w, Some e) ->
  Bigdatacc.LogCatch ctx catchId fisherId species weightKgStr date st
  = (Err (ErrorfV "invalid weightKg: %v" [] e), st).
Proof.
  intros Hauth Hp. unfold Bigdatacc.LogCatch. by rewrite <- negb_orb, Hauth, Hp.
Qed.

Lemma Chaincode_LogCatch_unparseable ctx st catchId fisherId species weightKgStr date w e :
  strconv.ParseFloat weightKgStr = (w, Some e) ->
  Chaincode.LogCatch ctx catchId fisherId species weightKgStr date st
  = (Err (ErrorfV "invalid weightKg value '%s': %v" [weightKgStr] e), st).
Proof. intros Hp. unfold Chaincode.LogCatch. by rewrite Hp. Qed.

Lemma Bigdatacc_CreateBatch_ok ctx st batchId catchIds processorId date b :
  Bigdatacc.hasRole ctx "processor" = true ->
  json.MarshalBatch {| Batch.BatchID := batchId; Batch.CatchIDs := catchIds;
                       Batch.ProcessorID := processorId; Batch.Date := date;
                       Batch.QRCodeURL := "https://example.org/batch/" +:+ batchId |}
    = Ok b ->
  PutState_err (GetPeer ctx) ("BATCH_" +:+ batchId) b = None ->
  Bigdatacc.CreateBatch ctx batchId catchIds processorId date st
  = (Ok tt, afterPut ("BATCH_" +:+ batchId) b st).
Proof.
  intros Hrole Hm Hput. unfold Bigdatacc.CreateBatch. rewrite Hrole. simpl.
  unfold_go. by rewrite Hm, Hput.
Qed.

Lemma Chaincode_CreateBatch_ok ctx st batchId catchIds processorId date b :
  Chaincode.hasRole ctx "processor" = true ->
  json.MarshalBatch {| Batch.BatchID := batchId; Batch.CatchIDs := catchIds;
                       Batch.ProcessorID := processorId; Batch.Date := date;
                       Batch.QRCodeURL :=
                         "https://getreech.example.org/batch/" +:+ batchId |}
    = Ok b ->
  PutState_err (GetPeer ctx) ("BATCH_" +:+ batchId) b = None ->
  Chaincode.CreateBatch ctx batchId catchIds processorId date st
  = (Ok tt, afterPut ("BATCH_" +:+ batchId) b st).
Proof.
  intros Hrole Hm Hput. unfold Chaincode.CreateBatch. rewrite Hrole. simpl.
  unfold_go. by rewrite Hm, Hput.
Qed.

Lemma Bigdatacc_PlaceOrder_ok ctx st orderId batchId buyerId date b :
  Bigdatacc.hasRole ctx "buyer" = true ->
  json.MarshalOrder {| Order.OrderID := orderId; Order.BatchID := batchId;
                       Order.BuyerID := buyerId; Order.Status := "placed";
                       Order.Date := date |} = Ok b ->
  PutState_err (GetPeer ctx) ("ORDER_" +:+ orderId) b = None ->
  Bigdatacc.PlaceOrder ctx orderId batchId buyerId date st
  = (Ok tt, afterPut ("ORDER_" +:+ orderId) b st).
Proof.
  intros Hrole Hm Hput. unfold Bigdatacc.PlaceOrder. rewrite Hrole. simpl.
  unfold_go. by rewrite Hm, Hput.
Qed.

Lemma Chaincode_PlaceOrder_ok ctx st orderId batchId buyerId date b :
  Chaincode.hasRole ctx "buyer" = true ->
  json.MarshalOrder {| Order.OrderID := orderId; Order.BatchID := batchId;
                       Order.BuyerID := buyerId; Order.Status := "placed";
                       Order.Date := date |} = Ok b ->
  PutState_err (GetPeer ctx) ("ORDER_" +:+ orderId) b = None ->
  Chaincode.PlaceOrder ctx orderId batchId buyerId date st
  = (Ok tt, afterPut ("ORDER_" +:+ orderId) b st).
Proof.
  intros Hrole Hm Hput. unfold Chaincode.PlaceOrder. rewrite Hrole. simpl.
  unfold_go. by rewrite Hm, Hput.
Qed.

End Writes.

(** ** Validation of the weight *)

(** C1 (the code departs from the specification): [LogCatch] does not require a
    positive weight.  The argument ["-1.0"] parses to the negative float
    -1.0, and the catch is stored with that weight: in the current contract
    for every caller, in the legacy contract for every caller that passes
    its role-or-identity check. *)
Theorem LogCatch_accepts_negative_weight `{json.Codec}
  ctx st catchId fisherId species date b :
  json.MarshalCatch {| Catch.CatchID := catchId; Catch.FisherID := fisherId;
                       Catch.Species := species;
                       Catch.WeightKg := S754_finite true 4503599627370496 (-52);
                       Catch.Date := date |} = Ok b ->
  PutState_err (GetPeer ctx) ("CATCH_" +:+ catchId) b = None ->
  strconv.ParseFloat "-1.0" = (S754_finite true 4503599627370496 (-52), None) /\
  SFltb (S754_finite true 4503599627370496 (-52)) (S754_zero false) = true /\
  Chaincode.LogCatch ctx catchId fisherId species "-1.0" date st
    = (Ok tt, afterPut ("CATCH_" +:+ catchId) b st) /\
  ((Bigdatacc.hasRole ctx "fisher" || Bigdatacc.isCaller ctx fisherId)%bool = true ->
   Bigdatacc.LogCatch ctx catchId fisherId species "-1.0" date st
     = (Ok tt, afterPut ("CATCH_" +:+ catchId) b st)).
Proof.
  intros Hm Hput.
  assert (Hp : strconv.ParseFloat "-1.0" = (S754_finite true 4503599627370496 (-52), None))
    by (vm_compute; reflexivity).
  split; [exact Hp|]. split; [reflexivity|]. split.
  - eapply Chaincode_LogCatch_ok; eauto.
  - intros Hauth. eapply Bigdatacc_LogCatch_ok; eauto.
Qed.

Lemma LogCatch_accepts_negative_weight_witness :
  let ctx := Examples.caller (Some "fisher") "F001" in
  let b := Examples.bytesOf (RefJSON.MarshalCatch Examples.negativeCatch) in
  Chaincode.LogCatch ctx "C002" "F001" "Tilapia" "-1.0" "2025-08-09" Examples.emptyStub
    = (Ok tt, afterPut "CATCH_C002" b Examples.emptyStub) /\
  Bigdatacc.LogCatch ctx "C002" "F001" "Tilapia" "-1.0" "2025-08-09" Examples.emptyStub
    = (Ok tt, afterPut "CATCH_C002" b Examples.emptyStub) /\
  json.UnmarshalCatch b = Ok Examples.negativeCatch.
Proof.
  intros ctx b.
  destruct (LogCatch_accepts_negative_weight ctx Examples.emptyStub
              "C002" "F001" "Tilapia" "2025-08-09" b)
    as (_ & _ & HC & HB); [vm_compute; reflexivity | reflexivity |].
  split; [exact HC|]. split; [apply HB; reflexivity | vm_compute; reflexivity].
Defined.

(** The parts of the validation that the code does perform: a weight that
    [ParseFloat] rejects is refused before any call on the stub, and
    ["10.5"] is stored as the float 10.5. *)
Lemma LogCatch_rejects_unparseable_weight `{json.Codec} ctx st catchId fisherId species date :
  Chaincode.LogCatch ctx catchId fisherId species "ten" date st
  = (Err (ErrorfV "invalid weightKg value '%s': %v" ["ten"]
            (NumError "ParseFloat" "ten" ErrSyntax)), st).
Proof. by apply Chaincode_LogCatch_unparseable with (w := S754_zero false). Qed.

Lemma LogCatch_stores_ten_and_a_half :
  let ctx := Examples.caller (Some "fisher") "F001" in
  let b := Examples.bytesOf (RefJSON.MarshalCatch Examples.catch1) in
  Chaincode.LogCatch ctx "C001" "F001" "Tilapia" "10.5" "2025-08-09" Examples.emptyStub
    = (Ok tt, afterPut "CATCH_C001" b Examples.emptyStub) /\
  Bigdatacc.LogCatch ctx "C001" "F001" "Tilapia" "10.5" "2025-08-09" Examples.emptyStub
    = (Ok tt, afterPut "CATCH_C001" b Examples.emptyStub) /\
  Catch.WeightKg <$> (match json.UnmarshalCatch b with Ok c => Some c | Err _ => None end)
    = Some Examples.tenAndAHalf.
Proof.
  intros ctx b. split; [|split].
  - apply Chaincode_LogCatch_ok with (w := Examples.tenAndAHalf); by vm_compute.
  - apply Bigdatacc_LogCatch_ok with (w := Examples.tenAndAHalf); by vm_compute.
  - by vm_compute.
Qed.

(** ** Duplicate identifiers *)

(** C2 (the code departs from the specification): no create operation reads before
    it writes.  When the identifier already maps to a record [old], the
    operation still succeeds and the record is replaced by the new one. *)
Theorem create_overwrites_existing_record `{json.Codec} ctx st old :
  (forall id name govtId b,
      Chaincode.hasRole ctx "authority" = true ->
      json.MarshalFisher {| Fisher.ID := id; Fisher.Name := name; Fisher.GovtID := govtId;
                            Fisher.Role := "fisher" |} = Ok b ->
      PutPrivateData_err (GetPeer ctx) "FisherCollection" ("FISHER_" +:+ id) b = None ->
      PrivateData st !! ("FisherCollection", "FISHER_" +:+ id) = Some old ->
      (Chaincode.RegisterFisher ctx id name govtId st).1 = Ok tt /\
      PrivateData (Chaincode.RegisterFisher ctx id name govtId st).2
        !! ("FisherCollection", "FISHER_" +:+ id) = Some b) /\
  (forall id name govtId b,
      Bigdatacc.hasRole ctx "authority" = true ->
      json.MarshalFisher {| Fisher.ID := id; Fisher.Name := name; Fisher.GovtID := govtId;
                            Fisher.Role := "fisher" |} = Ok b ->
      PutState_err (GetPeer ctx) ("FISHER_" +:+ id) b = None ->
      State st !! ("FISHER_" +:+ id) = Some old ->
      (Bigdatacc.RegisterFisher ctx id name govtId st).1 = Ok tt /\
      State (Bigdatacc.RegisterFisher ctx id name govtId st).2 !! ("FISHER_" +:+ id) = Some b) /\
  (forall catchId fisherId species weightKgStr date w b,
      strconv.ParseFloat weightKgStr = (w, None) ->
      json.MarshalCatch {| Catch.CatchID := catchId; Catch.FisherID := fisherId;
                           Catch.Species := species; Catch.WeightKg := w;
                           Catch.Date := date |} = Ok b ->
      PutState_err (GetPeer ctx) ("CATCH_" +:+ catchId) b = None ->
      State st !! ("CATCH_" +:+ catchId) = Some old ->
      (Chaincode.LogCatch ctx catchId fisherId species weightKgStr date st).1 = Ok tt /\
      State (Chaincode.LogCatch ctx catchId fisherId species weightKgStr date st).2
        !! ("CATCH_" +:+ catchId) = Some b) /\
  (forall batchId catchIds processorId date b,
      Chaincode.hasRole ctx "processor" = true ->
      json.MarshalBatch {| Batch.BatchID := batchId; Batch.CatchIDs := catchIds;
                           Batch.ProcessorID := processorId; Batch.Date := date;
                           Batch.QRCodeURL :=
                             "https://getreech.example.org/batch/" +:+ batchId |} = Ok b ->
      PutState_err (GetPeer ctx) ("BATCH_" +:+ batchId) b = None ->
      State st !! ("BATCH_" +:+ batchId) = Some old ->
      (Chaincode.CreateBatch ctx batchId catchIds processorId date st).1 = Ok tt /\
      State (Chaincode.CreateBatch ctx batchId catchIds processorId date st).2
        !! ("BATCH_" +:+ batchId) = Some b) /\
  (forall orderId batchId buyerId date b,
      Chaincode.hasRole ctx "buyer" = true ->
      json.MarshalOrder {| Order.OrderID := orderId; Order.BatchID := batchId;
                           Order.BuyerID := buyerId; Order.Status := "placed";
                           Order.Date := date |} = Ok b ->
      PutState_err (GetPeer ctx) ("ORDER_" +:+ orderId) b = None ->
      State st !! ("ORDER_" +:+ orderId) = Some old ->
      (Chaincode.PlaceOrder ctx orderId batchId buyerId date st).1 = Ok tt /\
      State (Chaincode.PlaceOrder ctx orderId batchId buyerId date st).2
        !! ("ORDER_" +:+ orderId) = Some b).
Proof.
  repeat split; intros.
  all: first
    [ erewrite Chaincode_RegisterFisher_ok by eauto
    | erewrite Bigdatacc_RegisterFisher_ok by eauto
    | erewrite Chaincode_LogCatch_ok by eauto
    | erewrite Chaincode_CreateBatch_ok by eauto
    | erewrite Chaincode_PlaceOrder_ok by eauto ];
    simpl; try done; apply lookup_insert_eq.
Qed.

Lemma create_overwrites_existing_record_witness :
  let ctx := Examples.caller (Some "authority") "A001" in
  let johnBytes := Examples.bytesOf (RefJSON.MarshalFisher Examples.john) in
  let janeBytes := Examples.bytesOf (RefJSON.MarshalFisher Examples.jane) in
  let st1 := (Chaincode.RegisterFisher ctx "F001" "John Doe" "GOV123" Examples.emptyStub).2 in
  PrivateData st1 !! ("FisherCollection", "FISHER_F001") = Some johnBytes /\
  (Chaincode.RegisterFisher ctx "F001" "Jane Doe" "GOV456" st1).1 = Ok tt /\
  PrivateData (Chaincode.RegisterFisher ctx "F001" "Jane Doe" "GOV456" st1).2
    !! ("FisherCollection", "FISHER_F001") = Some janeBytes /\
  String.eqb johnBytes janeBytes = false.
Proof.
  intros ctx johnBytes janeBytes st1.
  assert (Hold : PrivateData st1 !! ("FisherCollection", "FISHER_F001") = Some johnBytes)
    by (vm_compute; reflexivity).
  split; [exact Hold|].
  destruct (create_overwrites_existing_record ctx st1 johnBytes) as (HR & _).
  destruct (HR "F001" "Jane Doe" "GOV456" janeBytes) as [Hok Hnew];
    [reflexivity | vm_compute; reflexivity | reflexivity | exact Hold |].
  split; [exact Hok|]. split; [exact Hnew | vm_compute; reflexivity].
Defined.

(** ** Authorization *)

(** C3 (the code departs from the specification): [LogCatch] is not closed to
    callers without the "fisher" role who are not the named fisher.  The
    current contract has its check commented out and writes for exactly
    such a caller; the legacy contract rejects only when both the role and
    the identity fail, so the identity alone, or the role alone, opens the
    write. *)
Theorem LogCatch_open_to_other_callers `{json.Codec}
  ctx st catchId fisherId species weightKgStr date w b :
  strconv.ParseFloat weightKgStr = (w, None) ->
  json.MarshalCatch {| Catch.CatchID := catchId; Catch.FisherID := fisherId;
                       Catch.Species := species; Catch.WeightKg := w;
                       Catch.Date := date |} = Ok b ->
  PutState_err (GetPeer ctx) ("CATCH_" +:+ catchId) b = None ->
  (Chaincode.hasRole ctx "fisher" = false -> Chaincode.isCaller ctx fisherId = false ->
   Chaincode.LogCatch ctx catchId fisherId species weightKgStr date st
     = (Ok tt, afterPut ("CATCH_" +:+ catchId) b st)) /\
  (Bigdatacc.hasRole ctx "fisher" = false -> Bigdatacc.isCaller ctx fisherId = true ->
   Bigdatacc.LogCatch ctx catchId fisherId species weightKgStr date st
     = (Ok tt, afterPut ("CATCH_" +:+ catchId) b st)) /\
  (Bigdatacc.hasRole ctx "fisher" = true -> Bigdatacc.isCaller ctx fisherId = false ->
   Bigdatacc.LogCatch ctx catchId fisherId species weightKgStr date st
     = (Ok tt, afterPut ("CATCH_" +:+ catchId) b st)).
Proof.
  intros Hp Hm Hput. split; [|split].
  - intros _ _. eapply Chaincode_LogCatch_ok; eauto.
  - intros _ Hid. eapply Bigdatacc_LogCatch_ok; eauto. by rewrite Hid, orb_true_r.
  - intros Hrole _. eapply Bigdatacc_LogCatch_ok; eauto. by rewrite Hrole.
Qed.

Lemma LogCatch_open_to_other_callers_witness :
  let b := Examples.bytesOf (RefJSON.MarshalCatch Examples.catch1) in
  let processorF002 := Examples.caller (Some "processor") "F002" in
  let processorF001 := Examples.caller (Some "processor") "F001" in
  let anonymousF002 := Examples.caller None "F002" in
  Chaincode.LogCatch processorF002 "C001" "F001" "Tilapia" "10.5" "2025-08-09"
    Examples.emptyStub = (Ok tt, afterPut "CATCH_C001" b Examples.emptyStub) /\
  Bigdatacc.LogCatch processorF001 "C001" "F001" "Tilapia" "10.5" "2025-08-09"
    Examples.emptyStub = (Ok tt, afterPut "CATCH_C001" b Examples.emptyStub) /\
  Bigdatacc.LogCatch anonymousF002 "C001" "F001" "Tilapia" "10.5" "2025-08-09"
    Examples.emptyStub = (Ok tt, afterPut "CATCH_C001" b Examples.emptyStub).
Proof.
  intros b processorF002 processorF001 anonymousF002.
  assert (Hp : strconv.ParseFloat "10.5" = (Examples.tenAndAHalf, None))
    by (vm_compute; reflexivity).
  assert (Hm : json.MarshalCatch Examples.catch1 = Ok b) by (vm_compute; reflexivity).
  destruct (LogCatch_open_to_other_callers processorF002 Examples.emptyStub
              "C001" "F001" "Tilapia" "10.5" "2025-08-09" _ b Hp Hm eq_refl) as (H1 & _ & _).
  destruct (LogCatch_open_to_other_callers processorF001 Examples.emptyStub
              "C001" "F001" "Tilapia" "10.5" "2025-08-09" _ b Hp Hm eq_refl) as (_ & H2 & _).
  destruct (LogCatch_open_to_other_callers anonymousF002 Examples.emptyStub
              "C001" "F001" "Tilapia" "10.5" "2025-08-09" _ b Hp Hm eq_refl) as (_ & _ & H3).
  split; [|split]; [apply H1 | apply H2 | apply H3]; reflexivity.
Defined.

(** The one case the legacy contract does reject. *)
Lemma Bigdatacc_LogCatch_denied `{json.Codec} ctx st catchId fisherId species weightKgStr date :
  Bigdatacc.hasRole ctx "fisher" = false -> Bigdatacc.isCaller ctx fisherId = false ->
  Bigdatacc.LogCatch ctx catchId fisherId species weightKgStr date st
  = (Err (Errorf "only the fisher can log their catch" []), st).
Proof. intros Hrole Hid. unfold Bigdatacc.LogCatch. by rewrite Hrole, Hid. Qed.

(** Counterexample to C4 as stated: the legacy [hasRole] answers true for a
    caller whose "role" attribute is absent, and for one whose attributes
    cannot be read. *)
Lemma hasRole_permissive_counterexample :
  GetAttributeValue (GetClientIdentity (Examples.caller None "F001")) "role"
    = (EmptyString, false, None) /\
  Bigdatacc.hasRole (Examples.caller None "F001") "authority" = true /\
  (GetAttributeValue (GetClientIdentity Examples.unreadable) "role").2 <> None /\
  Bigdatacc.hasRole Examples.unreadable "authority" = true.
Proof. repeat split; done. Qed.

(** C4, amended: the current contract's [hasRole] is strict: it answers true
    exactly when the "role" attribute is read without error, is present and
    equals the required role, hence false on an error or an absent
    attribute.  The legacy contract's [hasRole] is permissive by design: it
    answers true on an error, on an absent attribute, and on an equal
    value. *)
Theorem hasRole_modes ctx role val found err :
  GetAttributeValue (GetClientIdentity ctx) "role" = (val, found, err) ->
  (Chaincode.hasRole ctx role = true <-> err = None /\ found = true /\ val = role) /\
  (err <> None \/ found = false -> Chaincode.hasRole ctx role = false) /\
  (Bigdatacc.hasRole ctx role = true <-> err <> None \/ found = false \/ val = role).
Proof.
  intros Hattr. unfold Chaincode.hasRole, Bigdatacc.hasRole. rewrite Hattr.
  destruct err as [e|], found; simpl; rewrite ?String.eqb_eq;
    intuition congruence.
Qed.

Lemma hasRole_modes_witness :
  (Chaincode.hasRole (Examples.caller (Some "authority") "A001") "authority" = true <->
     @None error = None /\ true = true /\ "authority" = "authority") /\
  (@None error <> None \/ true = false ->
     Chaincode.hasRole (Examples.caller (Some "authority") "A001") "authority" = false) /\
  (Bigdatacc.hasRole (Examples.caller (Some "authority") "A001") "authority" = true <->
     @None error <> None \/ true = false \/ "authority" = "authority").
Proof.
  exact (hasRole_modes (Examples.caller (Some "authority") "A001") "authority"
           "authority" true None eq_refl).
Defined.

(** An operation whose role check answers false returns its authorization
    error and leaves the stub exactly as it was: no record is written, no
    range query is opened, no call is made at all. *)
Lemma failed_check_returns_at_once `{json.Codec} ctx st :
  (Chaincode.hasRole ctx "authority" = false ->
     (forall id name govtId,
        Chaincode.RegisterFisher ctx id name govtId st
        = (Err (Errorf "only authority can register fishers" []), st)) /\
     (forall startDate endDate,
        Chaincode.GenerateReport ctx startDate endDate st
        = (Err (Errorf "only authority can generate reports" []), st))) /\
  (Chaincode.hasRole ctx "processor" = false ->
     forall batchId catchIds processorId date,
       Chaincode.CreateBatch ctx batchId catchIds processorId date st
       = (Err (Errorf "only processor can create batches" []), st)) /\
  (Chaincode.hasRole ctx "buyer" = false ->
     forall orderId batchId buyerId date,
       Chaincode.PlaceOrder ctx orderId batchId buyerId date st
       = (Err (Errorf "only buyer can place orders" []), st)) /\
  (Bigdatacc.hasRole ctx "authority" = false ->
     (forall id name govtId,
        Bigdatacc.RegisterFisher ctx id name govtId st
        = (Err (Errorf "only authority can register fishers" []), st)) /\
     (forall startDate endDate,
        Bigdatacc.GenerateReport ctx startDate endDate st
        = (Err (Errorf "only authority can generate reports" []), st))) /\
  (Bigdatacc.hasRole ctx "processor" = false ->
     forall batchId catchIds processorId date,
       Bigdatacc.CreateBatch ctx batchId catchIds processorId date st
       = (Err (Errorf "only processor can create batches" []), st)) /\
  (Bigdatacc.hasRole ctx "buyer" = false ->
     forall orderId batchId buyerId date,
       Bigdatacc.PlaceOrder ctx orderId batchId buyerId date st
       = (Err (Errorf "only buyer can place orders" []), st)) /\
  (forall fisherId,
     Bigdatacc.hasRole ctx "fisher" = false -> Bigdatacc.isCaller ctx fisherId = false ->
     forall catchId species weightKgStr date,
       Bigdatacc.LogCatch ctx catchId fisherId species weightKgStr date st
       = (Err (Errorf "only the fisher can log their catch" []), st)).
Proof.
  repeat split; intros;
    unfold Chaincode.RegisterFisher, Chaincode.GenerateReport, Chaincode.CreateBatch,
      Chaincode.PlaceOrder, Bigdatacc.RegisterFisher, Bigdatacc.GenerateReport,
      Bigdatacc.CreateBatch, Bigdatacc.PlaceOrder, Bigdatacc.LogCatch;
    repeat match goal with Hd : _ = false |- _ => rewrite Hd; clear Hd end; done.
Qed.

(** ** The report *)

(** C6: for an authorised caller, [GenerateReport] scans the entries of the
    world state with ["CATCH_" <= key < "CATCH_~"] in ascending key order;
    when every entry is fetched and deserialized, it returns the encoding
    of exactly the records with [startDate <= date <= endDate] (byte-wise
    comparison, both ends included), in the order of the scan; when some
    entry cannot be fetched or deserialized, it returns an error and no
    report. *)
Theorem GenerateReport_filters_scan_in_order `{json.Codec} ctx st startDate endDate :
  GetStateByRange_err (GetPeer ctx) "CATCH_" "CATCH_~" = None ->
  let entries := rangeEntries "CATCH_" "CATCH_~" (State st) in
  (forall k v,
      (k, v) ∈ entries <->
      State st !! k = Some v /\ str_le "CATCH_" k = true /\ str_lt k "CATCH_~" = true) /\
  StronglySorted (fun a b => str_lt a.1 b.1 = true) entries /\
  (forall cs,
      Forall2 (fun kv c => Next_err (GetPeer ctx) kv.1 = None /\
                           json.UnmarshalCatch kv.2 = Ok c) entries cs ->
      let report :=
        List.filter (fun c => (str_le startDate (Catch.Date c)
                               && str_le (Catch.Date c) endDate)%bool) cs in
      (Chaincode.hasRole ctx "authority" = true ->
       (Chaincode.GenerateReport ctx startDate endDate st).1 =
       match json.MarshalCatches report with
       | Ok b => Ok b
       | Err e => Err (ErrorfV "failed to marshal report data: %v" [] e)
       end) /\
      (Bigdatacc.hasRole ctx "authority" = true ->
       (Bigdatacc.GenerateReport ctx startDate endDate st).1 = json.MarshalCatches report)) /\
  (Exists (fun kv => Next_err (GetPeer ctx) kv.1 <> None \/
                     is_Ok (json.UnmarshalCatch kv.2) = false) entries ->
   (Chaincode.hasRole ctx "authority" = true ->
    is_Ok (Chaincode.GenerateReport ctx startDate endDate st).1 = false) /\
   (Bigdatacc.hasRole ctx "authority" = true ->
    is_Ok (Bigdatacc.GenerateReport ctx startDate endDate st).1 = false)).
Proof.
  intros Hopen entries. subst entries. split; [|split; [|split]].
  - intros k v. rewrite rangeEntries_elem. unfold inRange. simpl.
    by rewrite andb_true_iff.
  - apply rangeEntries_sorted.
  - intros cs Hall report. split; intros Hrole.
    + rewrite Chaincode_GenerateReport_result by done.
      by erewrite spec_decodeEntries_Ok by exact Hall.
    + rewrite Bigdatacc_GenerateReport_result by done.
      by erewrite spec_decodeEntries_Ok by exact Hall.
  - intros Hbad. split; intros Hrole.
    + rewrite Chaincode_GenerateReport_result by done.
      by destruct (spec_decodeEntries_Err _ (ErrorfV "failed during results iteration: %v" [])
                     (ErrorfV "failed to unmarshal catch data: %v" []) _ Hbad) as [e ->].
    + rewrite Bigdatacc_GenerateReport_result by done.
      by destruct (spec_decodeEntries_Err _ (fun e => e) (fun e => e) _ Hbad) as [e ->].
Qed.

Lemma GenerateReport_filters_scan_in_order_witness :
  let authority := Examples.caller (Some "authority") "A001" in
  (Chaincode.GenerateReport authority "2025-08-09" "2025-08-10" Examples.twoCatches).1
    = json.MarshalCatches [Examples.catch1; Examples.catch2] /\
  (Bigdatacc.GenerateReport authority "2025-08-09" "2025-08-10" Examples.twoCatches).1
    = json.MarshalCatches [Examples.catch1; Examples.catch2] /\
  (Chaincode.GenerateReport authority "2025-08-10" "2025-08-10" Examples.twoCatches).1
    = json.MarshalCatches [Examples.catch2].
Proof.
  intros authority.
  assert (Hentries : rangeEntries "CATCH_" "CATCH_~" (State Examples.twoCatches)
                     = [("CATCH_C001", Examples.bytesOf (RefJSON.MarshalCatch Examples.catch1));
                        ("CATCH_C002", Examples.bytesOf (RefJSON.MarshalCatch Examples.catch2))])
    by (vm_compute; reflexivity).
  assert (Hall : Forall2 (fun kv c => Next_err (GetPeer authority) kv.1 = None /\
                                      json.UnmarshalCatch kv.2 = Ok c)
                   (rangeEntries "CATCH_" "CATCH_~" (State Examples.twoCatches))
                   [Examples.catch1; Examples.catch2]).
  { rewrite Hentries. repeat constructor; vm_compute; reflexivity. }
  destruct (GenerateReport_filters_scan_in_order authority Examples.twoCatches
              "2025-08-09" "2025-08-10" eq_refl) as (_ & _ & Hboth & _).
  destruct (GenerateReport_filters_scan_in_order authority Examples.twoCatches
              "2025-08-10" "2025-08-10" eq_refl) as (_ & _ & Hlast & _).
  destruct (Hboth _ Hall) as [HC HB]. destruct (Hlast _ Hall) as [HC' _].
  split; [rewrite (HC eq_refl); vm_compute; reflexivity|].
  split; [rewrite (HB eq_refl); vm_compute; reflexivity|].
  rewrite (HC' eq_refl); vm_compute; reflexivity.
Defined.

(** C10: when no scanned record has its date in [[startDate, endDate]], in
    particular when [endDate < startDate], an authorised call succeeds and
    returns the four characters [null], the encoding of the nil slice. *)
Theorem GenerateReport_empty_is_null `{json.Codec} ctx st startDate endDate :
  GetStateByRange_err (GetPeer ctx) "CATCH_" "CATCH_~" = None ->
  Forall (fun kv => Next_err (GetPeer ctx) kv.1 = None /\
                    exists c, json.UnmarshalCatch kv.2 = Ok c /\
                              (str_lt endDate startDate = true \/
                               (str_le startDate (Catch.Date c)
                                && str_le (Catch.Date c) endDate)%bool = false))
         (rangeEntries "CATCH_" "CATCH_~" (State st)) ->
  (Chaincode.hasRole ctx "authority" = true ->
   (Chaincode.GenerateReport ctx startDate endDate st).1 = Ok "null") /\
  (Bigdatacc.hasRole ctx "authority" = true ->
   (Bigdatacc.GenerateReport ctx startDate endDate st).1 = Ok "null").
Proof.
  intros Hopen Hnone.
  split; intros Hrole.
  - rewrite Chaincode_GenerateReport_result by done.
    destruct (spec_decodeEntries_none _ (ErrorfV "failed during results iteration: %v" [])
                (ErrorfV "failed to unmarshal catch data: %v" []) _ _ _ Hnone)
      as (cs & -> & ->).
    done.
  - rewrite Bigdatacc_GenerateReport_result by done.
    destruct (spec_decodeEntries_none _ (fun e => e) (fun e => e) _ _ _ Hnone)
      as (cs & -> & ->).
    done.
Qed.

Lemma GenerateReport_empty_is_null_witness :
  let authority := Examples.caller (Some "authority") "A001" in
  (Chaincode.GenerateReport authority "2026-01-01" "2026-12-31" Examples.twoCatches).1
    = Ok "null" /\
  (Bigdatacc.GenerateReport authority "2025-08-10" "2025-08-09" Examples.twoCatches).1
    = Ok "null".
Proof.
  intros authority.
  assert (Hentries : rangeEntries "CATCH_" "CATCH_~" (State Examples.twoCatches)
                     = [("CATCH_C001", Examples.bytesOf (RefJSON.MarshalCatch Examples.catch1));
                        ("CATCH_C002", Examples.bytesOf (RefJSON.MarshalCatch Examples.catch2))])
    by (vm_compute; reflexivity).
  assert (Hnone : forall startDate endDate,
             (str_lt endDate startDate = true \/
              (str_le startDate "2025-08-09" && str_le "2025-08-09" endDate)%bool = false /\
              (str_le startDate "2025-08-10" && str_le "2025-08-10" endDate)%bool = false) ->
             Forall (fun kv => Next_err (GetPeer authority) kv.1 = None /\
                       exists c, json.UnmarshalCatch kv.2 = Ok c /\
                                 (str_lt endDate startDate = true \/
                                  (str_le startDate (Catch.Date c)
                                   && str_le (Catch.Date c) endDate)%bool = false))
                    (rangeEntries "CATCH_" "CATCH_~" (State Examples.twoCatches))).
  { intros startDate endDate Hout. rewrite Hentries.
    repeat constructor;
      [exists Examples.catch1 | exists Examples.catch2];
      (split; [vm_compute; reflexivity | simpl; tauto]). }
  destruct (GenerateReport_empty_is_null authority Examples.twoCatches
              "2026-01-01" "2026-12-31" eq_refl
              (Hnone "2026-01-01" "2026-12-31" (or_intror (conj eq_refl eq_refl)))) as [HC _].
  destruct (GenerateReport_empty_is_null authority Examples.twoCatches
              "2025-08-10" "2025-08-09" eq_refl
              (Hnone "2025-08-10" "2025-08-09" (or_introl eq_refl))) as [_ HB].
  split; [exact (HC eq_refl) | exact (HB eq_refl)].
Defined.

(** ** Registration and lookup *)

(** C7: for inputs whose record the JSON library encodes and decodes back
    (the valid inputs), [RegisterFisher] by an "authority" caller succeeds
    when the peer accepts the write, and [GetFisher] of the same identifier
    on the resulting state, by any caller whose read the peer serves,
    returns the record with the given id, name and govtId and with the role
    "fisher". *)
Theorem RegisterFisher_then_GetFisher `{json.Codec} ctx ctx' st id name govtId b :
  let f := {| Fisher.ID := id; Fisher.Name := name; Fisher.GovtID := govtId;
              Fisher.Role := "fisher" |} in
  json.MarshalFisher f = Ok b ->
  json.UnmarshalFisher b = Ok f ->
  (Chaincode.hasRole ctx "authority" = true ->
   PutPrivateData_err (GetPeer ctx) "FisherCollection" ("FISHER_" +:+ id) b = None ->
   GetPrivateData_err (GetPeer ctx') "FisherCollection" ("FISHER_" +:+ id) = None ->
   (Chaincode.RegisterFisher ctx id name govtId st).1 = Ok tt /\
   (Chaincode.GetFisher ctx' id (Chaincode.RegisterFisher ctx id name govtId st).2).1 = Ok f) /\
  (Bigdatacc.hasRole ctx "authority" = true ->
   PutState_err (GetPeer ctx) ("FISHER_" +:+ id) b = None ->
   GetState_err (GetPeer ctx') ("FISHER_" +:+ id) = None ->
   (Bigdatacc.RegisterFisher ctx id name govtId st).1 = Ok tt /\
   (Bigdatacc.GetFisher ctx' id (Bigdatacc.RegisterFisher ctx id name govtId st).2).1 = Ok f).
Proof.
  intros f Hm Hu. split; intros Hrole Hput Hget.
  - erewrite Chaincode_RegisterFisher_ok by eauto. split; [done|].
    unfold Chaincode.GetFisher. unfold_go. simpl.
    by rewrite Hget, lookup_insert_eq, Hu.
  - erewrite Bigdatacc_RegisterFisher_ok by eauto. split; [done|].
    unfold Bigdatacc.GetFisher. unfold_go. simpl.
    by rewrite Hget, lookup_insert_eq, Hu.
Qed.

Lemma RegisterFisher_then_GetFisher_witness :
  let authority := Examples.caller (Some "authority") "A001" in
  let anyone := Examples.caller None "B007" in
  (Chaincode.RegisterFisher authority "F001" "John Doe" "GOV123" Examples.emptyStub).1
    = Ok tt /\
  (Chaincode.GetFisher anyone "F001"
     (Chaincode.RegisterFisher authority "F001" "John Doe" "GOV123" Examples.emptyStub).2).1
    = Ok Examples.john /\
  (Bigdatacc.GetFisher anyone "F001"
     (Bigdatacc.RegisterFisher authority "F001" "John Doe" "GOV123" Examples.emptyStub).2).1
    = Ok Examples.john.
Proof.
  intros authority anyone.
  destruct (RegisterFisher_then_GetFisher authority anyone Examples.emptyStub
              "F001" "John Doe" "GOV123"
              (Examples.bytesOf (RefJSON.MarshalFisher Examples.john)))
    as [HC HB]; [vm_compute; reflexivity | vm_compute; reflexivity |].
  destruct (HC eq_refl eq_refl eq_refl) as [HC1 HC2].
  destruct (HB eq_refl eq_refl eq_refl) as [_ HB2].
  split; [exact HC1|]. split; [exact HC2 | exact HB2].
Defined.

(** ** Lookups *)

Section Lookups.
Context `{json.Codec}.

Ltac solve_pureRead :=
  intros st; unfold_go; simpl; case_go; simplify_eq/=;
  (split; [reflexivity|]); (split; [reflexivity|]);
  (split; [eexists; split; [reflexivity|reflexivity] | congruence]).

Lemma Bigdatacc_GetFisher_pure ctx fisherID : pureRead (Bigdatacc.GetFisher ctx fisherID).
Proof. unfold Bigdatacc.GetFisher. solve_pureRead. Qed.

Lemma Bigdatacc_GetCatch_pure ctx catchId : pureRead (Bigdatacc.GetCatch ctx catchId).
Proof. unfold Bigdatacc.GetCatch. solve_pureRead. Qed.

Lemma Bigdatacc_TrackBatch_pure ctx batchId : pureRead (Bigdatacc.TrackBatch ctx batchId).
Proof. unfold Bigdatacc.TrackBatch. solve_pureRead. Qed.

Lemma Bigdatacc_ReadAsset_pure ctx id : pureRead (Bigdatacc.ReadAsset ctx id).
Proof. unfold Bigdatacc.ReadAsset. solve_pureRead. Qed.

Lemma Chaincode_GetFisher_pure ctx fisherID : pureRead (Chaincode.GetFisher ctx fisherID).
Proof. unfold Chaincode.GetFisher. solve_pureRead. Qed.

Lemma Chaincode_TrackBatch_pure ctx batchId : pureRead (Chaincode.TrackBatch ctx batchId).
Proof. unfold Chaincode.TrackBatch. solve_pureRead. Qed.

End Lookups.

(** C8: [GetFisher], [GetCatch] and [TrackBatch] only read: from every
    state they leave the world state and the private data unchanged, make
    only reading calls, and return the same result when called again; when
    the peer serves the read, an absent key gives the operation's
    "not found" error and [TrackBatch] of a present key gives the stored
    bytes themselves. *)
Theorem lookups_are_pure_reads `{json.Codec} ctx id :
  pureRead (Chaincode.GetFisher ctx id) /\
  pureRead (Chaincode.TrackBatch ctx id) /\
  pureRead (Bigdatacc.GetFisher ctx id) /\
  pureRead (Bigdatacc.GetCatch ctx id) /\
  pureRead (Bigdatacc.TrackBatch ctx id) /\
  (forall st,
      GetPrivateData_err (GetPeer ctx) "FisherCollection" ("FISHER_" +:+ id) = None ->
      PrivateData st !! ("FisherCollection", "FISHER_" +:+ id) = None ->
      (Chaincode.GetFisher ctx id st).1 = Err (Errorf "fisher %s does not exist" [id])) /\
  (forall st,
      GetState_err (GetPeer ctx) ("CATCH_" +:+ id) = None ->
      State st !! ("CATCH_" +:+ id) = None ->
      (Bigdatacc.GetCatch ctx id st).1 = Err (Errorf "catch %s not found" [id])) /\
  (forall st,
      GetState_err (GetPeer ctx) ("BATCH_" +:+ id) = None ->
      (Chaincode.TrackBatch ctx id st).1 =
        match State st !! ("BATCH_" +:+ id) with
        | Some b => Ok b
        | None => Err (Errorf "batch %s not found" [id])
        end /\
      (Bigdatacc.TrackBatch ctx id st).1 = (Chaincode.TrackBatch ctx id st).1).
Proof.
  split; [apply Chaincode_GetFisher_pure|].
  split; [apply Chaincode_TrackBatch_pure|].
  split; [apply Bigdatacc_GetFisher_pure|].
  split; [apply Bigdatacc_GetCatch_pure|].
  split; [apply Bigdatacc_TrackBatch_pure|].
  split; [|split].
  - intros st Hget Habs. unfold Chaincode.GetFisher. unfold_go. simpl.
    by rewrite Hget, Habs.
  - intros st Hget Habs. unfold Bigdatacc.GetCatch. unfold_go. simpl.
    by rewrite Hget, Habs.
  - intros st Hget. unfold Chaincode.TrackBatch, Bigdatacc.TrackBatch. unfold_go. simpl.
    rewrite Hget. by destruct (State st !! ("BATCH_" +:+ id)).
Qed.

Lemma lookups_are_pure_reads_witness :
  let anyone := Examples.caller None "B007" in
  (Bigdatacc.GetCatch anyone "C001" Examples.twoCatches).1 = Ok Examples.catch1 /\
  (Bigdatacc.GetCatch anyone "C001"
     (Bigdatacc.GetCatch anyone "C001" Examples.twoCatches).2).1 = Ok Examples.catch1 /\
  State (Bigdatacc.GetCatch anyone "C001" Examples.twoCatches).2
    = State Examples.twoCatches /\
  (Chaincode.TrackBatch anyone "B002" Examples.twoCatches).1
    = Err (Errorf "batch %s not found" ["B002"]) /\
  (Chaincode.GetFisher anyone "F001" Examples.twoCatches).1
    = Err (Errorf "fisher %s does not exist" ["F001"]).
Proof.
  intros anyone.
  destruct (lookups_are_pure_reads anyone "C001") as (_ & _ & _ & Hpure & _).
  destruct (Hpure Examples.twoCatches) as (Hstate & _ & _ & Hagain).
  destruct (lookups_are_pure_reads anyone "B002") as (_ & _ & _ & _ & _ & _ & _ & Htrack).
  destruct (Htrack Examples.twoCatches eq_refl) as [Hmissing _].
  destruct (lookups_are_pure_reads anyone "F001") as (_ & _ & _ & _ & _ & Hfisher & _).
  assert (Hfirst : (Bigdatacc.GetCatch anyone "C001" Examples.twoCatches).1
                   = Ok Examples.catch1) by (vm_compute; reflexivity).
  split; [exact Hfirst|]. split; [by rewrite Hagain|]. split; [exact Hstate|].
  split; [rewrite Hmissing; vm_compute; reflexivity|].
  apply Hfisher; reflexivity.
Defined.

(** ** What the scan finds in a ledger written by the contracts *)

Section CatchKeys.
Context `{json.Codec}.

Lemma catchKeysHoldCatches_same st st' :
  State st' = State st -> catchKeysHoldCatches st -> catchKeysHoldCatches st'.
Proof. unfold catchKeysHoldCatches. by intros ->. Qed.

Lemma catchKeysHoldCatches_insert st st' key b :
  State st' = <[key := b]> (State st) ->
  (inRange "CATCH_" "CATCH_~" key = true -> exists c, json.MarshalCatch c = Ok b) ->
  catchKeysHoldCatches st -> catchKeysHoldCatches st'.
Proof.
  unfold catchKeysHoldCatches. intros -> Hb Hinv k v. rewrite lookup_insert.
  case_decide as Hk; [|by apply Hinv]. intros [= <-]. subst k. exact Hb.
Qed.

Lemma catchKeysHoldCatches_delete st st' key :
  State st' = delete key (State st) ->
  catchKeysHoldCatches st -> catchKeysHoldCatches st'.
Proof.
  unfold catchKeysHoldCatches. intros -> Hinv k v Hk. apply (Hinv k v).
  by apply lookup_delete_Some in Hk as [_ Hk].
Qed.

Ltac solve_preserves :=
  intros st Hinv; unfold_go; simpl; case_go; simplify_eq/=;
  first
    [ by apply (catchKeysHoldCatches_same st)
    | eapply (catchKeysHoldCatches_insert st); [reflexivity | | exact Hinv];
      first [ discriminate | eauto ]
    | by eapply (catchKeysHoldCatches_delete st) ].

Lemma Chaincode_writes_preserve ctx :
  (forall id name govtId,
      preserves catchKeysHoldCatches (Chaincode.RegisterFisher ctx id name govtId)) /\
  (forall catchId fisherId species weightKgStr date,
      preserves catchKeysHoldCatches
        (Chaincode.LogCatch ctx catchId fisherId species weightKgStr date)) /\
  (forall batchId catchIds processorId date,
      preserves catchKeysHoldCatches
        (Chaincode.CreateBatch ctx batchId catchIds processorId date)) /\
  (forall orderId batchId buyerId date,
      preserves catchKeysHoldCatches (Chaincode.PlaceOrder ctx orderId batchId buyerId date)).
Proof.
  split; [|split; [|split]]; intros.
  - unfold Chaincode.RegisterFisher. solve_preserves.
  - unfold Chaincode.LogCatch. solve_preserves.
  - unfold Chaincode.CreateBatch. solve_preserves.
  - unfold Chaincode.PlaceOrder. solve_preserves.
Qed.

Lemma Bigdatacc_writes_preserve ctx :
  (forall id name govtId,
      preserves catchKeysHoldCatches (Bigdatacc.RegisterFisher ctx id name govtId)) /\
  (forall catchId fisherId species weightKgStr date,
      preserves catchKeysHoldCatches
        (Bigdatacc.LogCatch ctx catchId fisherId species weightKgStr date)) /\
  (forall batchId catchIds processorId date,
      preserves catchKeysHoldCatches
        (Bigdatacc.CreateBatch ctx batchId catchIds processorId date)) /\
  (forall orderId batchId buyerId date,
      preserves catchKeysHoldCatches (Bigdatacc.PlaceOrder ctx orderId batchId buyerId date)) /\
  (forall id color sizeStr owner appraisedValueStr,
      preserves catchKeysHoldCatches
        (Bigdatacc.CreateAsset ctx id color sizeStr owner appraisedValueStr) /\
      preserves catchKeysHoldCatches (Bigdatacc.TransferAsset ctx id owner) /\
      preserves catchKeysHoldCatches
        (Bigdatacc.UpdateAsset ctx id color sizeStr appraisedValueStr) /\
      preserves catchKeysHoldCatches (Bigdatacc.DeleteAsset ctx id)).
Proof.
  split; [|split; [|split; [|split]]]; intros.
  - unfold Bigdatacc.RegisterFisher. solve_preserves.
  - unfold Bigdatacc.LogCatch. solve_preserves.
  - unfold Bigdatacc.CreateBatch. solve_preserves.
  - unfold Bigdatacc.PlaceOrder. solve_preserves.
  - split; [|split; [|split]].
    + unfold Bigdatacc.CreateAsset. solve_preserves.
    + unfold Bigdatacc.TransferAsset. solve_preserves.
    + unfold Bigdatacc.UpdateAsset. solve_preserves.
    + unfold Bigdatacc.DeleteAsset. solve_preserves.
Qed.

(** The lookups and the report leave the world state as it is. *)
Lemma reads_preserve (I : Stub -> Prop) ctx :
  (forall st st', State st' = State st -> I st -> I st') ->
  (forall id,
      preserves I (Chaincode.GetFisher ctx id) /\
      preserves I (Chaincode.TrackBatch ctx id) /\
      preserves I (Bigdatacc.GetFisher ctx id) /\
      preserves I (Bigdatacc.GetCatch ctx id) /\
      preserves I (Bigdatacc.TrackBatch ctx id) /\
      preserves I (Bigdatacc.ReadAsset ctx id)) /\
  (forall startDate endDate,
      preserves I (Chaincode.GenerateReport ctx startDate endDate) /\
      preserves I (Bigdatacc.GenerateReport ctx startDate endDate)).
Proof.
  intros Hsame. split.
  - intros id. repeat split; intros st Hinv; apply (Hsame st); try done.
    + apply Chaincode_GetFisher_pure.
    + apply Chaincode_TrackBatch_pure.
    + apply Bigdatacc_GetFisher_pure.
    + apply Bigdatacc_GetCatch_pure.
    + apply Bigdatacc_TrackBatch_pure.
    + apply Bigdatacc_ReadAsset_pure.
  - intros startDate endDate. split; intros st Hinv; apply (Hsame st); try done.
    + unfold Chaincode.GenerateReport. unfold_go. simpl.
      destruct (negb _); [done|]. simpl.
      destruct (GetStateByRange_err _ _ _); [done|]. simpl.
      match goal with |- context [Chaincode.GenerateReport_loop ?c ?s ?e ?l ?o ?t] =>
        pose proof (Chaincode_loop_state c s e l o t) as [HS _];
        destruct (Chaincode.GenerateReport_loop c s e l o t) as [[cs|] st1] end;
        simpl in *; [|done].
      by destruct (json.MarshalCatches _).
    + unfold Bigdatacc.GenerateReport. unfold_go. simpl.
      destruct (negb _); [done|]. simpl.
      destruct (GetStateByRange_err _ _ _); [done|]. simpl.
      match goal with |- context [Bigdatacc.GenerateReport_loop ?c ?s ?e ?l ?o ?t] =>
        pose proof (Bigdatacc_loop_state c s e l o t) as [HS _];
        destruct (Bigdatacc.GenerateReport_loop c s e l o t) as [[cs|] st1] end;
        simpl in *; [|done].
      by destruct (json.MarshalCatches _).
Qed.

Lemma catchKeysHoldCatches_empty : catchKeysHoldCatches Examples.emptyStub.
Proof. intros k v Hk. simpl in Hk. by rewrite lookup_empty in Hk. Qed.

End CatchKeys.

(** ** Further properties of the operations *)

(** *** What an operation leaves alone *)

Section Frame.
Context `{json.Codec}.

Ltac solve_frame :=
  intros st; unfold_go; simpl; case_go; simplify_eq/=;
  (split; [try reflexivity | intros k' Hk'; try reflexivity]);
  first
    [ reflexivity
    | by rewrite lookup_insert_ne
    | by rewrite lookup_delete_ne ].

Lemma Chaincode_RegisterFisher_frame ctx id name govtId :
  touchesOnlyPrivate "FisherCollection" ("FISHER_" +:+ id)
    (Chaincode.RegisterFisher ctx id name govtId).
Proof. unfold Chaincode.RegisterFisher. solve_frame. Qed.

Lemma Chaincode_LogCatch_frame ctx catchId fisherId species weightKgStr date :
  touchesOnly ("CATCH_" +:+ catchId)
    (Chaincode.LogCatch ctx catchId fisherId species weightKgStr date).
Proof. unfold Chaincode.LogCatch. solve_frame. Qed.

Lemma Chaincode_CreateBatch_frame ctx batchId catchIds processorId date :
  touchesOnly ("BATCH_" +:+ batchId)
    (Chaincode.CreateBatch ctx batchId catchIds processorId date).
Proof. unfold Chaincode.CreateBatch. solve_frame. Qed.

Lemma Chaincode_PlaceOrder_frame ctx orderId batchId buyerId date :
  touchesOnly ("ORDER_" +:+ orderId)
    (Chaincode.PlaceOrder ctx orderId batchId buyerId date).
Proof. unfold Chaincode.PlaceOrder. solve_frame. Qed.

Lemma Bigdatacc_RegisterFisher_frame ctx id name govtId :
  touchesOnly ("FISHER_" +:+ id) (Bigdatacc.RegisterFisher ctx id name govtId).
Proof. unfold Bigdatacc.RegisterFisher. solve_frame. Qed.

Lemma Bigdatacc_LogCatch_frame ctx catchId fisherId species weightKgStr date :
  touchesOnly ("CATCH_" +:+ catchId)
    (Bigdatacc.LogCatch ctx catchId fisherId species weightKgStr date).
Proof. unfold Bigdatacc.LogCatch. solve_frame. Qed.

Lemma Bigdatacc_CreateBatch_frame ctx batchId catchIds processorId date :
  touchesOnly ("BATCH_" +:+ batchId)
    (Bigdatacc.CreateBatch ctx batchId catchIds processorId date).
Proof. unfold Bigdatacc.CreateBatch. solve_frame. Qed.

Lemma Bigdatacc_PlaceOrder_frame ctx orderId batchId buyerId date :
  touchesOnly ("ORDER_" +:+ orderId)
    (Bigdatacc.PlaceOrder ctx orderId batchId buyerId date).
Proof. unfold Bigdatacc.PlaceOrder. solve_frame. Qed.

Lemma Bigdatacc_CreateAsset_frame ctx id color sizeStr owner appraisedValueStr :
  touchesOnly ("ASSET_" +:+ id)
    (Bigdatacc.CreateAsset ctx id color sizeStr owner appraisedValueStr).
Proof. unfold Bigdatacc.CreateAsset. solve_frame. Qed.

Lemma Bigdatacc_TransferAsset_frame ctx assetKey newOwner :
  touchesOnly ("ASSET_" +:+ assetKey) (Bigdatacc.TransferAsset ctx assetKey newOwner).
Proof. unfold Bigdatacc.TransferAsset. solve_frame. Qed.

Lemma Bigdatacc_UpdateAsset_frame ctx assetKey color sizeStr appraisedValueStr :
  touchesOnly ("ASSET_" +:+ assetKey)
    (Bigdatacc.UpdateAsset ctx assetKey color sizeStr appraisedValueStr).
Proof. unfold Bigdatacc.UpdateAsset. solve_frame. Qed.

Lemma Bigdatacc_DeleteAsset_frame ctx assetKey :
  touchesOnly ("ASSET_" +:+ assetKey) (Bigdatacc.DeleteAsset ctx assetKey).
Proof. unfold Bigdatacc.DeleteAsset. solve_frame. Qed.

Ltac solve_failsClean :=
  intros st; unfold_go; simpl; case_go; simplify_eq/=; done.

Lemma Chaincode_writes_failClean ctx :
  (forall id name govtId, failsClean (Chaincode.RegisterFisher ctx id name govtId)) /\
  (forall catchId fisherId species weightKgStr date,
      failsClean (Chaincode.LogCatch ctx catchId fisherId species weightKgStr date)) /\
  (forall batchId catchIds processorId date,
      failsClean (Chaincode.CreateBatch ctx batchId catchIds processorId date)) /\
  (forall orderId batchId buyerId date,
      failsClean (Chaincode.PlaceOrder ctx orderId batchId buyerId date)).
Proof.
  split; [|split; [|split]]; intros.
  - unfold Chaincode.RegisterFisher. solve_failsClean.
  - unfold Chaincode.LogCatch. solve_failsClean.
  - unfold Chaincode.CreateBatch. solve_failsClean.
  - unfold Chaincode.PlaceOrder. solve_failsClean.
Qed.

Lemma Bigdatacc_writes_failClean ctx :
  (forall id name govtId, failsClean (Bigdatacc.RegisterFisher ctx id name govtId)) /\
  (forall catchId fisherId species weightKgStr date,
      failsClean (Bigdatacc.LogCatch ctx catchId fisherId species weightKgStr date)) /\
  (forall batchId catchIds processorId date,
      failsClean (Bigdatacc.CreateBatch ctx batchId catchIds processorId date)) /\
  (forall orderId batchId buyerId date,
      failsClean (Bigdatacc.PlaceOrder ctx orderId batchId buyerId date)) /\
  (forall id color sizeStr owner appraisedValueStr,
      failsClean (Bigdatacc.CreateAsset ctx id color sizeStr owner appraisedValueStr) /\
      failsClean (Bigdatacc.TransferAsset ctx id owner) /\
      failsClean (Bigdatacc.UpdateAsset ctx id color sizeStr appraisedValueStr) /\
      failsClean (Bigdatacc.DeleteAsset ctx id)).
Proof.
  split; [|split; [|split; [|split]]]; intros.
  - unfold Bigdatacc.RegisterFisher. solve_failsClean.
  - unfold Bigdatacc.LogCatch. solve_failsClean.
  - unfold Bigdatacc.CreateBatch. solve_failsClean.
  - unfold Bigdatacc.PlaceOrder. solve_failsClean.
  - split; [|split; [|split]].
    + unfold Bigdatacc.CreateAsset. solve_failsClean.
    + unfold Bigdatacc.TransferAsset. solve_failsClean.
    + unfold Bigdatacc.UpdateAsset. solve_failsClean.
    + unfold Bigdatacc.DeleteAsset. solve_failsClean.
Qed.

End Frame.

(** X1: an operation that writes one entity changes no other entry of the
    ledger, on any path: every other key of the world state keeps its
    value and the private data is untouched; [RegisterFisher] of the
    current contract changes only its entry of [FisherCollection] and
    nothing of the world state. *)
Theorem writes_touch_only_their_key `{json.Codec} ctx id :
  (forall name govtId,
      touchesOnlyPrivate "FisherCollection" ("FISHER_" +:+ id)
        (Chaincode.RegisterFisher ctx id name govtId) /\
      touchesOnly ("FISHER_" +:+ id) (Bigdatacc.RegisterFisher ctx id name govtId)) /\
  (forall fisherId species weightKgStr date,
      touchesOnly ("CATCH_" +:+ id)
        (Chaincode.LogCatch ctx id fisherId species weightKgStr date) /\
      touchesOnly ("CATCH_" +:+ id)
        (Bigdatacc.LogCatch ctx id fisherId species weightKgStr date)) /\
  (forall catchIds processorId date,
      touchesOnly ("BATCH_" +:+ id) (Chaincode.CreateBatch ctx id catchIds processorId date) /\
      touchesOnly ("BATCH_" +:+ id) (Bigdatacc.CreateBatch ctx id catchIds processorId date)) /\
  (forall batchId buyerId date,
      touchesOnly ("ORDER_" +:+ id) (Chaincode.PlaceOrder ctx id batchId buyerId date) /\
      touchesOnly ("ORDER_" +:+ id) (Bigdatacc.PlaceOrder ctx id batchId buyerId date)) /\
  (forall color sizeStr owner appraisedValueStr,
      touchesOnly ("ASSET_" +:+ id)
        (Bigdatacc.CreateAsset ctx id color sizeStr owner appraisedValueStr) /\
      touchesOnly ("ASSET_" +:+ id) (Bigdatacc.TransferAsset ctx id owner) /\
      touchesOnly ("ASSET_" +:+ id)
        (Bigdatacc.UpdateAsset ctx id color sizeStr appraisedValueStr) /\
      touchesOnly ("ASSET_" +:+ id) (Bigdatacc.DeleteAsset ctx id)).
Proof.
  split; [intros; split;
          [apply Chaincode_RegisterFisher_frame | apply Bigdatacc_RegisterFisher_frame]|].
  split; [intros; split; [apply Chaincode_LogCatch_frame | apply Bigdatacc_LogCatch_frame]|].
  split; [intros; split;
          [apply Chaincode_CreateBatch_frame | apply Bigdatacc_CreateBatch_frame]|].
  split; [intros; split; [apply Chaincode_PlaceOrder_frame | apply Bigdatacc_PlaceOrder_frame]|].
  intros. split; [apply Bigdatacc_CreateAsset_frame|].
  split; [apply Bigdatacc_TransferAsset_frame|].
  split; [apply Bigdatacc_UpdateAsset_frame | apply Bigdatacc_DeleteAsset_frame].
Qed.

Lemma writes_touch_only_their_key_witness :
  let anyone := Examples.caller None "B007" in
  State (Chaincode.LogCatch anyone "C003" "F001" "Tilapia" "5" "2025-08-11"
           Examples.twoCatches).2 !! "CATCH_C001"
    = State Examples.twoCatches !! "CATCH_C001" /\
  is_Ok (Chaincode.LogCatch anyone "C003" "F001" "Tilapia" "5" "2025-08-11"
           Examples.twoCatches).1 = true.
Proof.
  intros anyone.
  destruct (writes_touch_only_their_key anyone "C003") as (_ & HLog & _).
  destruct (HLog "F001" "Tilapia" "5" "2025-08-11") as [HC _].
  destruct (HC Examples.twoCatches) as [_ Hother].
  split; [apply Hother; discriminate | vm_compute; reflexivity].
Defined.

(** X2: an operation that writes and returns an error has changed nothing:
    the world state and the private data are those it started from,
    whether the error comes from the authorization check, the parse of an
    argument, the encoding, a missing asset or the peer. *)
Theorem failed_writes_change_nothing `{json.Codec} ctx :
  ((forall id name govtId, failsClean (Chaincode.RegisterFisher ctx id name govtId)) /\
   (forall catchId fisherId species weightKgStr date,
       failsClean (Chaincode.LogCatch ctx catchId fisherId species weightKgStr date)) /\
   (forall batchId catchIds processorId date,
       failsClean (Chaincode.CreateBatch ctx batchId catchIds processorId date)) /\
   (forall orderId batchId buyerId date,
       failsClean (Chaincode.PlaceOrder ctx orderId batchId buyerId date))) /\
  ((forall id name govtId, failsClean (Bigdatacc.RegisterFisher ctx id name govtId)) /\
   (forall catchId fisherId species weightKgStr date,
       failsClean (Bigdatacc.LogCatch ctx catchId fisherId species weightKgStr date)) /\
   (forall batchId catchIds processorId date,
       failsClean (Bigdatacc.CreateBatch ctx batchId catchIds processorId date)) /\
   (forall orderId batchId buyerId date,
       failsClean (Bigdatacc.PlaceOrder ctx orderId batchId buyerId date)) /\
   (forall id color sizeStr owner appraisedValueStr,
       failsClean (Bigdatacc.CreateAsset ctx id color sizeStr owner appraisedValueStr) /\
       failsClean (Bigdatacc.TransferAsset ctx id owner) /\
       failsClean (Bigdatacc.UpdateAsset ctx id color sizeStr appraisedValueStr) /\
       failsClean (Bigdatacc.DeleteAsset ctx id))).
Proof. split; [apply Chaincode_writes_failClean | apply Bigdatacc_writes_failClean]. Qed.

Lemma failed_writes_change_nothing_witness :
  let authority := Examples.callerOn Examples.rejectingWrites (Some "authority") "A001" in
  (Chaincode.RegisterFisher authority "F001" "John Doe" "GOV123" Examples.twoCatches).1
    = Err (ExternalError "write refused") /\
  State (Chaincode.RegisterFisher authority "F001" "John Doe" "GOV123"
           Examples.twoCatches).2 = State Examples.twoCatches /\
  PrivateData (Chaincode.RegisterFisher authority "F001" "John Doe" "GOV123"
                 Examples.twoCatches).2 = PrivateData Examples.twoCatches /\
  State (Bigdatacc.DeleteAsset authority "A1" Examples.oneAsset).2
    = State Examples.oneAsset.
Proof.
  intros authority.
  destruct (failed_writes_change_nothing authority) as [(HReg & _) (_ & _ & _ & _ & HAsset)].
  destruct (HReg "F001" "John Doe" "GOV123" Examples.twoCatches) as [HS HP];
    [reflexivity|].
  destruct (HAsset "A1" EmptyString EmptyString EmptyString EmptyString)
    as (_ & _ & _ & HDel).
  destruct (HDel Examples.oneAsset) as [HS' _]; [reflexivity|].
  split; [reflexivity|]. split; [exact HS|]. split; [exact HP | exact HS'].
Defined.

(** *** What an operation does not look at *)

(** X3: the lookups, the asset utilities and the current contract's
    [LogCatch] make no authorization check: their outcome is the same for
    any two callers served by the same peer, whatever their role
    attribute and identifier. *)
Theorem ungated_operations_ignore_the_caller `{json.Codec} ctx ctx' :
  GetPeer ctx = GetPeer ctx' ->
  (forall id,
      Chaincode.GetFisher ctx id = Chaincode.GetFisher ctx' id /\
      Chaincode.TrackBatch ctx id = Chaincode.TrackBatch ctx' id /\
      Bigdatacc.GetFisher ctx id = Bigdatacc.GetFisher ctx' id /\
      Bigdatacc.GetCatch ctx id = Bigdatacc.GetCatch ctx' id /\
      Bigdatacc.TrackBatch ctx id = Bigdatacc.TrackBatch ctx' id /\
      Bigdatacc.ReadAsset ctx id = Bigdatacc.ReadAsset ctx' id /\
      Bigdatacc.DeleteAsset ctx id = Bigdatacc.DeleteAsset ctx' id) /\
  (forall catchId fisherId species weightKgStr date,
      Chaincode.LogCatch ctx catchId fisherId species weightKgStr date
      = Chaincode.LogCatch ctx' catchId fisherId species weightKgStr date) /\
  (forall id color sizeStr owner appraisedValueStr,
      Bigdatacc.CreateAsset ctx id color sizeStr owner appraisedValueStr
      = Bigdatacc.CreateAsset ctx' id color sizeStr owner appraisedValueStr /\
      Bigdatacc.TransferAsset ctx id owner = Bigdatacc.TransferAsset ctx' id owner /\
      Bigdatacc.UpdateAsset ctx id color sizeStr appraisedValueStr
      = Bigdatacc.UpdateAsset ctx' id color sizeStr appraisedValueStr).
Proof.
  intros Hpeer.
  unfold Chaincode.GetFisher, Chaincode.TrackBatch, Chaincode.LogCatch,
    Bigdatacc.GetFisher, Bigdatacc.GetCatch, Bigdatacc.TrackBatch, Bigdatacc.ReadAsset,
    Bigdatacc.DeleteAsset, Bigdatacc.CreateAsset, Bigdatacc.TransferAsset,
    Bigdatacc.UpdateAsset.
  unfold GetState, PutState, DelState, GetPrivateData, PutPrivateData.
  rewrite Hpeer. repeat split.
Qed.

Lemma ungated_operations_ignore_the_caller_witness :
  Chaincode.GetFisher (Examples.caller (Some "authority") "A001") "F001"
  = Chaincode.GetFisher (Examples.caller None "B007") "F001" /\
  Bigdatacc.TransferAsset (Examples.caller (Some "fisher") "tom") "A1" "eve"
  = Bigdatacc.TransferAsset (Examples.caller None "eve") "A1" "eve".
Proof.
  destruct (ungated_operations_ignore_the_caller
              (Examples.caller (Some "authority") "A001") (Examples.caller None "B007")
              eq_refl) as (Hid & _).
  destruct (ungated_operations_ignore_the_caller
              (Examples.caller (Some "fisher") "tom") (Examples.caller None "eve")
              eq_refl) as (_ & _ & Hasset).
  destruct (Hid "F001") as (HG & _).
  destruct (Hasset "A1" EmptyString EmptyString "eve" EmptyString) as (_ & HT & _).
  split; [exact HG | exact HT].
Defined.

Section Blind.
Context `{json.Codec}.

Ltac solve_blind :=
  intros st st'; unfold_go; simpl; case_go; simplify_eq/=; congruence.

Lemma Chaincode_CreateBatch_blind ctx batchId catchIds processorId date :
  ledgerBlind (Chaincode.CreateBatch ctx batchId catchIds processorId date).
Proof. unfold Chaincode.CreateBatch. solve_blind. Qed.

Lemma Chaincode_PlaceOrder_blind ctx orderId batchId buyerId date :
  ledgerBlind (Chaincode.PlaceOrder ctx orderId batchId buyerId date).
Proof. unfold Chaincode.PlaceOrder. solve_blind. Qed.

Lemma Bigdatacc_CreateBatch_blind ctx batchId catchIds processorId date :
  ledgerBlind (Bigdatacc.CreateBatch ctx batchId catchIds processorId date).
Proof. unfold Bigdatacc.CreateBatch. solve_blind. Qed.

Lemma Bigdatacc_PlaceOrder_blind ctx orderId batchId buyerId date :
  ledgerBlind (Bigdatacc.PlaceOrder ctx orderId batchId buyerId date).
Proof. unfold Bigdatacc.PlaceOrder. solve_blind. Qed.

Lemma Chaincode_LogCatch_blind ctx catchId fisherId species weightKgStr date :
  ledgerBlind (Chaincode.LogCatch ctx catchId fisherId species weightKgStr date).
Proof. unfold Chaincode.LogCatch. solve_blind. Qed.

Lemma Bigdatacc_LogCatch_blind ctx catchId fisherId species weightKgStr date :
  ledgerBlind (Bigdatacc.LogCatch ctx catchId fisherId species weightKgStr date).
Proof. unfold Bigdatacc.LogCatch. solve_blind. Qed.

Lemma Bigdatacc_CreateAsset_blind ctx id color sizeStr owner appraisedValueStr :
  ledgerBlind (Bigdatacc.CreateAsset ctx id color sizeStr owner appraisedValueStr).
Proof. unfold Bigdatacc.CreateAsset. solve_blind. Qed.

End Blind.

(** X4: references are not checked against the ledger.  [CreateBatch] does
    not look up the catches it lists, [PlaceOrder] does not look up the
    batch it orders, [LogCatch] does not look up the fisher it names and
    [CreateAsset] does not look for an earlier asset: each returns the same
    result whatever the ledger holds. *)
Theorem creates_do_not_consult_the_ledger `{json.Codec} ctx :
  (forall batchId catchIds processorId date,
      ledgerBlind (Chaincode.CreateBatch ctx batchId catchIds processorId date) /\
      ledgerBlind (Bigdatacc.CreateBatch ctx batchId catchIds processorId date)) /\
  (forall orderId batchId buyerId date,
      ledgerBlind (Chaincode.PlaceOrder ctx orderId batchId buyerId date) /\
      ledgerBlind (Bigdatacc.PlaceOrder ctx orderId batchId buyerId date)) /\
  (forall catchId fisherId species weightKgStr date,
      ledgerBlind (Chaincode.LogCatch ctx catchId fisherId species weightKgStr date) /\
      ledgerBlind (Bigdatacc.LogCatch ctx catchId fisherId species weightKgStr date)) /\
  (forall id color sizeStr owner appraisedValueStr,
      ledgerBlind (Bigdatacc.CreateAsset ctx id color sizeStr owner appraisedValueStr)).
Proof.
  split; [intros; split; [apply Chaincode_CreateBatch_blind | apply Bigdatacc_CreateBatch_blind]|].
  split; [intros; split; [apply Chaincode_PlaceOrder_blind | apply Bigdatacc_PlaceOrder_blind]|].
  split; [intros; split; [apply Chaincode_LogCatch_blind | apply Bigdatacc_LogCatch_blind]|].
  intros. apply Bigdatacc_CreateAsset_blind.
Qed.

(** *** Batches and catches: write, then read *)

Section KeyInjective.

Lemma prefixed_key_neq (p a b : string) : a <> b -> p +:+ a <> p +:+ b.
Proof.
  intros Hne Heq. apply Hne. induction p as [|c p IH]; simpl in Heq; [done|].
  injection Heq as Heq. by apply IH.
Qed.

End KeyInjective.

(** X5: a batch created by a "processor" caller is stored with the
    traceability URL derived from its identifier, and [TrackBatch] of that
    identifier then returns exactly the stored document; [TrackBatch] of
    any other identifier answers as before the creation. *)
Theorem CreateBatch_then_TrackBatch `{json.Codec}
  ctx ctx' st batchId catchIds processorId date b :
  GetState_err (GetPeer ctx') ("BATCH_" +:+ batchId) = None ->
  PutState_err (GetPeer ctx) ("BATCH_" +:+ batchId) b = None ->
  (Chaincode.hasRole ctx "processor" = true ->
   json.MarshalBatch {| Batch.BatchID := batchId; Batch.CatchIDs := catchIds;
                        Batch.ProcessorID := processorId; Batch.Date := date;
                        Batch.QRCodeURL :=
                          "https://getreech.example.org/batch/" +:+ batchId |} = Ok b ->
   (Chaincode.CreateBatch ctx batchId catchIds processorId date st).1 = Ok tt /\
   (Chaincode.TrackBatch ctx' batchId
      (Chaincode.CreateBatch ctx batchId catchIds processorId date st).2).1 = Ok b /\
   forall other, other <> batchId ->
     (Chaincode.TrackBatch ctx' other
        (Chaincode.CreateBatch ctx batchId catchIds processorId date st).2).1
     = (Chaincode.TrackBatch ctx' other st).1) /\
  (Bigdatacc.hasRole ctx "processor" = true ->
   json.MarshalBatch {| Batch.BatchID := batchId; Batch.CatchIDs := catchIds;
                        Batch.ProcessorID := processorId; Batch.Date := date;
                        Batch.QRCodeURL := "https://example.org/batch/" +:+ batchId |}
     = Ok b ->
   (Bigdatacc.CreateBatch ctx batchId catchIds processorId date st).1 = Ok tt /\
   (Bigdatacc.TrackBatch ctx' batchId
      (Bigdatacc.CreateBatch ctx batchId catchIds processorId date st).2).1 = Ok b /\
   forall other, other <> batchId ->
     (Bigdatacc.TrackBatch ctx' other
        (Bigdatacc.CreateBatch ctx batchId catchIds processorId date st).2).1
     = (Bigdatacc.TrackBatch ctx' other st).1).
Proof.
  intros Hget Hput. split; intros Hrole Hm.
  - erewrite Chaincode_CreateBatch_ok by eauto. split; [done|]. split.
    + unfold Chaincode.TrackBatch. unfold_go. simpl.
      by rewrite Hget, lookup_insert_eq.
    + intros other Hne. unfold Chaincode.TrackBatch. unfold_go. simpl.
      rewrite lookup_insert_ne by (apply prefixed_key_neq; congruence).
      by case_go.
  - erewrite Bigdatacc_CreateBatch_ok by eauto. split; [done|]. split.
    + unfold Bigdatacc.TrackBatch. unfold_go. simpl.
      by rewrite Hget, lookup_insert_eq.
    + intros other Hne. unfold Bigdatacc.TrackBatch. unfold_go. simpl.
      rewrite lookup_insert_ne by (apply prefixed_key_neq; congruence).
      by case_go.
Qed.

Lemma CreateBatch_then_TrackBatch_witness :
  let processor := Examples.caller (Some "processor") "P001" in
  let anyone := Examples.caller None "B007" in
  let st1 := (Chaincode.CreateBatch processor "B001" ["C001"; "C002"] "P001" "2025-08-09"
                Examples.emptyStub).2 in
  (Chaincode.TrackBatch anyone "B001" st1).1
    = RefJSON.MarshalBatch Examples.batch1 /\
  (Chaincode.TrackBatch anyone "B002" st1).1 = Err (Errorf "batch %s not found" ["B002"]).
Proof.
  intros processor anyone st1.
  destruct (CreateBatch_then_TrackBatch processor anyone Examples.emptyStub
              "B001" ["C001"; "C002"] "P001" "2025-08-09"
              (Examples.bytesOf (RefJSON.MarshalBatch Examples.batch1)) eq_refl eq_refl)
    as [HC _].
  destruct (HC eq_refl) as (_ & Htrack & Hother); [vm_compute; reflexivity|].
  split; [exact Htrack|].
  unfold st1. rewrite (Hother "B002") by discriminate. vm_compute; reflexivity.
Defined.

(** X6: in the legacy contract a catch logged by a caller that passes the
    check is returned by [GetCatch] with the fields given to [LogCatch] and
    the weight that [ParseFloat] read, when the JSON library decodes the
    record it encoded. *)
Theorem LogCatch_then_GetCatch `{json.Codec}
  ctx ctx' st catchId fisherId species weightKgStr date w b :
  let c := {| Catch.CatchID := catchId; Catch.FisherID := fisherId;
              Catch.Species := species; Catch.WeightKg := w; Catch.Date := date |} in
  (Bigdatacc.hasRole ctx "fisher" || Bigdatacc.isCaller ctx fisherId)%bool = true ->
  strconv.ParseFloat weightKgStr = (w, None) ->
  json.MarshalCatch c = Ok b ->
  json.UnmarshalCatch b = Ok c ->
  PutState_err (GetPeer ctx) ("CATCH_" +:+ catchId) b = None ->
  GetState_err (GetPeer ctx') ("CATCH_" +:+ catchId) = None ->
  (Bigdatacc.LogCatch ctx catchId fisherId species weightKgStr date st).1 = Ok tt /\
  (Bigdatacc.GetCatch ctx' catchId
     (Bigdatacc.LogCatch ctx catchId fisherId species weightKgStr date st).2).1 = Ok c.
Proof.
  intros c Hauth Hp Hm Hu Hput Hget.
  erewrite Bigdatacc_LogCatch_ok by eauto. split; [done|].
  unfold Bigdatacc.GetCatch. unfold_go. simpl.
  by rewrite Hget, lookup_insert_eq, Hu.
Qed.

Lemma LogCatch_then_GetCatch_witness :
  let fisher := Examples.caller (Some "fisher") "F001" in
  let anyone := Examples.caller None "B007" in
  (Bigdatacc.GetCatch anyone "C001"
     (Bigdatacc.LogCatch fisher "C001" "F001" "Tilapia" "10.5" "2025-08-09"
        Examples.emptyStub).2).1 = Ok Examples.catch1.
Proof.
  intros fisher anyone.
  assert (Hp : strconv.ParseFloat "10.5" = (Examples.tenAndAHalf, None))
    by (vm_compute; reflexivity).
  assert (Hm : json.MarshalCatch Examples.catch1
               = Ok (Examples.bytesOf (RefJSON.MarshalCatch Examples.catch1)))
    by (vm_compute; reflexivity).
  assert (Hu : json.UnmarshalCatch (Examples.bytesOf (RefJSON.MarshalCatch Examples.catch1))
               = Ok Examples.catch1) by (vm_compute; reflexivity).
  exact (proj2 (LogCatch_then_GetCatch fisher anyone Examples.emptyStub
                  "C001" "F001" "Tilapia" "10.5" "2025-08-09" Examples.tenAndAHalf
                  (Examples.bytesOf (RefJSON.MarshalCatch Examples.catch1))
                  eq_refl Hp Hm Hu eq_refl eq_refl)).
Defined.

(** *** The asset utilities of the legacy contract *)

Section AtoiBounds.

Lemma isDigit_digitVal (c : ascii) :
  strconv.isDigit c = true -> 0 <= strconv.digitVal c <= 9.
Proof.
  unfold strconv.isDigit, strconv.digitVal, Ascii.leb, Ascii.compare.
  rewrite andb_true_iff. intros [Hlo Hhi].
  destruct (N.compare_spec (N_of_ascii "0") (N_of_ascii c)) as [Heq|Hlt|Hgt];
    try done;
    destruct (N.compare_spec (N_of_ascii c) (N_of_ascii "9")) as [Heq'|Hlt'|Hgt'];
    try done; simpl in *; lia.
Qed.

Lemma parseUintLoop_bound (s : string) (n un : Z) :
  0 <= n <= 18446744073709551615 ->
  strconv.parseUintLoop s n = Ok un -> 0 <= un <= 18446744073709551615.
Proof.
  revert n. induction s as [|c s IH]; intros n Hn; simpl.
  - by intros [= <-].
  - destruct (strconv.isDigit c) eqn:Hd; [|done].
    destruct (n >=? 18446744073709551615 / 10 + 1); [done|].
    destruct (n * 10 + strconv.digitVal c >? 18446744073709551615) eqn:Hov; [done|].
    apply IH. apply isDigit_digitVal in Hd. lia.
Qed.

(** A number accepted by [Atoi] fits Go's 64-bit [int]. *)
Lemma Atoi_bound (s : string) (n : Z) :
  strconv.Atoi s = (n, None) -> - 9223372036854775808 <= n <= 9223372036854775807.
Proof.
  unfold strconv.Atoi. destruct s as [|c s]; [done|].
  destruct (if Ascii.eqb c "+" then (false, s)
            else if Ascii.eqb c "-" then (true, s) else (false, String c s))
    as [neg t].
  destruct t as [|d t]; [done|].
  destruct (strconv.parseUintLoop (String d t) 0) as [un|e] eqn:Hloop.
  - apply parseUintLoop_bound in Hloop; [|lia].
    destruct neg; simpl.
    + destruct (un >? 9223372036854775808) eqn:Hgt; [done|]. intros [= <-]. lia.
    + destruct (un >=? 9223372036854775808) eqn:Hge; [done|]. intros [= <-]. lia.
  - destruct e; try done; by destruct neg.
Qed.

End AtoiBounds.

Section Assets.
Context `{json.Codec}.

Lemma Bigdatacc_CreateAsset_ok ctx st id color sizeStr owner appraisedValueStr size appVal b :
  strconv.Atoi sizeStr = (size, None) ->
  strconv.Atoi appraisedValueStr = (appVal, None) ->
  json.MarshalAsset {| Asset.ID := id; Asset.Color := color; Asset.Size := size;
                       Asset.Owner := owner; Asset.AppraisedValue := appVal |} = Ok b ->
  PutState_err (GetPeer ctx) ("ASSET_" +:+ id) b = None ->
  Bigdatacc.CreateAsset ctx id color sizeStr owner appraisedValueStr st
  = (Ok tt, afterPut ("ASSET_" +:+ id) b st).
Proof.
  intros Hs Hv Hm Hput. unfold Bigdatacc.CreateAsset, Bigdatacc.marshalAssetIgnoringErr.
  rewrite Hs, Hv, Hm. unfold_go. by rewrite Hput.
Qed.

Lemma Bigdatacc_ReadAsset_found ctx st id b :
  GetState_err (GetPeer ctx) ("ASSET_" +:+ id) = None ->
  State st !! ("ASSET_" +:+ id) = Some b ->
  (Bigdatacc.ReadAsset ctx id st).1 = json.UnmarshalAsset b.
Proof.
  intros Hget Hb. unfold Bigdatacc.ReadAsset. unfold_go. simpl. by rewrite Hget, Hb.
Qed.

Lemma Bigdatacc_ReadAsset_missing ctx st id :
  GetState_err (GetPeer ctx) ("ASSET_" +:+ id) = None ->
  State st !! ("ASSET_" +:+ id) = None ->
  (Bigdatacc.ReadAsset ctx id st).1 = Err (Errorf "asset %s not found" [id]).
Proof.
  intros Hget Hb. unfold Bigdatacc.ReadAsset. unfold_go. simpl. by rewrite Hget, Hb.
Qed.

End Assets.

(** X7: [CreateAsset] is open to every caller and stores the asset with the
    size and the appraised value that [Atoi] read, both within Go's 64-bit
    [int]; [ReadAsset] of the same identifier then returns that asset, when
    the JSON library decodes the record it encoded. *)
Theorem CreateAsset_then_ReadAsset `{json.Codec}
  ctx ctx' st id color sizeStr owner appraisedValueStr size appVal b :
  let a := {| Asset.ID := id; Asset.Color := color; Asset.Size := size;
              Asset.Owner := owner; Asset.AppraisedValue := appVal |} in
  strconv.Atoi sizeStr = (size, None) ->
  strconv.Atoi appraisedValueStr = (appVal, None) ->
  json.MarshalAsset a = Ok b ->
  json.UnmarshalAsset b = Ok a ->
  PutState_err (GetPeer ctx) ("ASSET_" +:+ id) b = None ->
  GetState_err (GetPeer ctx') ("ASSET_" +:+ id) = None ->
  (Bigdatacc.CreateAsset ctx id color sizeStr owner appraisedValueStr st).1 = Ok tt /\
  (Bigdatacc.ReadAsset ctx' id
     (Bigdatacc.CreateAsset ctx id color sizeStr owner appraisedValueStr st).2).1 = Ok a /\
  - 9223372036854775808 <= size <= 9223372036854775807 /\
  - 9223372036854775808 <= appVal <= 9223372036854775807.
Proof.
  intros a Hs Hv Hm Hu Hput Hget.
  erewrite Bigdatacc_CreateAsset_ok by eauto. split; [done|]. split.
  - erewrite Bigdatacc_ReadAsset_found; [exact Hu | done | apply lookup_insert_eq].
  - split; eapply Atoi_bound; eauto.
Qed.

Lemma CreateAsset_then_ReadAsset_witness :
  let anyone := Examples.caller None "B007" in
  (Bigdatacc.ReadAsset anyone "A1"
     (Bigdatacc.CreateAsset anyone "A1" "red" "5" "tom" "300" Examples.emptyStub).2).1
  = Ok Examples.asset1.
Proof.
  intros anyone.
  assert (Hm : json.MarshalAsset Examples.asset1
               = Ok (Examples.bytesOf (RefJSON.MarshalAsset Examples.asset1)))
    by (vm_compute; reflexivity).
  assert (Hu : json.UnmarshalAsset (Examples.bytesOf (RefJSON.MarshalAsset Examples.asset1))
               = Ok Examples.asset1) by (vm_compute; reflexivity).
  exact (proj1 (proj2 (CreateAsset_then_ReadAsset anyone anyone Examples.emptyStub
                         "A1" "red" "5" "tom" "300" 5 300
                         (Examples.bytesOf (RefJSON.MarshalAsset Examples.asset1))
                         eq_refl eq_refl Hm Hu eq_refl eq_refl))).
Defined.

(** X8: [CreateAsset] validates the size first and the appraised value
    second, and makes no call on the stub when either is not an integer:
    a bad size gives "invalid size" even when the value is bad too, and the
    stub is returned as it was. *)
Theorem CreateAsset_rejects_bad_numbers `{json.Codec}
  ctx st id color sizeStr owner appraisedValueStr n e :
  (strconv.Atoi sizeStr = (n, Some e) ->
   Bigdatacc.CreateAsset ctx id color sizeStr owner appraisedValueStr st
   = (Err (ErrorfV "invalid size: %v" [] e), st)) /\
  (forall size,
      strconv.Atoi sizeStr = (size, None) ->
      strconv.Atoi appraisedValueStr = (n, Some e) ->
      Bigdatacc.CreateAsset ctx id color sizeStr owner appraisedValueStr st
      = (Err (ErrorfV "invalid appraisedValue: %v" [] e), st)).
Proof.
  split.
  - intros Hs. unfold Bigdatacc.CreateAsset. by rewrite Hs.
  - intros size Hs Hv. unfold Bigdatacc.CreateAsset. by rewrite Hs, Hv.
Qed.

Lemma CreateAsset_rejects_bad_numbers_witness :
  let anyone := Examples.caller None "B007" in
  Bigdatacc.CreateAsset anyone "A1" "red" "5.0" "tom" "lots" Examples.oneAsset
    = (Err (ErrorfV "invalid size: %v" [] (NumError "Atoi" "5.0" ErrSyntax)),
       Examples.oneAsset) /\
  Bigdatacc.CreateAsset anyone "A1" "red" "5" "tom" "9223372036854775808" Examples.oneAsset
    = (Err (ErrorfV "invalid appraisedValue: %v" []
              (NumError "Atoi" "9223372036854775808" ErrRange)),
       Examples.oneAsset).
Proof.
  intros anyone. split.
  - exact (proj1 (CreateAsset_rejects_bad_numbers anyone Examples.oneAsset
                    "A1" "red" "5.0" "tom" "lots" 0 _) eq_refl).
  - exact (proj2 (CreateAsset_rejects_bad_numbers anyone Examples.oneAsset
                    "A1" "red" "5" "tom" "9223372036854775808" 9223372036854775807 _)
             5 eq_refl eq_refl).
Defined.

(** X9: [TransferAsset] of an identifier with no record fails with
    "asset ... not found" after the single read; on a stored asset it
    rewrites the record with the new owner and every other field as stored
    (the identifier inside the record included), for any caller, so that
    [ReadAsset] then returns the asset under its new owner. *)
Theorem TransferAsset_changes_only_the_owner `{json.Codec} ctx st assetKey newOwner :
  GetState_err (GetPeer ctx) ("ASSET_" +:+ assetKey) = None ->
  (State st !! ("ASSET_" +:+ assetKey) = None ->
   Bigdatacc.TransferAsset ctx assetKey newOwner st
   = (Err (Errorf "asset %s not found" [assetKey]),
      record (CallGetState ("ASSET_" +:+ assetKey)) st)) /\
  (forall old a b',
      let a' := {| Asset.ID := Asset.ID a; Asset.Color := Asset.Color a;
                   Asset.Size := Asset.Size a; Asset.Owner := newOwner;
                   Asset.AppraisedValue := Asset.AppraisedValue a |} in
      State st !! ("ASSET_" +:+ assetKey) = Some old ->
      json.UnmarshalAsset old = Ok a ->
      json.MarshalAsset a' = Ok b' ->
      PutState_err (GetPeer ctx) ("ASSET_" +:+ assetKey) b' = None ->
      Bigdatacc.TransferAsset ctx assetKey newOwner st
      = (Ok tt, afterPut ("ASSET_" +:+ assetKey) b'
                  (record (CallGetState ("ASSET_" +:+ assetKey)) st)) /\
      (json.UnmarshalAsset b' = Ok a' ->
       (Bigdatacc.ReadAsset ctx assetKey
          (Bigdatacc.TransferAsset ctx assetKey newOwner st).2).1 = Ok a')).
Proof.
  intros Hget. split.
  - intros Habs. unfold Bigdatacc.TransferAsset. unfold_go. simpl.
    by rewrite Hget, Habs.
  - intros old a b' a' Hold Hu Hm Hput.
    assert (Hrun : Bigdatacc.TransferAsset ctx assetKey newOwner st
                   = (Ok tt, afterPut ("ASSET_" +:+ assetKey) b'
                               (record (CallGetState ("ASSET_" +:+ assetKey)) st))).
    { unfold Bigdatacc.TransferAsset, Bigdatacc.marshalAssetIgnoringErr. unfold_go. simpl.
      rewrite Hget, Hold, Hu. simpl. fold a'. by rewrite Hm, Hput. }
    split; [exact Hrun|]. intros Hu'. rewrite Hrun.
    erewrite Bigdatacc_ReadAsset_found; [exact Hu' | done | apply lookup_insert_eq].
Qed.

Lemma TransferAsset_changes_only_the_owner_witness :
  let eve := Examples.caller None "eve" in
  (Bigdatacc.ReadAsset eve "A1" (Bigdatacc.TransferAsset eve "A1" "eve" Examples.oneAsset).2).1
    = Ok {| Asset.ID := "A1"; Asset.Color := "red"; Asset.Size := 5;
            Asset.Owner := "eve"; Asset.AppraisedValue := 300 |} /\
  (Bigdatacc.TransferAsset eve "A2" "eve" Examples.oneAsset).1
    = Err (Errorf "asset %s not found" ["A2"]).
Proof.
  intros eve.
  destruct (TransferAsset_changes_only_the_owner eve Examples.oneAsset "A1" "eve" eq_refl)
    as [_ Hfound].
  destruct (TransferAsset_changes_only_the_owner eve Examples.oneAsset "A2" "eve" eq_refl)
    as [Hmissing _].
  destruct (Hfound (Examples.bytesOf (RefJSON.MarshalAsset Examples.asset1)) Examples.asset1
              (Examples.bytesOf (RefJSON.MarshalAsset
                 {| Asset.ID := "A1"; Asset.Color := "red"; Asset.Size := 5;
                    Asset.Owner := "eve"; Asset.AppraisedValue := 300 |})))
    as [_ Hread]; [reflexivity | vm_compute; reflexivity | vm_compute; reflexivity
                   | reflexivity |].
  split; [apply Hread; vm_compute; reflexivity|].
  rewrite Hmissing by reflexivity. reflexivity.
Defined.

(** X10: [UpdateAsset] looks for the asset before it reads its numeric
    arguments: for a missing asset it answers "asset ... not found"
    whatever the numbers are; for a stored asset a size or a value that is
    not an integer is returned as the bare [Atoi] error and nothing is
    written; otherwise the record is rewritten with the new colour, size
    and value and with the identifier and the owner as stored. *)
Theorem UpdateAsset_keeps_identity_and_owner `{json.Codec}
  ctx st assetKey color sizeStr appraisedValueStr :
  GetState_err (GetPeer ctx) ("ASSET_" +:+ assetKey) = None ->
  (State st !! ("ASSET_" +:+ assetKey) = None ->
   Bigdatacc.UpdateAsset ctx assetKey color sizeStr appraisedValueStr st
   = (Err (Errorf "asset %s not found" [assetKey]),
      record (CallGetState ("ASSET_" +:+ assetKey)) st)) /\
  (forall old a,
      State st !! ("ASSET_" +:+ assetKey) = Some old ->
      json.UnmarshalAsset old = Ok a ->
      (forall n e,
          strconv.Atoi sizeStr = (n, Some e) ->
          Bigdatacc.UpdateAsset ctx assetKey color sizeStr appraisedValueStr st
          = (Err e, record (CallGetState ("ASSET_" +:+ assetKey)) st)) /\
      (forall size n e,
          strconv.Atoi sizeStr = (size, None) ->
          strconv.Atoi appraisedValueStr = (n, Some e) ->
          Bigdatacc.UpdateAsset ctx assetKey color sizeStr appraisedValueStr st
          = (Err e, record (CallGetState ("ASSET_" +:+ assetKey)) st)) /\
      (forall size appVal b',
          strconv.Atoi sizeStr = (size, None) ->
          strconv.Atoi appraisedValueStr = (appVal, None) ->
          json.MarshalAsset {| Asset.ID := Asset.ID a; Asset.Color := color;
                               Asset.Size := size; Asset.Owner := Asset.Owner a;
                               Asset.AppraisedValue := appVal |} = Ok b' ->
          PutState_err (GetPeer ctx) ("ASSET_" +:+ assetKey) b' = None ->
          Bigdatacc.UpdateAsset ctx assetKey color sizeStr appraisedValueStr st
          = (Ok tt, afterPut ("ASSET_" +:+ assetKey) b'
                      (record (CallGetState ("ASSET_" +:+ assetKey)) st)))).
Proof.
  intros Hget. split.
  - intros Habs. unfold Bigdatacc.UpdateAsset. unfold_go. simpl.
    by rewrite Hget, Habs.
  - intros old a Hold Hu. split; [|split].
    + intros n e Hs. unfold Bigdatacc.UpdateAsset. unfold_go. simpl.
      by rewrite Hget, Hold, Hu, Hs.
    + intros size n e Hs Hv. unfold Bigdatacc.UpdateAsset. unfold_go. simpl.
      by rewrite Hget, Hold, Hu, Hs, Hv.
    + intros size appVal b' Hs Hv Hm Hput.
      unfold Bigdatacc.UpdateAsset, Bigdatacc.marshalAssetIgnoringErr. unfold_go. simpl.
      rewrite Hget, Hold, Hu, Hs, Hv. simpl. by rewrite Hm, Hput.
Qed.

Lemma UpdateAsset_keeps_identity_and_owner_witness :
  let anyone := Examples.caller None "B007" in
  let repainted := {| Asset.ID := "A1"; Asset.Color := "blue"; Asset.Size := 7;
                      Asset.Owner := "tom"; Asset.AppraisedValue := 450 |} in
  State (Bigdatacc.UpdateAsset anyone "A1" "blue" "7" "450" Examples.oneAsset).2
    !! "ASSET_A1" = Some (Examples.bytesOf (RefJSON.MarshalAsset repainted)) /\
  (Bigdatacc.UpdateAsset anyone "A1" "blue" "seven" "450" Examples.oneAsset).1
    = Err (NumError "Atoi" "seven" ErrSyntax) /\
  (Bigdatacc.UpdateAsset anyone "A2" "blue" "seven" "450" Examples.oneAsset).1
    = Err (Errorf "asset %s not found" ["A2"]).
Proof.
  intros anyone repainted.
  destruct (UpdateAsset_keeps_identity_and_owner anyone Examples.oneAsset
              "A1" "blue" "7" "450" eq_refl) as [_ Hgood].
  destruct (UpdateAsset_keeps_identity_and_owner anyone Examples.oneAsset
              "A1" "blue" "seven" "450" eq_refl) as [_ Hbad].
  destruct (UpdateAsset_keeps_identity_and_owner anyone Examples.oneAsset
              "A2" "blue" "seven" "450" eq_refl) as [Hmissing _].
  destruct (Hgood (Examples.bytesOf (RefJSON.MarshalAsset Examples.asset1)) Examples.asset1)
    as (_ & _ & Hok); [reflexivity | vm_compute; reflexivity |].
  destruct (Hbad (Examples.bytesOf (RefJSON.MarshalAsset Examples.asset1)) Examples.asset1)
    as (Hsize & _); [reflexivity | vm_compute; reflexivity |].
  split; [|split].
  - rewrite (Hok 7 450 (Examples.bytesOf (RefJSON.MarshalAsset repainted)));
      [apply lookup_insert_eq | reflexivity | reflexivity | vm_compute; reflexivity
       | reflexivity].
  - by rewrite (Hsize 0 (NumError "Atoi" "seven" ErrSyntax) eq_refl).
  - by rewrite Hmissing.
Defined.

(** X11: [DeleteAsset] of an identifier with no record fails with
    "asset ... not found" and calls only [GetState]; on a stored record,
    decodable or not, it removes the entry, after which [ReadAsset] and a
    second [DeleteAsset] both answer "asset ... not found". *)
Theorem DeleteAsset_removes_the_record `{json.Codec} ctx st assetKey :
  GetState_err (GetPeer ctx) ("ASSET_" +:+ assetKey) = None ->
  (State st !! ("ASSET_" +:+ assetKey) = None ->
   Bigdatacc.DeleteAsset ctx assetKey st
   = (Err (Errorf "asset %s not found" [assetKey]),
      record (CallGetState ("ASSET_" +:+ assetKey)) st)) /\
  (forall old,
      State st !! ("ASSET_" +:+ assetKey) = Some old ->
      DelState_err (GetPeer ctx) ("ASSET_" +:+ assetKey) = None ->
      (Bigdatacc.DeleteAsset ctx assetKey st).1 = Ok tt /\
      State (Bigdatacc.DeleteAsset ctx assetKey st).2
        = delete ("ASSET_" +:+ assetKey) (State st) /\
      (Bigdatacc.ReadAsset ctx assetKey (Bigdatacc.DeleteAsset ctx assetKey st).2).1
        = Err (Errorf "asset %s not found" [assetKey]) /\
      (Bigdatacc.DeleteAsset ctx assetKey (Bigdatacc.DeleteAsset ctx assetKey st).2).1
        = Err (Errorf "asset %s not found" [assetKey])).
Proof.
  intros Hget. split.
  - intros Habs. unfold Bigdatacc.DeleteAsset. unfold_go. simpl.
    by rewrite Hget, Habs.
  - intros old Hold Hdel.
    unfold Bigdatacc.DeleteAsset, Bigdatacc.ReadAsset. unfold_go. simpl.
    rewrite Hget, Hold, Hdel. simpl. rewrite ?Hget. simpl.
    rewrite lookup_delete_eq. by repeat split.
Qed.

Lemma DeleteAsset_removes_the_record_witness :
  let anyone := Examples.caller None "B007" in
  (Bigdatacc.DeleteAsset anyone "A1" Examples.oneAsset).1 = Ok tt /\
  (Bigdatacc.ReadAsset anyone "A1" (Bigdatacc.DeleteAsset anyone "A1" Examples.oneAsset).2).1
    = Err (Errorf "asset %s not found" ["A1"]) /\
  (Bigdatacc.DeleteAsset anyone "A2" Examples.oneAsset).1
    = Err (Errorf "asset %s not found" ["A2"]).
Proof.
  intros anyone.
  destruct (DeleteAsset_removes_the_record anyone Examples.oneAsset "A1" eq_refl)
    as [_ Hfound].
  destruct (DeleteAsset_removes_the_record anyone Examples.oneAsset "A2" eq_refl)
    as [Hmissing _].
  destruct (Hfound (Examples.bytesOf (RefJSON.MarshalAsset Examples.asset1)))
    as (Hok & _ & Hread & _); [reflexivity | reflexivity |].
  split; [exact Hok|]. split; [exact Hread|]. by rewrite Hmissing.
Defined.

(** *** The report: iterator, payload and the edge of the scan *)

Section ReportCalls.
Context `{json.Codec}.

Lemma Bigdatacc_loop_calls ctx startDate endDate entries out st :
  exists n,
    (n <= length entries)%nat /\
    Calls (Bigdatacc.GenerateReport_loop ctx startDate endDate entries out st).2
      = Calls st ++ replicate n CallNext /\
    (is_Ok (Bigdatacc.GenerateReport_loop ctx startDate endDate entries out st).1 = true ->
     n = length entries).
Proof.
  revert out st. induction entries as [|kv entries IH]; intros out st; simpl.
  { exists 0%nat. by rewrite List.app_nil_r. }
  unfold_go. simpl.
  destruct (Next_err (GetPeer ctx) kv.1); simpl.
  { exists 1%nat. repeat split; [lia | done]. }
  destruct (json.UnmarshalCatch kv.2) as [c|]; simpl.
  2: { exists 1%nat. repeat split; [lia | done]. }
  destruct (_ && _)%bool;
    match goal with
    | |- context [Bigdatacc.GenerateReport_loop _ _ _ _ ?o ?t] =>
        destruct (IH o t) as (n & Hn & Hcalls & Hok)
    end;
    exists (S n); simpl in Hcalls; rewrite Hcalls, <- List.app_assoc;
    (split; [lia|]); (split; [done|]); intros Hr; by rewrite (Hok Hr).
Qed.

Lemma Chaincode_loop_calls ctx startDate endDate entries out st :
  exists n,
    (n <= length entries)%nat /\
    Calls (Chaincode.GenerateReport_loop ctx startDate endDate entries out st).2
      = Calls st ++ replicate n CallNext /\
    (is_Ok (Chaincode.GenerateReport_loop ctx startDate endDate entries out st).1 = true ->
     n = length entries).
Proof.
  revert out st. induction entries as [|kv entries IH]; intros out st; simpl.
  { exists 0%nat. by rewrite List.app_nil_r. }
  unfold_go. simpl.
  destruct (Next_err (GetPeer ctx) kv.1); simpl.
  { exists 1%nat. repeat split; [lia | done]. }
  destruct (json.UnmarshalCatch kv.2) as [c|]; simpl.
  2: { exists 1%nat. repeat split; [lia | done]. }
  destruct (_ && _)%bool;
    match goal with
    | |- context [Chaincode.GenerateReport_loop _ _ _ _ ?o ?t] =>
        destruct (IH o t) as (n & Hn & Hcalls & Hok)
    end;
    exists (S n); simpl in Hcalls; rewrite Hcalls, <- List.app_assoc;
    (split; [lia|]); (split; [done|]); intros Hr; by rewrite (Hok Hr).
Qed.

End ReportCalls.

(** X12: the calls of an authorised [GenerateReport].  When the range
    query cannot be opened the operation returns that error having made
    the one call, with no [Next] and no [Close]; once it is open the
    calls are the range query on ["CATCH_", "CATCH_~"), one [Next] per
    entry fetched and then [Close], on every path: [Close] is the last
    call also when a fetch or a decoding fails, all entries are fetched
    when the report succeeds, and the ledger is left as it was. *)
Theorem GenerateReport_closes_its_iterator `{json.Codec} ctx st startDate endDate :
  (Chaincode.hasRole ctx "authority" = true ->
   (forall e,
       GetStateByRange_err (GetPeer ctx) "CATCH_" "CATCH_~" = Some e ->
       Chaincode.GenerateReport ctx startDate endDate st
       = (Err (ErrorfV "failed to get catches by range: %v" [] e),
          record (CallGetStateByRange "CATCH_" "CATCH_~") st)) /\
   (GetStateByRange_err (GetPeer ctx) "CATCH_" "CATCH_~" = None ->
    exists n,
      (n <= length (rangeEntries "CATCH_" "CATCH_~" (State st)))%nat /\
      Calls (Chaincode.GenerateReport ctx startDate endDate st).2
        = Calls st ++ CallGetStateByRange "CATCH_" "CATCH_~"
                      :: replicate n CallNext ++ [CallClose] /\
      (is_Ok (Chaincode.GenerateReport ctx startDate endDate st).1 = true ->
       n = length (rangeEntries "CATCH_" "CATCH_~" (State st))) /\
      State (Chaincode.GenerateReport ctx startDate endDate st).2 = State st /\
      PrivateData (Chaincode.GenerateReport ctx startDate endDate st).2 = PrivateData st)) /\
  (Bigdatacc.hasRole ctx "authority" = true ->
   (forall e,
       GetStateByRange_err (GetPeer ctx) "CATCH_" "CATCH_~" = Some e ->
       Bigdatacc.GenerateReport ctx startDate endDate st
       = (Err e, record (CallGetStateByRange "CATCH_" "CATCH_~") st)) /\
   (GetStateByRange_err (GetPeer ctx) "CATCH_" "CATCH_~" = None ->
    exists n,
      (n <= length (rangeEntries "CATCH_" "CATCH_~" (State st)))%nat /\
      Calls (Bigdatacc.GenerateReport ctx startDate endDate st).2
        = Calls st ++ CallGetStateByRange "CATCH_" "CATCH_~"
                      :: replicate n CallNext ++ [CallClose] /\
      (is_Ok (Bigdatacc.GenerateReport ctx startDate endDate st).1 = true ->
       n = length (rangeEntries "CATCH_" "CATCH_~" (State st))) /\
      State (Bigdatacc.GenerateReport ctx startDate endDate st).2 = State st /\
      PrivateData (Bigdatacc.GenerateReport ctx startDate endDate st).2 = PrivateData st)).
Proof.
  split; intros Hrole; (split; [intros e Hopen | intros Hopen]).
  - unfold Chaincode.GenerateReport. rewrite Hrole. unfold_go. simpl. by rewrite Hopen.
  - unfold Chaincode.GenerateReport. rewrite Hrole. simpl.
    unfold bind, wrapErr, lift, ret, defer, Close, GetStateByRange, record.
    rewrite Hopen. simpl.
    match goal with |- context [Chaincode.GenerateReport_loop ?c ?s ?e ?l ?o ?t] =>
      destruct (Chaincode_loop_calls c s e l o t) as (n & Hn & Hcalls & Hok);
      destruct (Chaincode_loop_state c s e l o t) as [HS HP];
      destruct (Chaincode.GenerateReport_loop c s e l o t) as [[cs|e'] st1] end;
      simpl in *; exists n; [destruct (json.MarshalCatches _)|]; simpl;
      rewrite Hcalls, <- !List.app_assoc; simpl; repeat split; auto; done.
  - unfold Bigdatacc.GenerateReport. rewrite Hrole. unfold_go. simpl. by rewrite Hopen.
  - unfold Bigdatacc.GenerateReport. rewrite Hrole. simpl.
    unfold bind, lift, ret, defer, Close, GetStateByRange, record.
    rewrite Hopen. simpl.
    match goal with |- context [Bigdatacc.GenerateReport_loop ?c ?s ?e ?l ?o ?t] =>
      destruct (Bigdatacc_loop_calls c s e l o t) as (n & Hn & Hcalls & Hok);
      destruct (Bigdatacc_loop_state c s e l o t) as [HS HP];
      destruct (Bigdatacc.GenerateReport_loop c s e l o t) as [[cs|e'] st1] end;
      simpl in *; exists n; [destruct (json.MarshalCatches _)|]; simpl;
      rewrite Hcalls, <- !List.app_assoc; simpl; repeat split; auto; done.
Qed.

Lemma GenerateReport_closes_its_iterator_witness :
  let blocked := Examples.callerOn Examples.rejectingRanges (Some "authority") "A001" in
  let authority := Examples.caller (Some "authority") "A001" in
  Chaincode.GenerateReport blocked "2025-08-09" "2025-08-10" Examples.twoCatches
    = (Err (ErrorfV "failed to get catches by range: %v" [] (ExternalError "range refused")),
       record (CallGetStateByRange "CATCH_" "CATCH_~") Examples.twoCatches) /\
  Calls (Chaincode.GenerateReport authority "2025-08-09" "2025-08-10"
           Examples.twoCatches).2
    = [CallGetStateByRange "CATCH_" "CATCH_~"; CallNext; CallNext; CallClose] /\
  Calls (Chaincode.GenerateReport authority "2025-08-09" "2025-08-10"
           Examples.corruptedCatches).2
    = [CallGetStateByRange "CATCH_" "CATCH_~"; CallNext; CallClose].
Proof.
  intros blocked authority.
  destruct (GenerateReport_closes_its_iterator blocked Examples.twoCatches
              "2025-08-09" "2025-08-10") as [HC _].
  destruct (HC eq_refl) as [Hblocked _].
  split; [exact (Hblocked _ eq_refl)|]. split; vm_compute; reflexivity.
Defined.

Section StoredDocuments.
Context `{json.Codec}.

(** On entries that are canonical encodings of catches, decoding all of
    them and encoding the selected ones gives back the selected stored
    documents. *)
Lemma marshalElems_of_stored peer wNext wUnmarshal startDate endDate entries :
  Forall (fun kv => Next_err peer kv.1 = None /\
                    exists c, json.UnmarshalCatch kv.2 = Ok c /\
                              json.MarshalCatch c = Ok kv.2) entries ->
  exists cs,
    spec_decodeEntries peer wNext wUnmarshal entries = Ok cs /\
    json.marshalElems (List.filter (spec_inDates startDate endDate) cs)
    = Ok (List.map snd (List.filter (spec_entryInDates startDate endDate) entries)).
Proof.
  induction 1 as [|kv entries (HN & c & HU & HM) _ (cs & Hcs & Hdocs)].
  - by exists [].
  - exists (c :: cs). simpl. rewrite HN, HU, Hcs. split; [done|].
    unfold spec_entryInDates at 1. rewrite HU.
    destruct (spec_inDates startDate endDate c); simpl; [|done].
    by rewrite HM, Hdocs.
Qed.

Lemma MarshalCatches_of_stored peer wNext wUnmarshal startDate endDate entries :
  Forall (fun kv => Next_err peer kv.1 = None /\
                    exists c, json.UnmarshalCatch kv.2 = Ok c /\
                              json.MarshalCatch c = Ok kv.2) entries ->
  exists cs,
    spec_decodeEntries peer wNext wUnmarshal entries = Ok cs /\
    json.MarshalCatches (List.filter (spec_inDates startDate endDate) cs)
    = Ok (spec_payload
            (List.map snd (List.filter (spec_entryInDates startDate endDate) entries))).
Proof.
  intros Hall.
  destruct (marshalElems_of_stored peer wNext wUnmarshal startDate endDate entries Hall)
    as (cs & Hcs & Hdocs).
  exists cs. split; [done|]. unfold json.MarshalCatches, spec_payload.
  destruct (List.filter (spec_inDates startDate endDate) cs) as [|c l] eqn:Hf.
  - simpl in Hdocs. by injection Hdocs as <-.
  - rewrite Hdocs. simpl in Hdocs.
    destruct (json.MarshalCatch c); [|done]. destruct (json.marshalElems l); [|done].
    by injection Hdocs as <-.
Qed.

End StoredDocuments.

(** X13: on a ledger whose scanned entries are canonical documents (each
    decodes to a catch that encodes back to the same bytes) and with the
    peer serving the scan, an authorised [GenerateReport] always succeeds,
    and its payload is made of the stored documents themselves: those of
    the in-range catches, in key order, separated by commas between
    brackets, or [null] when there is none. *)
Theorem GenerateReport_returns_stored_documents `{json.Codec} ctx st startDate endDate :
  GetStateByRange_err (GetPeer ctx) "CATCH_" "CATCH_~" = None ->
  Forall (fun kv => Next_err (GetPeer ctx) kv.1 = None /\
                    exists c, json.UnmarshalCatch kv.2 = Ok c /\
                              json.MarshalCatch c = Ok kv.2)
         (rangeEntries "CATCH_" "CATCH_~" (State st)) ->
  let docs := List.map snd (List.filter (spec_entryInDates startDate endDate)
                              (rangeEntries "CATCH_" "CATCH_~" (State st))) in
  (Chaincode.hasRole ctx "authority" = true ->
   (Chaincode.GenerateReport ctx startDate endDate st).1 = Ok (spec_payload docs)) /\
  (Bigdatacc.hasRole ctx "authority" = true ->
   (Bigdatacc.GenerateReport ctx startDate endDate st).1 = Ok (spec_payload docs)).
Proof.
  intros Hopen Hall docs. split; intros Hrole.
  - rewrite Chaincode_GenerateReport_result by done.
    destruct (MarshalCatches_of_stored _ (ErrorfV "failed during results iteration: %v" [])
                (ErrorfV "failed to unmarshal catch data: %v" []) startDate endDate _ Hall)
      as (cs & -> & ->).
    done.
  - rewrite Bigdatacc_GenerateReport_result by done.
    destruct (MarshalCatches_of_stored _ (fun e => e) (fun e => e) startDate endDate _ Hall)
      as (cs & -> & ->).
    done.
Qed.

Lemma GenerateReport_returns_stored_documents_witness :
  let authority := Examples.caller (Some "authority") "A001" in
  let doc1 := Examples.bytesOf (RefJSON.MarshalCatch Examples.catch1) in
  let doc2 := Examples.bytesOf (RefJSON.MarshalCatch Examples.catch2) in
  (Chaincode.GenerateReport authority "2025-08-09" "2025-08-10" Examples.twoCatches).1
    = Ok ("[" +:+ doc1 +:+ "," +:+ doc2 +:+ "]") /\
  (Bigdatacc.GenerateReport authority "2025-08-10" "2025-08-31" Examples.twoCatches).1
    = Ok ("[" +:+ doc2 +:+ "]").
Proof.
  intros authority doc1 doc2.
  assert (Hentries : rangeEntries "CATCH_" "CATCH_~" (State Examples.twoCatches)
                     = [("CATCH_C001", doc1); ("CATCH_C002", doc2)])
    by (vm_compute; reflexivity).
  assert (Hall : Forall (fun kv => Next_err (GetPeer authority) kv.1 = None /\
                           exists c, json.UnmarshalCatch kv.2 = Ok c /\
                                     json.MarshalCatch c = Ok kv.2)
                   (rangeEntries "CATCH_" "CATCH_~" (State Examples.twoCatches))).
  { rewrite Hentries.
    repeat constructor; [exists Examples.catch1 | exists Examples.catch2];
      (split; vm_compute; reflexivity). }
  destruct (GenerateReport_returns_stored_documents authority Examples.twoCatches
              "2025-08-09" "2025-08-10" eq_refl Hall) as [HC _].
  destruct (GenerateReport_returns_stored_documents authority Examples.twoCatches
              "2025-08-10" "2025-08-31" eq_refl Hall) as [_ HB].
  split.
  - rewrite (HC eq_refl), Hentries. vm_compute. reflexivity.
  - rewrite (HB eq_refl), Hentries. vm_compute. reflexivity.
Defined.

Section ScanEdge.

(** A catch key is inside the scanned range exactly when the identifier
    sorts before the sentinel ["~"]. *)
Lemma inRange_catch_key (id : string) :
  inRange "CATCH_" "CATCH_~" ("CATCH_" +:+ id) = str_lt id "~".
Proof.
  unfold inRange, str_le, str_lt, String.leb, String.ltb. simpl.
  by destruct id.
Qed.

End ScanEdge.

(** X14: a catch that [LogCatch] has stored is met by the scan of
    [GenerateReport] exactly when its identifier sorts, byte-wise, before
    ["~"]: a catch whose identifier starts with ["~"] or with a byte above
    it (any non-ASCII byte) is stored and never reported. *)
Theorem logged_catch_is_scanned_iff `{json.Codec}
  ctx st catchId fisherId species weightKgStr date w b :
  strconv.ParseFloat weightKgStr = (w, None) ->
  json.MarshalCatch {| Catch.CatchID := catchId; Catch.FisherID := fisherId;
                       Catch.Species := species; Catch.WeightKg := w;
                       Catch.Date := date |} = Ok b ->
  PutState_err (GetPeer ctx) ("CATCH_" +:+ catchId) b = None ->
  (State (Chaincode.LogCatch ctx catchId fisherId species weightKgStr date st).2
     !! ("CATCH_" +:+ catchId) = Some b /\
   forall v,
     ("CATCH_" +:+ catchId, v)
       ∈ rangeEntries "CATCH_" "CATCH_~"
           (State (Chaincode.LogCatch ctx catchId fisherId species weightKgStr date st).2)
     <-> v = b /\ str_lt catchId "~" = true) /\
  ((Bigdatacc.hasRole ctx "fisher" || Bigdatacc.isCaller ctx fisherId)%bool = true ->
   State (Bigdatacc.LogCatch ctx catchId fisherId species weightKgStr date st).2
     !! ("CATCH_" +:+ catchId) = Some b /\
   forall v,
     ("CATCH_" +:+ catchId, v)
       ∈ rangeEntries "CATCH_" "CATCH_~"
           (State (Bigdatacc.LogCatch ctx catchId fisherId species weightKgStr date st).2)
     <-> v = b /\ str_lt catchId "~" = true).
Proof.
  intros Hp Hm Hput.
  assert (Hscan : forall v,
             ("CATCH_" +:+ catchId, v)
               ∈ rangeEntries "CATCH_" "CATCH_~"
                   (State (afterPut ("CATCH_" +:+ catchId) b st))
             <-> v = b /\ str_lt catchId "~" = true).
  { intros v. rewrite rangeEntries_elem, inRange_catch_key. simpl.
    rewrite lookup_insert_eq. split; [intros [[= ->] ?] | intros [-> ?]]; done. }
  split; [|intros Hauth].
  - erewrite Chaincode_LogCatch_ok by eauto. split; [apply lookup_insert_eq | exact Hscan].
  - erewrite Bigdatacc_LogCatch_ok by eauto. split; [apply lookup_insert_eq | exact Hscan].
Qed.

Lemma logged_catch_is_scanned_iff_witness :
  let fisher := Examples.caller (Some "fisher") "F001" in
  let authority := Examples.caller (Some "authority") "A001" in
  let late := Examples.bytesOf (RefJSON.MarshalCatch Examples.lateCatch) in
  let st1 := (Chaincode.LogCatch fisher "~C9" "F001" "Tilapia" "10.5" "2025-08-09"
                Examples.emptyStub).2 in
  State st1 !! "CATCH_~C9" = Some late /\
  (("CATCH_~C9", late) ∈ rangeEntries "CATCH_" "CATCH_~" (State st1)
   <-> late = late /\ str_lt "~C9" "~" = true) /\
  str_lt "~C9" "~" = false /\
  (Chaincode.GenerateReport authority "0000-00-00" "9999-99-99" st1).1 = Ok "null".
Proof.
  intros fisher authority late st1.
  destruct (logged_catch_is_scanned_iff fisher Examples.emptyStub
              "~C9" "F001" "Tilapia" "10.5" "2025-08-09" Examples.tenAndAHalf late)
    as [[Hstored Hscan] _];
    [vm_compute; reflexivity | vm_compute; reflexivity | reflexivity |].
  split; [exact Hstored|]. split; [exact (Hscan late)|].
  split; vm_compute; reflexivity.
Defined.

(** X15: every operation of both contracts keeps the invariant that each
    entry of the world state inside the scanned range ["CATCH_",
    "CATCH_~") is the encoding of a catch, and the empty ledger has it:
    only [LogCatch] writes there, and the keys of fishers, batches, orders
    and assets lie outside the range. *)
Theorem operations_keep_catch_keys `{json.Codec} ctx :
  catchKeysHoldCatches Examples.emptyStub /\
  ((forall id name govtId,
       preserves catchKeysHoldCatches (Chaincode.RegisterFisher ctx id name govtId)) /\
   (forall catchId fisherId species weightKgStr date,
       preserves catchKeysHoldCatches
         (Chaincode.LogCatch ctx catchId fisherId species weightKgStr date)) /\
   (forall batchId catchIds processorId date,
       preserves catchKeysHoldCatches
         (Chaincode.CreateBatch ctx batchId catchIds processorId date)) /\
   (forall orderId batchId buyerId date,
       preserves catchKeysHoldCatches
         (Chaincode.PlaceOrder ctx orderId batchId buyerId date))) /\
  ((forall id name govtId,
       preserves catchKeysHoldCatches (Bigdatacc.RegisterFisher ctx id name govtId)) /\
   (forall catchId fisherId species weightKgStr date,
       preserves catchKeysHoldCatches
         (Bigdatacc.LogCatch ctx catchId fisherId species weightKgStr date)) /\
   (forall batchId catchIds processorId date,
       preserves catchKeysHoldCatches
         (Bigdatacc.CreateBatch ctx batchId catchIds processorId date)) /\
   (forall orderId batchId buyerId date,
       preserves catchKeysHoldCatches
         (Bigdatacc.PlaceOrder ctx orderId batchId buyerId date)) /\
   (forall id color sizeStr owner appraisedValueStr,
       preserves catchKeysHoldCatches
         (Bigdatacc.CreateAsset ctx id color sizeStr owner appraisedValueStr) /\
       preserves catchKeysHoldCatches (Bigdatacc.TransferAsset ctx id owner) /\
       preserves catchKeysHoldCatches
         (Bigdatacc.UpdateAsset ctx id color sizeStr appraisedValueStr) /\
       preserves catchKeysHoldCatches (Bigdatacc.DeleteAsset ctx id))) /\
  ((forall id,
       preserves catchKeysHoldCatches (Chaincode.GetFisher ctx id) /\
       preserves catchKeysHoldCatches (Chaincode.TrackBatch ctx id) /\
       preserves catchKeysHoldCatches (Bigdatacc.GetFisher ctx id) /\
       preserves catchKeysHoldCatches (Bigdatacc.GetCatch ctx id) /\
       preserves catchKeysHoldCatches (Bigdatacc.TrackBatch ctx id) /\
       preserves catchKeysHoldCatches (Bigdatacc.ReadAsset ctx id)) /\
   (forall startDate endDate,
       preserves catchKeysHoldCatches (Chaincode.GenerateReport ctx startDate endDate) /\
       preserves catchKeysHoldCatches (Bigdatacc.GenerateReport ctx startDate endDate))).
Proof.
  split; [apply catchKeysHoldCatches_empty|].
  split; [apply Chaincode_writes_preserve|].
  split; [apply Bigdatacc_writes_preserve|].
  apply reads_preserve. intros st st'. apply catchKeysHoldCatches_same.
Qed.

Lemma operations_keep_catch_keys_witness :
  let fisher := Examples.caller (Some "fisher") "F001" in
  let processor := Examples.caller (Some "processor") "P001" in
  let st1 := (Chaincode.LogCatch fisher "C001" "F001" "Tilapia" "10.5" "2025-08-09"
                Examples.emptyStub).2 in
  let st2 := (Chaincode.CreateBatch processor "B001" ["C001"] "P001" "2025-08-09" st1).2 in
  exists c, json.MarshalCatch c
            = Ok (Examples.bytesOf (RefJSON.MarshalCatch Examples.catch1)) /\
            State st2 !! "CATCH_C001"
            = Some (Examples.bytesOf (RefJSON.MarshalCatch Examples.catch1)).
Proof.
  intros fisher processor st1 st2.
  destruct (operations_keep_catch_keys fisher) as (Hempty & (_ & HLog & _) & _).
  destruct (operations_keep_catch_keys processor) as (_ & (_ & _ & HBatch & _) & _).
  assert (Hstored : State st2 !! "CATCH_C001"
                    = Some (Examples.bytesOf (RefJSON.MarshalCatch Examples.catch1)))
    by (vm_compute; reflexivity).
  destruct (HBatch "B001" ["C001"] "P001" "2025-08-09" st1
              (HLog "C001" "F001" "Tilapia" "10.5" "2025-08-09" Examples.emptyStub Hempty)
              "CATCH_C001" _ Hstored eq_refl) as [c Hc].
  exists c. split; [exact Hc | exact Hstored].
Defined.

(** *** Running a create operation again *)

Section Repeat.
Context `{json.Codec}.

Ltac solve_repeatable :=
  intros st; unfold_go; simpl; case_go; simplify_eq/=;
  rewrite ?insert_insert_eq; repeat split; congruence.

Lemma Chaincode_RegisterFisher_repeatable ctx id name govtId :
  repeatable (Chaincode.RegisterFisher ctx id name govtId).
Proof. unfold Chaincode.RegisterFisher. solve_repeatable. Qed.

Lemma Chaincode_LogCatch_repeatable ctx catchId fisherId species weightKgStr date :
  repeatable (Chaincode.LogCatch ctx catchId fisherId species weightKgStr date).
Proof. unfold Chaincode.LogCatch. solve_repeatable. Qed.

Lemma Chaincode_CreateBatch_repeatable ctx batchId catchIds processorId date :
  repeatable (Chaincode.CreateBatch ctx batchId catchIds processorId date).
Proof. unfold Chaincode.CreateBatch. solve_repeatable. Qed.

Lemma Chaincode_PlaceOrder_repeatable ctx orderId batchId buyerId date :
  repeatable (Chaincode.PlaceOrder ctx orderId batchId buyerId date).
Proof. unfold Chaincode.PlaceOrder. solve_repeatable. Qed.

Lemma Bigdatacc_RegisterFisher_repeatable ctx id name govtId :
  repeatable (Bigdatacc.RegisterFisher ctx id name govtId).
Proof. unfold Bigdatacc.RegisterFisher. solve_repeatable. Qed.

Lemma Bigdatacc_LogCatch_repeatable ctx catchId fisherId species weightKgStr date :
  repeatable (Bigdatacc.LogCatch ctx catchId fisherId species weightKgStr date).
Proof. unfold Bigdatacc.LogCatch. solve_repeatable. Qed.

Lemma Bigdatacc_CreateBatch_repeatable ctx batchId catchIds processorId date :
  repeatable (Bigdatacc.CreateBatch ctx batchId catchIds processorId date).
Proof. unfold Bigdatacc.CreateBatch. solve_repeatable. Qed.

Lemma Bigdatacc_PlaceOrder_repeatable ctx orderId batchId buyerId date :
  repeatable (Bigdatacc.PlaceOrder ctx orderId batchId buyerId date).
Proof. unfold Bigdatacc.PlaceOrder. solve_repeatable. Qed.

Lemma Bigdatacc_CreateAsset_repeatable ctx id color sizeStr owner appraisedValueStr :
  repeatable (Bigdatacc.CreateAsset ctx id color sizeStr owner appraisedValueStr).
Proof. unfold Bigdatacc.CreateAsset. solve_repeatable. Qed.

End Repeat.

(** X16: a create operation can be submitted again: the second run with
    the same arguments by the same caller returns what the first returned
    and leaves the world state and the private data exactly as the first
    run left them, the peer answering as before (the record is rewritten
    with the same bytes; a rejected call is rejected again). *)
Theorem creates_are_repeatable `{json.Codec} ctx :
  (forall id name govtId,
      repeatable (Chaincode.RegisterFisher ctx id name govtId) /\
      repeatable (Bigdatacc.RegisterFisher ctx id name govtId)) /\
  (forall catchId fisherId species weightKgStr date,
      repeatable (Chaincode.LogCatch ctx catchId fisherId species weightKgStr date) /\
      repeatable (Bigdatacc.LogCatch ctx catchId fisherId species weightKgStr date)) /\
  (forall batchId catchIds processorId date,
      repeatable (Chaincode.CreateBatch ctx batchId catchIds processorId date) /\
      repeatable (Bigdatacc.CreateBatch ctx batchId catchIds processorId date)) /\
  (forall orderId batchId buyerId date,
      repeatable (Chaincode.PlaceOrder ctx orderId batchId buyerId date) /\
      repeatable (Bigdatacc.PlaceOrder ctx orderId batchId buyerId date)) /\
  (forall id color sizeStr owner appraisedValueStr,
      repeatable (Bigdatacc.CreateAsset ctx id color sizeStr owner appraisedValueStr)).
Proof.
  split; [intros; split;
          [apply Chaincode_RegisterFisher_repeatable
          | apply Bigdatacc_RegisterFisher_repeatable]|].
  split; [intros; split;
          [apply Chaincode_LogCatch_repeatable | apply Bigdatacc_LogCatch_repeatable]|].
  split; [intros; split;
          [apply Chaincode_CreateBatch_repeatable | apply Bigdatacc_CreateBatch_repeatable]|].
  split; [intros; split;
          [apply Chaincode_PlaceOrder_repeatable | apply Bigdatacc_PlaceOrder_repeatable]|].
  intros. apply Bigdatacc_CreateAsset_repeatable.
Qed.

(** ** Keys

    Every entity is kept under the key [PREFIX_ + id] of the specification,
    by the operation that creates it, by the ones that look it up, rewrite
    it or remove it, and by the scan of the report. *)

Section Keys.
Context `{json.Codec}.

Ltac solve_stores :=
  intros st; unfold spec_keyFor; unfold_go; simpl;
  repeat match goal with
    | |- context [strconv.ParseFloat ?s] => destruct (strconv.ParseFloat s) as [? [?|]]; simpl
    | |- context [strconv.Atoi ?s] => destruct (strconv.Atoi s) as [? [?|]]; simpl
    | |- context [negb ?b] => destruct b eqn:?; simpl
    end;
  case_go; simplify_eq/=;
  (split; [|split]); intros; simplify_eq/=; try done; try congruence; eauto 10.

Lemma Bigdatacc_RegisterFisher_key ctx id name govtId :
  storesAt (GetPeer ctx) (spec_keyFor Participant id) (Bigdatacc.hasRole ctx "authority")
    (json.MarshalFisher {| Fisher.ID := id; Fisher.Name := name; Fisher.GovtID := govtId;
                           Fisher.Role := "fisher" |})
    (Bigdatacc.RegisterFisher ctx id name govtId).
Proof. unfold Bigdatacc.RegisterFisher. solve_stores. Qed.

Lemma Chaincode_RegisterFisher_key ctx id name govtId :
  storesPrivateAt (GetPeer ctx) "FisherCollection" (spec_keyFor Participant id)
    (Chaincode.hasRole ctx "authority")
    (json.MarshalFisher {| Fisher.ID := id; Fisher.Name := name; Fisher.GovtID := govtId;
                           Fisher.Role := "fisher" |})
    (Chaincode.RegisterFisher ctx id name govtId).
Proof. unfold Chaincode.RegisterFisher. solve_stores. Qed.

Lemma Bigdatacc_LogCatch_key ctx catchId fisherId species weightKgStr date :
  storesAt (GetPeer ctx) (spec_keyFor HarvestEvent catchId)
    ((Bigdatacc.hasRole ctx "fisher" || Bigdatacc.isCaller ctx fisherId)
     && negb (notNil (strconv.ParseFloat weightKgStr).2))
    (json.MarshalCatch {| Catch.CatchID := catchId; Catch.FisherID := fisherId;
                          Catch.Species := species;
                          Catch.WeightKg := (strconv.ParseFloat weightKgStr).1;
                          Catch.Date := date |})
    (Bigdatacc.LogCatch ctx catchId fisherId species weightKgStr date).
Proof. unfold Bigdatacc.LogCatch. solve_stores. Qed.

Lemma Chaincode_LogCatch_key ctx catchId fisherId species weightKgStr date :
  storesAt (GetPeer ctx) (spec_keyFor HarvestEvent catchId)
    (negb (notNil (strconv.ParseFloat weightKgStr).2))
    (json.MarshalCatch {| Catch.CatchID := catchId; Catch.FisherID := fisherId;
                          Catch.Species := species;
                          Catch.WeightKg := (strconv.ParseFloat weightKgStr).1;
                          Catch.Date := date |})
    (Chaincode.LogCatch ctx catchId fisherId species weightKgStr date).
Proof. unfold Chaincode.LogCatch. solve_stores. Qed.

Lemma Bigdatacc_CreateBatch_key ctx batchId catchIds processorId date :
  storesAt (GetPeer ctx) (spec_keyFor Aggregate batchId) (Bigdatacc.hasRole ctx "processor")
    (json.MarshalBatch {| Batch.BatchID := batchId; Batch.CatchIDs := catchIds;
                          Batch.ProcessorID := processorId; Batch.Date := date;
                          Batch.QRCodeURL := "https://example.org/batch/" +:+ batchId |})
    (Bigdatacc.CreateBatch ctx batchId catchIds processorId date).
Proof. unfold Bigdatacc.CreateBatch. solve_stores. Qed.

Lemma Chaincode_CreateBatch_key ctx batchId catchIds processorId date :
  storesAt (GetPeer ctx) (spec_keyFor Aggregate batchId) (Chaincode.hasRole ctx "processor")
    (json.MarshalBatch {| Batch.BatchID := batchId; Batch.CatchIDs := catchIds;
                          Batch.ProcessorID := processorId; Batch.Date := date;
                          Batch.QRCodeURL :=
                            "https://getreech.example.org/batch/" +:+ batchId |})
    (Chaincode.CreateBatch ctx batchId catchIds processorId date).
Proof. unfold Chaincode.CreateBatch. solve_stores. Qed.

Lemma Bigdatacc_PlaceOrder_key ctx orderId batchId buyerId date :
  storesAt (GetPeer ctx) (spec_keyFor BuyerOrder orderId) (Bigdatacc.hasRole ctx "buyer")
    (json.MarshalOrder {| Order.OrderID := orderId; Order.BatchID := batchId;
                          Order.BuyerID := buyerId; Order.Status := "placed";
                          Order.Date := date |})
    (Bigdatacc.PlaceOrder ctx orderId batchId buyerId date).
Proof. unfold Bigdatacc.PlaceOrder. solve_stores. Qed.

Lemma Chaincode_PlaceOrder_key ctx orderId batchId buyerId date :
  storesAt (GetPeer ctx) (spec_keyFor BuyerOrder orderId) (Chaincode.hasRole ctx "buyer")
    (json.MarshalOrder {| Order.OrderID := orderId; Order.BatchID := batchId;
                          Order.BuyerID := buyerId; Order.Status := "placed";
                          Order.Date := date |})
    (Chaincode.PlaceOrder ctx orderId batchId buyerId date).
Proof. unfold Chaincode.PlaceOrder. solve_stores. Qed.

Lemma Bigdatacc_CreateAsset_key ctx id color sizeStr owner appraisedValueStr :
  storesAt (GetPeer ctx) (spec_keyFor TestAsset id)
    (negb (notNil (strconv.Atoi sizeStr).2)
     && negb (notNil (strconv.Atoi appraisedValueStr).2))
    (Ok (Bigdatacc.marshalAssetIgnoringErr
           {| Asset.ID := id; Asset.Color := color; Asset.Size := (strconv.Atoi sizeStr).1;
              Asset.Owner := owner;
              Asset.AppraisedValue := (strconv.Atoi appraisedValueStr).1 |}))
    (Bigdatacc.CreateAsset ctx id color sizeStr owner appraisedValueStr).
Proof. unfold Bigdatacc.CreateAsset. solve_stores. Qed.

Ltac solve_lookup :=
  intros st; unfold spec_keyFor; unfold_go; simpl; case_go; simplify_eq/=; done.

Lemma Bigdatacc_GetFisher_key ctx id :
  looksUpAt (GetPeer ctx) (spec_keyFor Participant id) json.UnmarshalFisher
    (Errorf "fisher %s does not exist" [id])
    (ErrorfV "failed to read fisher %s: %v" [id])
    (Bigdatacc.GetFisher ctx id).
Proof. unfold Bigdatacc.GetFisher. solve_lookup. Qed.

Lemma Chaincode_GetFisher_key ctx id :
  looksUpPrivateAt (GetPeer ctx) "FisherCollection" (spec_keyFor Participant id)
    (fun b => match json.UnmarshalFisher b with
              | Ok f => Ok f
              | Err e => Err (ErrorfV "failed to unmarshal fisher data: %v" [] e)
              end)
    (Errorf "fisher %s does not exist" [id])
    (ErrorfV "failed to read fisher %s: %v" [id])
    (Chaincode.GetFisher ctx id).
Proof. unfold Chaincode.GetFisher. solve_lookup. Qed.

Lemma Bigdatacc_GetCatch_key ctx catchId :
  looksUpAt (GetPeer ctx) (spec_keyFor HarvestEvent catchId) json.UnmarshalCatch
    (Errorf "catch %s not found" [catchId]) (fun e => e)
    (Bigdatacc.GetCatch ctx catchId).
Proof. unfold Bigdatacc.GetCatch. solve_lookup. Qed.

Lemma Bigdatacc_TrackBatch_key ctx batchId :
  looksUpAt (GetPeer ctx) (spec_keyFor Aggregate batchId) Ok
    (Errorf "batch %s not found" [batchId]) (fun e => e)
    (Bigdatacc.TrackBatch ctx batchId).
Proof. unfold Bigdatacc.TrackBatch. solve_lookup. Qed.

Lemma Chaincode_TrackBatch_key ctx batchId :
  looksUpAt (GetPeer ctx) (spec_keyFor Aggregate batchId) Ok
    (Errorf "batch %s not found" [batchId])
    (ErrorfV "failed to get batch %s: %v" [batchId])
    (Chaincode.TrackBatch ctx batchId).
Proof. unfold Chaincode.TrackBatch. solve_lookup. Qed.

Lemma Bigdatacc_ReadAsset_key ctx id :
  looksUpAt (GetPeer ctx) (spec_keyFor TestAsset id) json.UnmarshalAsset
    (Errorf "asset %s not found" [id]) (fun e => e)
    (Bigdatacc.ReadAsset ctx id).
Proof. unfold Bigdatacc.ReadAsset. solve_lookup. Qed.

Ltac solve_rewrites :=
  intros st; unfold spec_keyFor; unfold_go; simpl;
  repeat match goal with
    | |- context [strconv.Atoi ?s] => destruct (strconv.Atoi s) as [? [?|]]; simpl
    end;
  case_go; simplify_eq/=; rewrite <- ?List.app_assoc; simpl;
  eexists; (split; [reflexivity|]); simpl;
  (split; [first [by left | right; eauto]|]);
  (split; [intros; simplify_eq/=; eauto 10 | intros; simplify_eq/=; done]).

Lemma Bigdatacc_TransferAsset_key ctx assetKey newOwner :
  rewritesAt (spec_keyFor TestAsset assetKey) (Bigdatacc.TransferAsset ctx assetKey newOwner).
Proof. unfold Bigdatacc.TransferAsset. solve_rewrites. Qed.

Lemma Bigdatacc_UpdateAsset_key ctx assetKey color sizeStr appraisedValueStr :
  rewritesAt (spec_keyFor TestAsset assetKey)
    (Bigdatacc.UpdateAsset ctx assetKey color sizeStr appraisedValueStr).
Proof. unfold Bigdatacc.UpdateAsset. solve_rewrites. Qed.

Lemma Bigdatacc_DeleteAsset_key ctx assetKey :
  removesAt (spec_keyFor TestAsset assetKey) (Bigdatacc.DeleteAsset ctx assetKey).
Proof. unfold Bigdatacc.DeleteAsset. solve_rewrites. Qed.

End Keys.

Section ScanKeys.
Context `{json.Codec}.

(** The scan of the report is determined by what the ledger holds under
    the harvest-event keys. *)
Lemma rangeEntries_catch_ext (m m' : gmap string bytes) :
  (forall id, m !! spec_keyFor HarvestEvent id = m' !! spec_keyFor HarvestEvent id) ->
  rangeEntries "CATCH_" "CATCH_~" m = rangeEntries "CATCH_" "CATCH_~" m'.
Proof.
  intros Hagree.
  apply (StronglySorted_unique_strong (fun a b => str_lt a.1 b.1 = true)).
  - intros a b _ _ Hab Hba. exfalso.
    apply str_lt_spec in Hab, Hba.
    pose proof (string_compare_lt_trans _ _ _ Hab Hba) as Haa.
    by rewrite string_compare_refl in Haa.
  - apply rangeEntries_sorted.
  - apply rangeEntries_sorted.
  - apply NoDup_Permutation.
    + eapply NoDup_fmap_1, rangeEntries_NoDup.
    + eapply NoDup_fmap_1, rangeEntries_NoDup.
    + intros [k v]. split; intros Hin;
        destruct (rangeEntries_catch_keys _ _ _ Hin) as [id ->];
        apply rangeEntries_elem in Hin as [Hlook Hrange];
        apply rangeEntries_elem; (split; [|done]).
      * by rewrite <- Hagree.
      * by rewrite Hagree.
Qed.

Lemma Bigdatacc_GenerateReport_key ctx startDate endDate :
  scansKeysOf HarvestEvent (Bigdatacc.hasRole ctx "authority")
    (Bigdatacc.GenerateReport ctx startDate endDate).
Proof.
  split.
  - intros st. unfold Bigdatacc.GenerateReport.
    destruct (Bigdatacc.hasRole ctx "authority"); simpl; [|done].
    unfold bind, lift, ret, defer, Close, GetStateByRange, record.
    destruct (GetStateByRange_err _ _ _); simpl.
    { exists []. by split. }
    match goal with |- context [Bigdatacc.GenerateReport_loop ?c ?s ?e ?l ?o ?t] =>
      destruct (Bigdatacc_loop_calls c s e l o t) as (n & _ & Hcalls & _);
      destruct (Bigdatacc.GenerateReport_loop c s e l o t) as [[cs|e'] st1] end;
      simpl in *; exists (replicate n CallNext ++ [CallClose]);
      [destruct (json.MarshalCatches _)|]; simpl;
      rewrite Hcalls, <- !List.app_assoc; simpl;
      (split; [done|]);
      (apply Forall_app; split; [apply Forall_replicate; by left | repeat constructor; by right]).
  - intros st st' Hagree.
    destruct (Bigdatacc.hasRole ctx "authority") eqn:Hrole.
    2: { unfold Bigdatacc.GenerateReport. by rewrite Hrole. }
    destruct (GetStateByRange_err (GetPeer ctx) "CATCH_" "CATCH_~") eqn:Hopen.
    { unfold Bigdatacc.GenerateReport. rewrite Hrole. unfold_go. simpl. by rewrite Hopen. }
    rewrite !Bigdatacc_GenerateReport_result by done.
    by rewrite (rangeEntries_catch_ext _ _ Hagree).
Qed.

Lemma Chaincode_GenerateReport_key ctx startDate endDate :
  scansKeysOf HarvestEvent (Chaincode.hasRole ctx "authority")
    (Chaincode.GenerateReport ctx startDate endDate).
Proof.
  split.
  - intros st. unfold Chaincode.GenerateReport.
    destruct (Chaincode.hasRole ctx "authority"); simpl; [|done].
    unfold bind, wrapErr, lift, ret, defer, Close, GetStateByRange, record.
    destruct (GetStateByRange_err _ _ _); simpl.
    { exists []. by split. }
    match goal with |- context [Chaincode.GenerateReport_loop ?c ?s ?e ?l ?o ?t] =>
      destruct (Chaincode_loop_calls c s e l o t) as (n & _ & Hcalls & _);
      destruct (Chaincode.GenerateReport_loop c s e l o t) as [[cs|e'] st1] end;
      simpl in *; exists (replicate n CallNext ++ [CallClose]);
      [destruct (json.MarshalCatches _)|]; simpl;
      rewrite Hcalls, <- !List.app_assoc; simpl;
      (split; [done|]);
      (apply Forall_app; split; [apply Forall_replicate; by left | repeat constructor; by right]).
  - intros st st' Hagree.
    destruct (Chaincode.hasRole ctx "authority") eqn:Hrole.
    2: { unfold Chaincode.GenerateReport. by rewrite Hrole. }
    destruct (GetStateByRange_err (GetPeer ctx) "CATCH_" "CATCH_~") eqn:Hopen.
    { unfold Chaincode.GenerateReport. rewrite Hrole. unfold_go. simpl. by rewrite Hopen. }
    rewrite !Chaincode_GenerateReport_result by done.
    by rewrite (rangeEntries_catch_ext _ _ Hagree).
Qed.

End ScanKeys.

(** C9: every entity is stored under the key [PREFIX_ + id] of the
    specification ("FISHER_", "CATCH_", "BATCH_", "ORDER_" and "ASSET_"
    followed by the identifier), by every operation that reads or writes
    it, in both contracts.  A create that passes its checks, encodes its
    record and is accepted by the peer does the one write of that encoding
    under the key (fishers of the current contract in the private
    collection "FisherCollection", everything else in the world state),
    succeeds in no other way, and makes no other call when it fails.  A
    lookup does the one read of the key and answers from what is stored
    there.  The asset operations read the key and then write or delete
    that same key.  [GenerateReport] opens the range from the key of the
    empty identifier to the key of "~" and its result depends on the
    ledger only through what is stored under harvest-event keys. *)
Theorem entities_are_kept_under_prefix_plus_id `{json.Codec} ctx id :
  (forall name govtId,
      let fisher := {| Fisher.ID := id; Fisher.Name := name; Fisher.GovtID := govtId;
                       Fisher.Role := "fisher" |} in
      storesPrivateAt (GetPeer ctx) "FisherCollection" (spec_keyFor Participant id)
        (Chaincode.hasRole ctx "authority") (json.MarshalFisher fisher)
        (Chaincode.RegisterFisher ctx id name govtId) /\
      storesAt (GetPeer ctx) (spec_keyFor Participant id)
        (Bigdatacc.hasRole ctx "authority") (json.MarshalFisher fisher)
        (Bigdatacc.RegisterFisher ctx id name govtId)) /\
  (looksUpPrivateAt (GetPeer ctx) "FisherCollection" (spec_keyFor Participant id)
     (fun b => match json.UnmarshalFisher b with
               | Ok f => Ok f
               | Err e => Err (ErrorfV "failed to unmarshal fisher data: %v" [] e)
               end)
     (Errorf "fisher %s does not exist" [id])
     (ErrorfV "failed to read fisher %s: %v" [id])
     (Chaincode.GetFisher ctx id) /\
   looksUpAt (GetPeer ctx) (spec_keyFor Participant id) json.UnmarshalFisher
     (Errorf "fisher %s does not exist" [id])
     (ErrorfV "failed to read fisher %s: %v" [id])
     (Bigdatacc.GetFisher ctx id)) /\
  (forall fisherId species weightKgStr date,
      let parsed := negb (notNil (strconv.ParseFloat weightKgStr).2) in
      let catch := {| Catch.CatchID := id; Catch.FisherID := fisherId;
                      Catch.Species := species;
                      Catch.WeightKg := (strconv.ParseFloat weightKgStr).1;
                      Catch.Date := date |} in
      storesAt (GetPeer ctx) (spec_keyFor HarvestEvent id) parsed (json.MarshalCatch catch)
        (Chaincode.LogCatch ctx id fisherId species weightKgStr date) /\
      storesAt (GetPeer ctx) (spec_keyFor HarvestEvent id)
        ((Bigdatacc.hasRole ctx "fisher" || Bigdatacc.isCaller ctx fisherId) && parsed)
        (json.MarshalCatch catch)
        (Bigdatacc.LogCatch ctx id fisherId species weightKgStr date)) /\
  looksUpAt (GetPeer ctx) (spec_keyFor HarvestEvent id) json.UnmarshalCatch
    (Errorf "catch %s not found" [id]) (fun e => e)
    (Bigdatacc.GetCatch ctx id) /\
  (forall catchIds processorId date,
      storesAt (GetPeer ctx) (spec_keyFor Aggregate id) (Chaincode.hasRole ctx "processor")
        (json.MarshalBatch
           {| Batch.BatchID := id; Batch.CatchIDs := catchIds;
              Batch.ProcessorID := processorId; Batch.Date := date;
              Batch.QRCodeURL := "https://getreech.example.org/batch/" +:+ id |})
        (Chaincode.CreateBatch ctx id catchIds processorId date) /\
      storesAt (GetPeer ctx) (spec_keyFor Aggregate id) (Bigdatacc.hasRole ctx "processor")
        (json.MarshalBatch
           {| Batch.BatchID := id; Batch.CatchIDs := catchIds;
              Batch.ProcessorID := processorId; Batch.Date := date;
              Batch.QRCodeURL := "https://example.org/batch/" +:+ id |})
        (Bigdatacc.CreateBatch ctx id catchIds processorId date)) /\
  (looksUpAt (GetPeer ctx) (spec_keyFor Aggregate id) Ok
     (Errorf "batch %s not found" [id])
     (ErrorfV "failed to get batch %s: %v" [id])
     (Chaincode.TrackBatch ctx id) /\
   looksUpAt (GetPeer ctx) (spec_keyFor Aggregate id) Ok
     (Errorf "batch %s not found" [id]) (fun e => e)
     (Bigdatacc.TrackBatch ctx id)) /\
  (forall batchId buyerId date,
      let order := {| Order.OrderID := id; Order.BatchID := batchId;
                      Order.BuyerID := buyerId; Order.Status := "placed";
                      Order.Date := date |} in
      storesAt (GetPeer ctx) (spec_keyFor BuyerOrder id) (Chaincode.hasRole ctx "buyer")
        (json.MarshalOrder order) (Chaincode.PlaceOrder ctx id batchId buyerId date) /\
      storesAt (GetPeer ctx) (spec_keyFor BuyerOrder id) (Bigdatacc.hasRole ctx "buyer")
        (json.MarshalOrder order) (Bigdatacc.PlaceOrder ctx id batchId buyerId date)) /\
  (forall color sizeStr owner appraisedValueStr,
      storesAt (GetPeer ctx) (spec_keyFor TestAsset id)
        (negb (notNil (strconv.Atoi sizeStr).2)
         && negb (notNil (strconv.Atoi appraisedValueStr).2))
        (Ok (Bigdatacc.marshalAssetIgnoringErr
               {| Asset.ID := id; Asset.Color := color;
                  Asset.Size := (strconv.Atoi sizeStr).1; Asset.Owner := owner;
                  Asset.AppraisedValue := (strconv.Atoi appraisedValueStr).1 |}))
        (Bigdatacc.CreateAsset ctx id color sizeStr owner appraisedValueStr) /\
      rewritesAt (spec_keyFor TestAsset id) (Bigdatacc.TransferAsset ctx id owner) /\
      rewritesAt (spec_keyFor TestAsset id)
        (Bigdatacc.UpdateAsset ctx id color sizeStr appraisedValueStr)) /\
  looksUpAt (GetPeer ctx) (spec_keyFor TestAsset id) json.UnmarshalAsset
    (Errorf "asset %s not found" [id]) (fun e => e)
    (Bigdatacc.ReadAsset ctx id) /\
  removesAt (spec_keyFor TestAsset id) (Bigdatacc.DeleteAsset ctx id) /\
  (forall startDate endDate,
      scansKeysOf HarvestEvent (Chaincode.hasRole ctx "authority")
        (Chaincode.GenerateReport ctx startDate endDate) /\
      scansKeysOf HarvestEvent (Bigdatacc.hasRole ctx "authority")
        (Bigdatacc.GenerateReport ctx startDate endDate)).
Proof.
  split; [intros; split; [apply Chaincode_RegisterFisher_key | apply Bigdatacc_RegisterFisher_key]|].
  split; [split; [apply Chaincode_GetFisher_key | apply Bigdatacc_GetFisher_key]|].
  split; [intros; split; [apply Chaincode_LogCatch_key | apply Bigdatacc_LogCatch_key]|].
  split; [apply Bigdatacc_GetCatch_key|].
  split; [intros; split; [apply Chaincode_CreateBatch_key | apply Bigdatacc_CreateBatch_key]|].
  split; [split; [apply Chaincode_TrackBatch_key | apply Bigdatacc_TrackBatch_key]|].
  split; [intros; split; [apply Chaincode_PlaceOrder_key | apply Bigdatacc_PlaceOrder_key]|].
  split.
  { intros. split; [apply Bigdatacc_CreateAsset_key|].
    split; [apply Bigdatacc_TransferAsset_key | apply Bigdatacc_UpdateAsset_key]. }
  split; [apply Bigdatacc_ReadAsset_key|].
  split; [apply Bigdatacc_DeleteAsset_key|].
  intros. split; [apply Chaincode_GenerateReport_key | apply Bigdatacc_GenerateReport_key].
Qed.

Lemma entities_are_kept_under_prefix_plus_id_witness :
  let authority := Examples.caller (Some "authority") "A001" in
  let buyer := Examples.caller (Some "buyer") "U001" in
  let fisherBytes := Examples.bytesOf (RefJSON.MarshalFisher Examples.john) in
  let order := {| Order.OrderID := "O001"; Order.BatchID := "B001";
                  Order.BuyerID := "U001"; Order.Status := "placed";
                  Order.Date := "2025-08-09" |} in
  let orderBytes := Examples.bytesOf (RefJSON.MarshalOrder order) in
  let withBatch := afterPut "BATCH_B001" "{}" Examples.twoCatches in
  Chaincode.RegisterFisher authority "F001" "John Doe" "GOV123" Examples.emptyStub
    = (Ok tt, afterPutPrivate "FisherCollection" "FISHER_F001" fisherBytes
                Examples.emptyStub) /\
  Bigdatacc.PlaceOrder buyer "O001" "B001" "U001" "2025-08-09" Examples.emptyStub
    = (Ok tt, afterPut "ORDER_O001" orderBytes Examples.emptyStub) /\
  Bigdatacc.GetCatch buyer "C001" Examples.twoCatches
    = (Ok Examples.catch1, record (CallGetState "CATCH_C001") Examples.twoCatches) /\
  Bigdatacc.GetCatch buyer "C003" Examples.twoCatches
    = (Err (Errorf "catch %s not found" ["C003"]),
       record (CallGetState "CATCH_C003") Examples.twoCatches) /\
  (Bigdatacc.GenerateReport authority "2025-08-09" "2025-08-10" withBatch).1
    = (Bigdatacc.GenerateReport authority "2025-08-09" "2025-08-10" Examples.twoCatches).1.
Proof.
  intros authority buyer fisherBytes order orderBytes withBatch.
  assert (Hf : RefJSON.MarshalFisher Examples.john = Ok fisherBytes)
    by (vm_compute; reflexivity).
  assert (Ho : RefJSON.MarshalOrder order = Ok orderBytes) by (vm_compute; reflexivity).
  destruct (entities_are_kept_under_prefix_plus_id authority "F001")
    as (HReg & _ & _ & _ & _ & _ & _ & _ & _ & _ & HRep).
  destruct (HReg "John Doe" "GOV123") as [HC _].
  destruct (HC Examples.emptyStub) as (HCok & _).
  split; [exact (HCok eq_refl fisherBytes Hf eq_refl)|].
  destruct (entities_are_kept_under_prefix_plus_id buyer "O001")
    as (_ & _ & _ & _ & _ & _ & HOrd & _).
  destruct (HOrd "B001" "U001" "2025-08-09") as [_ HB].
  destruct (HB Examples.emptyStub) as (HBok & _).
  split; [exact (HBok eq_refl orderBytes Ho eq_refl)|].
  destruct (entities_are_kept_under_prefix_plus_id buyer "C001")
    as (_ & _ & _ & HGet1 & _).
  split; [rewrite (HGet1 Examples.twoCatches); vm_compute; reflexivity|].
  destruct (entities_are_kept_under_prefix_plus_id buyer "C003")
    as (_ & _ & _ & HGet3 & _).
  split; [rewrite (HGet3 Examples.twoCatches); vm_compute; reflexivity|].
  destruct (HRep "2025-08-09" "2025-08-10") as [_ [_ HScan]].
  apply HScan. intros id. simpl. apply lookup_insert_ne. discriminate.
Defined.

(** ** Authorization, contract by contract *)

Section RoleAttribute.

(** What the two [hasRole] answer, from the attribute read. *)
Lemma Chaincode_hasRole_refuses ctx role val found err :
  GetAttributeValue (GetClientIdentity ctx) "role" = (val, found, err) ->
  err <> None \/ found = false \/ val <> role ->
  Chaincode.hasRole ctx role = false.
Proof.
  intros Hattr Hbad. unfold Chaincode.hasRole. rewrite Hattr.
  destruct err as [e|], found; simpl; try done.
  apply String.eqb_neq. intuition congruence.
Qed.

Lemma Bigdatacc_hasRole_refuses ctx role val found err :
  GetAttributeValue (GetClientIdentity ctx) "role" = (val, found, err) ->
  err = None /\ found = true /\ val <> role ->
  Bigdatacc.hasRole ctx role = false.
Proof.
  intros Hattr (-> & -> & Hne). unfold Bigdatacc.hasRole. rewrite Hattr. simpl.
  by apply String.eqb_neq.
Qed.

Lemma Bigdatacc_hasRole_lets_through ctx role val found err :
  GetAttributeValue (GetClientIdentity ctx) "role" = (val, found, err) ->
  err <> None \/ found = false ->
  Bigdatacc.hasRole ctx role = true.
Proof.
  intros Hattr Hopen. unfold Bigdatacc.hasRole. rewrite Hattr.
  destruct err as [e|], found; simpl; intuition congruence.
Qed.

(** The legacy [isCaller], from the identifier read. *)
Lemma Bigdatacc_isCaller_refuses ctx id clientID idErr :
  GetID (GetClientIdentity ctx) = (clientID, idErr) ->
  idErr <> None \/ clientID <> id ->
  Bigdatacc.isCaller ctx id = false.
Proof.
  intros Hid Hbad. unfold Bigdatacc.isCaller. rewrite Hid.
  destruct idErr as [e|]; [done|].
  apply String.eqb_neq. intuition congruence.
Qed.

End RoleAttribute.

(** Counterexample to C5 as stated: a caller with no "role" attribute is
    not an authority, yet the legacy [RegisterFisher] writes the record for
    it and the legacy [GenerateReport] opens the scan, fetches the catches
    and returns the report; the same happens for a caller whose attributes
    cannot be read. *)
Lemma legacy_gate_lets_unattributed_callers_in :
  let anonymous := Examples.caller None "F009" in
  let b := Examples.bytesOf (RefJSON.MarshalFisher Examples.john) in
  GetAttributeValue (GetClientIdentity anonymous) "role" = (EmptyString, false, None) /\
  Chaincode.hasRole anonymous "authority" = false /\
  Bigdatacc.RegisterFisher anonymous "F001" "John Doe" "GOV123" Examples.emptyStub
    = (Ok tt, afterPut "FISHER_F001" b Examples.emptyStub) /\
  State (Bigdatacc.RegisterFisher anonymous "F001" "John Doe" "GOV123"
           Examples.emptyStub).2 !! "FISHER_F001" = Some b /\
  (Bigdatacc.GenerateReport anonymous "2025-08-09" "2025-08-10" Examples.twoCatches).1
    = json.MarshalCatches [Examples.catch1; Examples.catch2] /\
  Calls (Bigdatacc.GenerateReport anonymous "2025-08-09" "2025-08-10"
           Examples.twoCatches).2
    = [CallGetStateByRange "CATCH_" "CATCH_~"; CallNext; CallNext; CallClose] /\
  Bigdatacc.RegisterFisher Examples.unreadable "F001" "John Doe" "GOV123" Examples.emptyStub
    = (Ok tt, afterPut "FISHER_F001" b Examples.emptyStub) /\
  Calls (Bigdatacc.GenerateReport Examples.unreadable "2025-08-09" "2025-08-10"
           Examples.twoCatches).2
    = [CallGetStateByRange "CATCH_" "CATCH_~"; CallNext; CallNext; CallClose].
Proof. repeat split; vm_compute; reflexivity. Qed.

(** C5, amended: an operation refuses a caller that fails its role check
    with its authorization error and without any store interaction: the
    stub it returns is the one it was given, so no record is written and
    no range query is opened.  Which callers fail the check differs by
    contract.  In the current contract, [RegisterFisher], [GenerateReport],
    [CreateBatch] and [PlaceOrder] refuse every caller whose "role"
    attribute cannot be read, is absent, or differs from the required
    role.  In the legacy contract the same four, and [LogCatch] for a
    caller whose identifier cannot be read or is not the named fisher,
    refuse only a caller whose "role" attribute is read, present and
    different from the required role; a caller whose attribute cannot be
    read or is absent is let through by design: [RegisterFisher] writes
    the record under its key and [GenerateReport] opens the scan. *)
Theorem refusal_by_role_attribute `{json.Codec} ctx st val found err clientID idErr :
  GetAttributeValue (GetClientIdentity ctx) "role" = (val, found, err) ->
  GetID (GetClientIdentity ctx) = (clientID, idErr) ->
  (err <> None \/ found = false \/ val <> "authority" ->
     (forall id name govtId,
        Chaincode.RegisterFisher ctx id name govtId st
        = (Err (Errorf "only authority can register fishers" []), st)) /\
     (forall startDate endDate,
        Chaincode.GenerateReport ctx startDate endDate st
        = (Err (Errorf "only authority can generate reports" []), st))) /\
  (err <> None \/ found = false \/ val <> "processor" ->
     forall batchId catchIds processorId date,
       Chaincode.CreateBatch ctx batchId catchIds processorId date st
       = (Err (Errorf "only processor can create batches" []), st)) /\
  (err <> None \/ found = false \/ val <> "buyer" ->
     forall orderId batchId buyerId date,
       Chaincode.PlaceOrder ctx orderId batchId buyerId date st
       = (Err (Errorf "only buyer can place orders" []), st)) /\
  (err = None /\ found = true /\ val <> "authority" ->
     (forall id name govtId,
        Bigdatacc.RegisterFisher ctx id name govtId st
        = (Err (Errorf "only authority can register fishers" []), st)) /\
     (forall startDate endDate,
        Bigdatacc.GenerateReport ctx startDate endDate st
        = (Err (Errorf "only authority can generate reports" []), st))) /\
  (err = None /\ found = true /\ val <> "processor" ->
     forall batchId catchIds processorId date,
       Bigdatacc.CreateBatch ctx batchId catchIds processorId date st
       = (Err (Errorf "only processor can create batches" []), st)) /\
  (err = None /\ found = true /\ val <> "buyer" ->
     forall orderId batchId buyerId date,
       Bigdatacc.PlaceOrder ctx orderId batchId buyerId date st
       = (Err (Errorf "only buyer can place orders" []), st)) /\
  (err = None /\ found = true /\ val <> "fisher" ->
     forall fisherId,
       idErr <> None \/ clientID <> fisherId ->
       forall catchId species weightKgStr date,
         Bigdatacc.LogCatch ctx catchId fisherId species weightKgStr date st
         = (Err (Errorf "only the fisher can log their catch" []), st)) /\
  (err <> None \/ found = false ->
     (forall id name govtId b,
        json.MarshalFisher {| Fisher.ID := id; Fisher.Name := name;
                              Fisher.GovtID := govtId; Fisher.Role := "fisher" |} = Ok b ->
        PutState_err (GetPeer ctx) ("FISHER_" +:+ id) b = None ->
        Bigdatacc.RegisterFisher ctx id name govtId st
        = (Ok tt, afterPut ("FISHER_" +:+ id) b st)) /\
     (forall startDate endDate,
        exists rest,
          Calls (Bigdatacc.GenerateReport ctx startDate endDate st).2
          = Calls st ++ CallGetStateByRange "CATCH_" "CATCH_~" :: rest)).
Proof.
  intros Hattr Hid.
  destruct (failed_check_returns_at_once ctx st)
    as (HCa & HCp & HCb & HBa & HBp & HBb & HBf).
  split; [intros Hbad; apply HCa; by eapply Chaincode_hasRole_refuses|].
  split; [intros Hbad; apply HCp; by eapply Chaincode_hasRole_refuses|].
  split; [intros Hbad; apply HCb; by eapply Chaincode_hasRole_refuses|].
  split; [intros Hbad; apply HBa; by eapply Bigdatacc_hasRole_refuses|].
  split; [intros Hbad; apply HBp; by eapply Bigdatacc_hasRole_refuses|].
  split; [intros Hbad; apply HBb; by eapply Bigdatacc_hasRole_refuses|].
  split.
  { intros Hbad fisherId Hother. apply HBf.
    - by eapply Bigdatacc_hasRole_refuses.
    - by eapply Bigdatacc_isCaller_refuses. }
  intros Hopen.
  pose proof (Bigdatacc_hasRole_lets_through ctx "authority" _ _ _ Hattr Hopen) as Hrole.
  split.
  - intros id name govtId b Hm Hput. by apply Bigdatacc_RegisterFisher_ok.
  - intros startDate endDate.
    destruct (Bigdatacc_GenerateReport_key ctx startDate endDate) as [Hcalls _].
    specialize (Hcalls st). rewrite Hrole in Hcalls.
    destruct Hcalls as (rest & Hrest & _). by exists rest.
Qed.

Lemma refusal_by_role_attribute_witness :
  let fisherF001 := Examples.caller (Some "fisher") "F001" in
  let buyerU001 := Examples.caller (Some "buyer") "U001" in
  let anonymous := Examples.caller None "F009" in
  let b := Examples.bytesOf (RefJSON.MarshalFisher Examples.john) in
  Chaincode.RegisterFisher fisherF001 "F001" "John Doe" "GOV123" Examples.twoCatches
    = (Err (Errorf "only authority can register fishers" []), Examples.twoCatches) /\
  Chaincode.GenerateReport fisherF001 "2025-08-09" "2025-08-10" Examples.twoCatches
    = (Err (Errorf "only authority can generate reports" []), Examples.twoCatches) /\
  Bigdatacc.RegisterFisher fisherF001 "F001" "John Doe" "GOV123" Examples.twoCatches
    = (Err (Errorf "only authority can register fishers" []), Examples.twoCatches) /\
  Bigdatacc.GenerateReport fisherF001 "2025-08-09" "2025-08-10" Examples.twoCatches
    = (Err (Errorf "only authority can generate reports" []), Examples.twoCatches) /\
  Bigdatacc.LogCatch buyerU001 "C001" "F001" "Tilapia" "10.5" "2025-08-09"
    Examples.twoCatches
    = (Err (Errorf "only the fisher can log their catch" []), Examples.twoCatches) /\
  Chaincode.RegisterFisher anonymous "F001" "John Doe" "GOV123" Examples.emptyStub
    = (Err (Errorf "only authority can register fishers" []), Examples.emptyStub) /\
  Bigdatacc.RegisterFisher anonymous "F001" "John Doe" "GOV123" Examples.emptyStub
    = (Ok tt, afterPut "FISHER_F001" b Examples.emptyStub).
Proof.
  intros fisherF001 buyerU001 anonymous b.
  assert (Hm : RefJSON.MarshalFisher Examples.john = Ok b) by (vm_compute; reflexivity).
  assert (Hfisher : "fisher" <> "authority") by discriminate.
  assert (Hbuyer : "buyer" <> "fisher") by discriminate.
  assert (Hother : "U001" <> "F001") by discriminate.
  destruct (refusal_by_role_attribute fisherF001 Examples.twoCatches
              "fisher" true None "F001" None eq_refl eq_refl) as (HC & _ & _ & HB & _).
  destruct (HC (or_intror (or_intror Hfisher))) as [HCr HCg].
  destruct (HB (conj eq_refl (conj eq_refl Hfisher))) as [HBr HBg].
  destruct (refusal_by_role_attribute buyerU001 Examples.twoCatches
              "buyer" true None "U001" None eq_refl eq_refl)
    as (_ & _ & _ & _ & _ & _ & HLog & _).
  destruct (refusal_by_role_attribute anonymous Examples.emptyStub
              EmptyString false None "F009" None eq_refl eq_refl)
    as (HA & _ & _ & _ & _ & _ & _ & HL).
  destruct (HA (or_intror (or_introl eq_refl))) as [HAr _].
  destruct (HL (or_intror eq_refl)) as [HLr _].
  split; [apply HCr|]. split; [apply HCg|]. split; [apply HBr|]. split; [apply HBg|].
  split; [exact (HLog (conj eq_refl (conj eq_refl Hbuyer)) "F001" (or_intror Hother)
                   "C001" "Tilapia" "10.5" "2025-08-09")|].
  split; [apply HAr|]. exact (HLr "F001" "John Doe" "GOV123" b Hm eq_refl).
Defined.
